(** * Survey summary statistics: a shallow embedding of
      [statsmodels/survey/summary_stats.py]

    The development follows the Python module class by class:
    [SurveyDesign] (validation, relabelling, per-stratum bookkeeping and the
    replicate-weight generators), [SurveyStat] (the jackknife and bootstrap
    variance engines), and the statistics [SurveyMean], [SurveyTotal],
    [SurveyQuantile] and [SurveyMedian].

    Modelling conventions.
    - Python objects are their attribute dictionaries: a [gmap string Val].
      Every [self.x = v] of the source is an insertion, every read of an
      attribute is a lookup that raises [AttributeError] when it is absent.
    - Exceptions are values of [exn]; a computation that may raise has type
      [Result A].
    - float64 numbers are an abstract type [T] with the operations the module
      uses ([FloatOps]); no law is assumed about them, so every statement
      proved here holds for IEEE arithmetic as well as for exact arithmetic.
      The instance [QOps] (exact rationals) is used to run examples.  Weights,
      fpc and data are float arrays.
    - [np.random.choice] draws from an explicit generator state that the
      functions thread through ([Random]).
    - [print] calls are left out.
    - integer arrays produced by numpy ([return_inverse], [return_index],
      [bincount], [flatnonzero]) hold non-negative values and are lists of
      [nat]; they are converted to [Z] where the source does arithmetic that
      may go below zero ([nh - 1]).
    - raw strata and cluster labels are integers ([Z]); only their grouping
      and order matter to [np.unique]. *)

From Stdlib Require Import ZArith QArith Lia.
From stdpp Require Import base option list strings gmap sorting.

Set Default Proof Using "Type".
Set Warnings "-register-all,-clear-no-such-hyp".
Local Open Scope string_scope.
Local Open Scope list_scope.
Local Open Scope nat_scope.

(** ** Exceptions *)

Inductive exn : Set :=
| ValueError
| TypeError
| IndexError
| AttributeError
| ZeroDivisionError.

Inductive Result (A : Type) : Type :=
| Ok (a : A)
| Err (e : exn).
Arguments Ok {A} a.
Arguments Err {A} e.

Definition bind {A B : Type} (m : Result A) (f : A → Result B) : Result B :=
  match m with
  | Ok a => f a
  | Err e => Err e
  end.

Notation "'let*' x ':=' m 'in' k" := (bind m (λ x, k))
  (at level 10, x name, m at level 100, k at level 200).
Notation "'let*' ' p ':=' m 'in' k" := (bind m (λ x, match x with p => k end))
  (at level 10, p pattern, m at level 100, k at level 200).

(** a Python loop that collects the results of a body that may raise *)
Fixpoint map_result {A B : Type} (f : A → Result B) (l : list A)
  : Result (list B) :=
  match l with
  | [] => Ok []
  | a :: l' => let* b := f a in let* bs := map_result f l' in Ok (b :: bs)
  end.

Definition raises {A} (m : Result A) : Prop := ∃ e, m = Err e.
Definition succeeds {A} (m : Result A) : Prop := ∃ a, m = Ok a.

(** ** float64 as an abstract number type *)

Class FloatOps (T : Type) : Type := {
  of_Z : Z → T;            (* conversion of a Python or numpy integer *)
  fadd : T → T → T;
  fsub : T → T → T;
  fmul : T → T → T;
  fdiv : T → T → T;        (* numpy division: never raises *)
  fpow : T → T → T;
  fsqrt : T → T;
  flt : T → T → bool;
  feq : T → T → bool
}.

(** ** The random source behind [np.random.choice]

    [choice g a k] draws [k] elements of [a] with replacement and returns
    the next generator state.  Nothing is assumed about the draws. *)

Class Random (G : Type) : Type := {
  choice : G → list nat → nat → list nat * G
}.

(** a random source whose draws are taken from the population handed to it *)
Definition draws_from_population (G : Type) `{Random G} : Prop :=
  ∀ (g : G) (a : list nat) (k x : nat), a ≠ [] → x ∈ (choice g a k).1 → x ∈ a.

(** a Python [for] loop whose body may raise, threading the loop state *)
Fixpoint for_each {S A : Type} (l : list A) (body : A → S → Result S) (s : S)
  : Result S :=
  match l with
  | [] => Ok s
  | a :: l' => let* s' := body a s in for_each l' body s'
  end.

Section Survey.
Context {T : Type} `{FloatOps T} {G : Type} `{Random G}.

(** ** Python values held in attributes *)

Inductive Val : Type :=
| VNone
| VBool (b : bool)
| VInt (z : Z)
| VStr (s : string)
| VFloat (x : T)                          (* 0-d float *)
| VArr (l : list T)                       (* (n,) float array *)
| VMat (p : nat) (rows : list (list T))   (* (n, p) float array *)
| VIdx (l : list nat)                     (* (n,) integer array *)
| VIdxs (l : list (list nat))             (* Python list of integer arrays *)
| VList (l : list Val)                    (* Python list *)
| VObj (o : gmap string Val).             (* reference to another object *)


Definition attr (self : gmap string Val) (name : string) : Result Val :=
  match self !! name with
  | Some v => Ok v
  | None => Err AttributeError
  end.

Definition as_arr (v : Val) : Result (list T) :=
  match v with VArr l => Ok l | _ => Err TypeError end.
Definition as_idx (v : Val) : Result (list nat) :=
  match v with VIdx l => Ok l | _ => Err TypeError end.
Definition as_idxs (v : Val) : Result (list (list nat)) :=
  match v with VIdxs l => Ok l | _ => Err TypeError end.
Definition as_nat (v : Val) : Result nat :=
  match v with VInt z => Ok (Z.to_nat z) | _ => Err TypeError end.
Definition as_str (v : Val) : Result string :=
  match v with VStr s => Ok s | _ => Err TypeError end.
Definition as_bool (v : Val) : Result bool :=
  match v with VBool b => Ok b | _ => Err TypeError end.
Definition as_obj (v : Val) : Result (gmap string Val) :=
  match v with VObj o => Ok o | _ => Err TypeError end.
Definition as_mat (v : Val) : Result (nat * list (list T)) :=
  match v with VMat p rows => Ok (p, rows) | _ => Err TypeError end.

Definition attr_arr self name := let* v := attr self name in as_arr v.
Definition attr_idx self name := let* v := attr self name in as_idx v.
Definition attr_idxs self name := let* v := attr self name in as_idxs v.
Definition attr_nat self name := let* v := attr self name in as_nat v.
Definition attr_str self name := let* v := attr self name in as_str v.
Definition attr_bool self name := let* v := attr self name in as_bool v.
Definition attr_obj self name := let* v := attr self name in as_obj v.
Definition attr_mat self name := let* v := attr self name in as_mat v.

(** ** The numpy operations the module calls

    These are library functions; they are written from numpy's documented
    behaviour, with the errors numpy raises. *)

(** [np.unique(x)]: the sorted distinct values. *)
Fixpoint insert_unique (x : Z) (u : list Z) : list Z :=
  match u with
  | [] => [x]
  | y :: u' =>
      if (x <? y)%Z then x :: y :: u'
      else if (x =? y)%Z then y :: u'
      else y :: insert_unique x u'
  end.

Definition np_unique (l : list Z) : list Z := foldr insert_unique [] l.

(** position of the first element equal to [x] ([length l] when absent) *)
Fixpoint index_of (x : Z) (l : list Z) : nat :=
  match l with
  | [] => 0
  | y :: l' => if (x =? y)%Z then 0 else S (index_of x l')
  end.

(** [np.unique(x, return_inverse=True)[1]] *)
Definition unique_inverse (l : list Z) : list nat :=
  (λ x, index_of x (np_unique l)) <$> l.

(** [np.unique(x, return_index=True)[1]]: first occurrence of each unique value *)
Definition unique_index (l : list Z) : list nat :=
  (λ u, index_of u l) <$> np_unique l.

(** Python [max] of a sequence: raises on the empty one *)
Definition py_max (l : list nat) : Result nat :=
  match l with
  | [] => Err ValueError
  | _ => Ok (max_list l)
  end.

Definition count_eq (v : nat) (l : list nat) : nat :=
  length (filter (λ x, x = v) l).

(** [np.bincount(x, minlength=m)] *)
Definition np_bincount (l : list nat) (minlength : nat) : list nat :=
  let len := match l with [] => minlength | _ => max minlength (S (max_list l)) end in
  (λ v, count_eq v l) <$> seq 0 len.

Fixpoint flatnonzero_from (i : nat) (mask : list bool) : list nat :=
  match mask with
  | [] => []
  | b :: mask' =>
      if b then i :: flatnonzero_from (S i) mask' else flatnonzero_from (S i) mask'
  end.

(** [np.flatnonzero(mask)] *)
Definition np_flatnonzero (mask : list bool) : list nat := flatnonzero_from 0 mask.

(** [a[idx]] with an integer index array: IndexError when out of bounds *)
Definition take_idx {A} (a : list A) (idx : list nat) : Result (list A) :=
  map_result (λ i, match a !! i with Some x => Ok x | None => Err IndexError end) idx.

(** scalar indexing [a[i]] with a non-negative [i] *)
Definition item {A} (a : list A) (i : nat) : Result A :=
  match a !! i with
  | Some x => Ok x
  | None => Err IndexError
  end.

Definition np_ones (n : nat) : list T := replicate n (of_Z 1).
Definition np_zeros (n : nat) : list T := replicate n (of_Z 0).
Definition np_sum (l : list T) : T := foldl fadd (of_Z 0) l.

(** [a == v] on an integer array *)
Definition eq_mask (a : list nat) (v : nat) : list bool :=
  (λ x, bool_decide (x = v)) <$> a.

(** [w[mask] *= f]: the boolean mask must have the length of [w] *)
Definition mask_mul (w : list T) (mask : list bool) (f : T) : Result (list T) :=
  if bool_decide (length mask = length w)
  then Ok (zip_with (λ x (b : bool), if b then fmul x f else x) w mask)
  else Err IndexError.

(** [w[mask] = v] *)
Definition mask_set (w : list T) (mask : list bool) (v : T) : Result (list T) :=
  if bool_decide (length mask = length w)
  then Ok (zip_with (λ x (b : bool), if b then v else x) w mask)
  else Err IndexError.

(** element-wise operations on equal-length vectors *)
Definition vadd (a b : list T) : list T := zip_with fadd a b.
Definition vsub (a b : list T) : list T := zip_with fsub a b.
Definition vscale (c : T) (a : list T) : list T := fmul c <$> a.
Definition vdiv (a : list T) (c : T) : list T := (λ x, fdiv x c) <$> a.

(** [np.dot(w, data)] for [w] of shape (n,) and [data] of shape (n, p) *)
Definition np_dot (w : list T) (p : nat) (rows : list (list T)) : Result (list T) :=
  if bool_decide (length w = length rows)
  then Ok (foldl (λ acc wr, vadd acc (vscale wr.1 wr.2)) (np_zeros p) (zip w rows))
  else Err ValueError.

(** [np.random.choice(a, size=size)] *)
Definition np_random_choice (g : G) (a : list nat) (size : Z)
  : Result (list nat * G) :=
  if (size <? 0)%Z then Err ValueError
  else if bool_decide (a = [] ∧ size ≠ 0%Z) then Err ValueError
  else Ok (choice g a (Z.to_nat size)).

(** [cc += counts] and [w *= f] on arrays of one shape *)
Definition iadd_counts (cc : list T) (counts : list nat) : Result (list T) :=
  if bool_decide (length cc = length counts)
  then Ok (zip_with (λ x (k : nat), fadd x (of_Z (Z.of_nat k))) cc counts)
  else Err ValueError.
Definition imul (w f : list T) : Result (list T) :=
  if bool_decide (length w = length f)
  then Ok (zip_with fmul w f)
  else Err ValueError.

(** ** class SurveyDesign *)

(** the lengths of the arrays supplied among strata, cluster and weights *)
Definition supplied_lengths (strata cluster : option (list Z))
    (weights : option (list T)) : list nat :=
  omap id [length <$> strata; length <$> cluster; length <$> weights].

(** [SurveyDesign._check_args] (lines 159-179) *)
Definition _check_args (strata cluster : option (list Z))
    (weights fpc : option (list T))
  : Result (list Z * list Z * list T * list T) :=
  if bool_decide (¬ is_Some strata ∧ ¬ is_Some cluster ∧ ¬ is_Some weights)
  then Err ValueError
  else
    let v : list nat := supplied_lengths strata cluster weights in
    if bool_decide (size (list_to_set v : gset nat) ≠ 1)
    then Err ValueError
    else
      let n := default 0 (head v) in
      let vals0 := default (replicate n 1%Z) strata in
      let vals1 := default (replicate n 1%Z) cluster in
      let vals2 := default (np_ones n) weights in
      let vals3 := default (np_zeros n) fpc in
      Ok (vals0, vals1, vals2, vals3).

Definition cov_methods : list string := ["boot"; "mean_boot"; "jack"].

(** [SurveyDesign.__init__] (lines 62-118).  [rep_weights] is an (n, R)
    array given as its column count and its rows.  The result is the
    attribute dictionary of the constructed object. *)
Definition SurveyDesign_init (strata cluster : option (list Z))
    (weights : option (list T)) (rep_weights : option (nat * list (list T)))
    (fpc : option (list T)) (cov_method : string) (nest : bool)
  : Result (gmap string Val) :=
  let self : gmap string Val := ∅ in
  if negb (bool_decide (cov_method ∈ cov_methods)) then Err ValueError
  else
    let self := <["cov_method" := VStr cov_method]> self in
    let self :=
      <["rep_weights" := from_option (λ r, VMat r.1 r.2) VNone rep_weights]> self in
    match rep_weights with
    | Some (_, rows) =>
        if bool_decide (is_Some strata ∨ is_Some cluster) then Err ValueError
        else
          Ok (<["weights" := VArr (default (np_ones (length rows)) weights)]> self)
    | None =>
        let* '(strata, cluster, w, fpc) := _check_args strata cluster weights fpc in
        let self := <["weights" := VArr w]> self in
        let self := <["fpc" := VArr fpc]> self in
        (* recode strata and clusters as 0, 1, ... *)
        let strat := unique_inverse strata in
        let self := <["strat" := VIdx strat]> self in
        let clust := unique_inverse cluster in
        let* mx := py_max strat in
        let nstrat := mx + 1 in
        let self := <["nstrat" := VInt (Z.of_nat nstrat)]> self in
        let* sclust :=
          (if nest then
             let* mc := py_max clust in
             let m := mc + 1 in
             let sclust := zip_with (λ c s, c + m * s) clust strat in
             Ok (unique_inverse (Z.of_nat <$> sclust))
           else Ok clust) in
        let self := <["sclust" := VIdx sclust]> self in
        (* the number of clusters per stratum *)
        let ii := unique_index (Z.of_nat <$> sclust) in
        let* strat_ii := take_idx strat ii in
        let clust_per_strat := np_bincount strat_ii 0 in
        let self := <["clust_per_strat" := VIdx clust_per_strat]> self in
        (* the stratum for each cluster *)
        let* strat_for_clust := take_idx strat ii in
        let self := <["strat_for_clust" := VIdx strat_for_clust]> self in
        (* the fpc for each cluster *)
        let* fpc := take_idx fpc ii in
        let self := <["fpc" := VArr fpc]> self in
        (* the total number of clusters *)
        let nclust := sum_list clust_per_strat in
        let self := <["nclust" := VInt (Z.of_nat nclust)]> self in
        (* indices of all clusters within a stratum *)
        let ii := (λ s, np_flatnonzero (eq_mask strat_for_clust s)) <$> seq 0 nstrat in
        Ok (<["ii" := VIdxs ii]> self)
    end.

(** [SurveyDesign._jackknife_rep_weights] (lines 213-236); [c] is a
    non-negative cluster index. *)
Definition _jackknife_rep_weights (self : gmap string Val) (c : nat)
  : Result (list T) :=
  let* strat_for_clust := attr_idx self "strat_for_clust" in
  let* s := item strat_for_clust c in
  let* clust_per_strat := attr_idx self "clust_per_strat" in
  let* nh := item clust_per_strat s in
  let* w := attr_arr self "weights" in
  let* strat := attr_idx self "strat" in
  (* all weights within the stratum are modified *)
  let* w := mask_mul w (eq_mask strat s)
        (fdiv (of_Z (Z.of_nat nh)) (of_Z (Z.of_nat nh - 1))) in
  let* sclust := attr_idx self "sclust" in
  (* within the cluster to be removed, set as 0 *)
  mask_set w (eq_mask sclust c) (of_Z 0).

(** [SurveyDesign._bootstrap_weights] (lines 238-264) *)
Definition _bootstrap_weights (self : gmap string Val) (g : G)
  : Result (list T * G) :=
  let* w := attr_arr self "weights" in
  let* nclust := attr_nat self "nclust" in
  let clust_count := np_zeros nclust in
  let* nstrat := attr_nat self "nstrat" in
  let* '(w, clust_count, g) :=
    for_each (seq 0 nstrat) (λ s '(w, clust_count, g),
      let* strat := attr_idx self "strat" in
      let* clust_per_strat := attr_idx self "clust_per_strat" in
      let* nh := item clust_per_strat s in
      let* w := mask_mul w (eq_mask strat s)
            (fdiv (of_Z (Z.of_nat nh - 1)) (of_Z (Z.of_nat nh))) in
      if bool_decide (nh = 1) then Ok (w, clust_count, g)
      else
        let* ii := attr_idxs self "ii" in
        let* ii_s := item ii s in
        let* '(ii_resample, g) := np_random_choice g ii_s (Z.of_nat nh - 1) in
        let* sclust := attr_idx self "sclust" in
        let* mx := py_max sclust in
        let* clust_count := iadd_counts clust_count (np_bincount ii_resample (mx + 1)) in
        Ok (w, clust_count, g))
      (w, clust_count, g) in
  let* sclust := attr_idx self "sclust" in
  let* f := take_idx clust_count sclust in
  let* w := imul w f in
  Ok (w, g).

(** [SurveyDesign._mean_bootstrap_weight] (lines 266-298).  The first
    statement reads [self.design.nclust] on the design object itself. *)
Definition _mean_bootstrap_weight (self : gmap string Val) (bsn : option Z) (g : G)
  : Result (list T * G) :=
  let* design := attr_obj self "design" in
  let* nclust := attr_nat design "nclust" in
  let clust_count := np_zeros nclust in
  let* w := attr_arr self "weights" in
  let* bsn := from_option Ok (Err TypeError) bsn in
  let* '(w, clust_count, g) :=
    for_each (seq 0 (Z.to_nat bsn)) (λ _ st,
      let* nstrat := attr_nat self "nstrat" in
      for_each (seq 0 nstrat) (λ s '(w, clust_count, g),
        let* strat := attr_idx self "strat" in
        let* clust_per_strat := attr_idx self "clust_per_strat" in
        let* nh := item clust_per_strat s in
        let* w := mask_mul w (eq_mask strat s)
              (fpow (fdiv (of_Z (Z.of_nat nh - 1)) (of_Z (Z.of_nat nh)))
                    (fdiv (of_Z 1) (of_Z bsn))) in
        if bool_decide (nh = 1 ∨ nh = 2) then Ok (w, clust_count, g)
        else
          let* ii := attr_idxs self "ii" in
          let* ii_s := item ii s in
          let* '(ii_resample, g) := np_random_choice g ii_s (Z.of_nat nh - 1) in
          let* sclust := attr_idx self "sclust" in
          let* mx := py_max sclust in
          let* clust_count := iadd_counts clust_count (np_bincount ii_resample (mx + 1)) in
          Ok (w, clust_count, g))
        st)
      (w, clust_count, g) in
  (* average number of times each cluster was resampled *)
  let clust_count := vdiv clust_count (of_Z bsn) in
  let* sclust := attr_idx self "sclust" in
  let* f := take_idx clust_count sclust in
  let* w := imul w f in
  Ok (w, g).

(** [SurveyDesign.get_rep_weights] (lines 181-211); [c] is a non-negative
    index, as in every call the module makes *)
Definition get_rep_weights (self : gmap string Val) (c : nat) (bsn : option Z) (g : G)
  : Result (list T * G) :=
  let* rep_weights := attr self "rep_weights" in
  match rep_weights return Result (list T * G) with
  | VNone =>
      let* cov_method := attr_str self "cov_method" in
      if bool_decide (cov_method = "jack") then
        let* w := _jackknife_rep_weights self c in
        Ok (w, g)
      else if bool_decide (cov_method = "boot") then _bootstrap_weights self g
      else _mean_bootstrap_weight self bsn g
  | VMat p rows =>
      (* self.rep_weights[:, c] *)
      if bool_decide (c < p)
      then Ok ((λ r : list T, default (of_Z 0) (r !! c)) <$> rows, g)
      else Err IndexError
  | _ => Err TypeError
  end.

(** ** class SurveyStat and the statistics *)

(** the [data] argument of the statistic classes: a (n,) or a (n, p) array *)
Inductive ndarray : Type :=
| Arr1 (l : list T)
| Arr2 (p : nat) (rows : list (list T)).

(** lines 455-458, 512-515, 570-573: [self.data] is [data] itself when it has
    two axes, else [data.reshape(len(data), 1)] *)
Definition data_attr (data : ndarray) : Val :=
  match data with
  | Arr2 p rows => VMat p rows
  | Arr1 l => VMat 1 ((λ x, [x]) <$> l)
  end.

(** the class of a statistic object selects the [_stat] it runs *)
Inductive StatClass : Set := Mean | Total | Quantile.

(** [SurveyStat.__init__] (lines 320-322), applied to an object under
    construction *)
Definition SurveyStat_init (self design : gmap string Val) (mse : bool)
  : gmap string Val :=
  <["mse" := VBool mse]> (<["design" := VObj design]> self).

(** the object under construction once [design], [mse] and [data] are set *)
Definition stat_self (d : gmap string Val) (mse : bool) (data : ndarray)
  : gmap string Val :=
  <["data" := data_attr data]> (SurveyStat_init ∅ d mse).

(** [SurveyMean._stat] (line 481) *)
Definition SurveyMean_stat (self : gmap string Val) (weights : list T)
  : Result (list T) :=
  let* data := attr_mat self "data" in
  let* d := np_dot weights data.1 data.2 in
  Ok (vdiv d (np_sum weights)).

(** [SurveyTotal._stat] (line 537) *)
Definition SurveyTotal_stat (self : gmap string Val) (weights : list T)
  : Result (list T) :=
  let* data := attr_mat self "data" in
  np_dot weights data.1 data.2.

(** [np.cumsum], [np.sort], [np.searchsorted] and [min] *)
Fixpoint cumsum_from (acc : T) (l : list T) : list T :=
  match l with
  | [] => []
  | x :: l' => let acc := fadd acc x in acc :: cumsum_from acc l'
  end.
Definition np_cumsum (l : list T) : list T :=
  match l with
  | [] => []
  | x :: l' => x :: cumsum_from x l'
  end.

Fixpoint insert_sorted (x : T) (l : list T) : list T :=
  match l with
  | [] => [x]
  | y :: l' => if flt y x then y :: insert_sorted x l' else x :: y :: l'
  end.
Definition np_sort (l : list T) : list T := foldr insert_sorted [] l.

(** the bisection loop of [np.searchsorted] for one key on the window
    [lo, hi) of [a]; the window shrinks at every turn, so [hi - lo] turns
    are enough *)
Fixpoint bisect (fuel : nat) (a : list T) (v : T) (lo hi : nat) : nat :=
  match fuel with
  | 0 => lo
  | S fuel' =>
      if lo <? hi then
        let mid := lo + (hi - lo) / 2 in
        match a !! mid with
        | Some x =>
            if flt x v then bisect fuel' a v (mid + 1) hi
            else bisect fuel' a v lo mid
        | None => lo
        end
      else lo
  end.

(** the keys of [np.searchsorted] are searched in their order; a key above
    the previous one keeps the lower end of the previous window, any other
    key restarts at 0 and ends one past the previous position *)
Fixpoint searchsorted_from (a : list T) (last_key : T) (min_idx max_idx : nat)
    (keys : list T) : list nat :=
  match keys with
  | [] => []
  | key :: keys' =>
      let '(lo, hi) :=
        if flt last_key key then (min_idx, length a)
        else (0, if max_idx <? length a then max_idx + 1 else length a) in
      let pos := bisect (hi - lo) a key lo hi in
      pos :: searchsorted_from a key pos pos keys'
  end.

(** [np.searchsorted(a, keys)] (side left), as numpy runs it: by bisection,
    whether or not [a] is ascending *)
Definition np_searchsorted (a keys : list T) : list nat :=
  match keys with
  | [] => []
  | key :: _ => searchsorted_from a key 0 (length a) keys
  end.

(** the first position of [a] whose element is not below [v], or [len(a)]:
    the position [np.searchsorted] documents for an ascending [a] *)
Fixpoint first_not_below (a : list T) (v : T) : nat :=
  match a with
  | [] => 0
  | x :: a' => if flt x v then S (first_not_below a' v) else 0
  end.

(** the comparison is a strict weak order, as [<] is on numbers *)
Definition flt_order : Prop :=
  (∀ x y z : T, flt x y = true → flt y z = true → flt x z = true) ∧
  (∀ x y z : T, flt x y = false → flt y z = false → flt x z = false).

(** no element of [a] is below an earlier one *)
Definition ascending (a : list T) : Prop :=
  StronglySorted (λ x y, flt y x = false) a.

Definition np_min (l : list T) : Result T :=
  match l with
  | [] => Err ValueError
  | x :: l' => Ok (foldl (λ m y, if flt y m then y else m) x l')
  end.

(** the last element, [a[-1]] *)
Definition item_last {A} (a : list A) : Result A :=
  match last a with
  | Some x => Ok x
  | None => Err IndexError
  end.

(** one pass of the loop of [_stat] (lines 601-610) *)
Definition quantile_at (cw sorted_data : list T) (n_cw : Z) (pq : nat * T)
  : Result T :=
  let '(pos, qi) := pq in
  if bool_decide (Z.of_nat pos = (n_cw - 1)%Z ∨ Z.of_nat pos = n_cw)
  then item_last sorted_data
  else
    let* cw_pos := item cw pos in
    if feq cw_pos qi then
      let* a := item sorted_data pos in
      let* b := item sorted_data (pos + 1) in
      Ok (fdiv (fadd a b) (of_Z 2))
    else item sorted_data pos.

(** [SurveyQuantile._stat] (lines 593-611) *)
Definition SurveyQuantile_stat (self : gmap string Val) (weights : list T)
    (col_index : nat) : Result (list T) :=
  let cw := np_cumsum weights in
  let* data := attr_mat self "data" in
  let* column := (if bool_decide (col_index < data.1)
            then Ok ((λ r : list T, default (of_Z 0) (r !! col_index)) <$> data.2)
            else Err IndexError) in
  let sorted_data := np_sort column in
  let* quantile := attr_arr self "quantile" in
  let* cw_last := item_last cw in
  let q := (λ x, fmul x cw_last) <$> quantile in
  let ind := np_searchsorted cw q in
  let* n_cw := attr self "n_cw" in
  let* n_cw := (match n_cw with VInt z => Ok z | _ => Err TypeError end) in
  map_result (quantile_at cw sorted_data n_cw) (zip ind q).

(** the call [self._stat(w)] with a single argument, as the variance
    engines write it; [SurveyQuantile._stat] takes a second positional
    argument, so that call raises *)
Definition call_stat (cls : StatClass) (self : gmap string Val) (w : list T)
  : Result (list T) :=
  match cls with
  | Mean => SurveyMean_stat self w
  | Total => SurveyTotal_stat self w
  | Quantile => Err TypeError
  end.

(** *** Array arithmetic of the variance engines

    The replicate values [jdata] are the rows of a (k, p) array; with no
    replicate at all [np.asarray([])] is the empty one-axis array, which is
    the empty list here. *)

(** [jdata -= est] *)
Definition isub_est (jdata : list (list T)) (est : list T)
  : Result (list (list T)) :=
  match jdata with
  | [] => if bool_decide (length est ≤ 1) then Ok [] else Err ValueError
  | _ => Ok ((λ r, vsub r est) <$> jdata)
  end.

(** [rows.mean(0)]: the mean of each column *)
Definition mean0 (rows : list (list T)) : list T :=
  let p := length (default [] (head rows)) in
  vdiv (foldl vadd (np_zeros p) rows) (of_Z (Z.of_nat (length rows))).

(** [jdata -= jdata.mean(0)] *)
Definition isub_mean (jdata : list (list T)) : list (list T) :=
  let m := mean0 jdata in (λ r, vsub r m) <$> jdata.

(** [jdata[idx, :] -= jdata[idx, :].mean(0)] for an index array [idx] *)
Definition isub_mean_at (jdata : list (list T)) (idx : list nat)
  : Result (list (list T)) :=
  match jdata with
  | [] => Err IndexError
  | _ =>
      let* rows := take_idx jdata idx in
      let m := mean0 rows in
      Ok (foldl (λ acc ir, <[ir.1 := vsub ir.2 m]> acc) jdata (zip idx rows))
  end.

(** lines 395-405 of [_jackknife]: centering of the replicate values *)
Definition jackknife_center (design : gmap string Val) (mse : bool)
    (est : list T) (jdata : list (list T)) : Result (list (list T)) :=
  if mse then isub_est jdata est
  else
    let* rep_weights := attr design "rep_weights" in
    match rep_weights with
    | VNone =>
        let* nstrat := attr_nat design "nstrat" in
        for_each (seq 0 nstrat) (λ s jdata,
          let* ii := attr_idxs design "ii" in
          let* ii_s := item ii s in
          isub_mean_at jdata ii_s) jdata
    | _ => Ok (isub_mean jdata)
    end.

(** line 410: [jdata + nh[:, None] * (np.dot(weights, data) - jdata)] *)
Definition pseudo_values (nh : list T) (tot : list T) (jdata : list (list T))
  : Result (list (list T)) :=
  if bool_decide (length nh = length jdata)
  then Ok (zip_with (λ n r, vadd r (vscale n (vsub tot r))) nh jdata)
  else Err ValueError.

(** line 414: [fh[:, None] * mh[:, None] * jdata] *)
Definition scale_rows (fh mh : list T) (jdata : list (list T))
  : Result (list (list T)) :=
  if bool_decide (length fh = length mh ∧ length mh = length jdata)
  then Ok (zip_with (λ c r, vscale c r) (zip_with fmul fh mh) jdata)
  else Err ValueError.

(** [np.dot(jdata.T, jdata)] for a (k, p) array with k > 0 *)
Definition gram (jdata : list (list T)) : list (list T) :=
  let p := length (default [] (head jdata)) in
  (λ a, (λ b,
     np_sum ((λ r : list T,
                fmul (default (of_Z 0) (r !! a)) (default (of_Z 0) (r !! b)))
             <$> jdata)) <$> seq 0 p) <$> seq 0 p.

Definition diag (m : list (list T)) : list T :=
  imap (λ a (r : list T), default (of_Z 0) (r !! a)) m.

(** the replicate loop: [w = design.get_rep_weights(c, bsn)] then
    [jdata.append(self._stat(w))] *)
Fixpoint replicate_stats (cls : StatClass) (self design : gmap string Val)
    (bsn : option Z) (cs : list nat) (g : G) : Result (list (list T) * G) :=
  match cs with
  | [] => Ok ([], g)
  | c :: cs' =>
      let* '(w, g) := get_rep_weights design c bsn g in
      let* v := call_stat cls self w in
      let* '(jdata, g) := replicate_stats cls self design bsn cs' g in
      Ok (v :: jdata, g)
  end.

(** [SurveyStat._jackknife] (lines 362-424).  Returns the object after the
    call, the returned triple and the state of the random source. *)
Definition _jackknife (cls : StatClass) (self : gmap string Val) (g : G)
  : Result (gmap string Val * (Val * Val * Val) * G) :=
  let* design := attr_obj self "design" in
  let* weights := attr_arr design "weights" in
  let* est := call_stat cls self weights in
  let* k :=
    match attr_nat design "nclust" with
    | Err AttributeError =>
        let* rw := attr_mat design "rep_weights" in Ok rw.1
    | r => r
    end in
  let* '(jdata, g) := replicate_stats cls self design None (seq 0 k) g in
  let* mse := attr_bool self "mse" in
  let* jdata := jackknife_center design mse est jdata in
  let* rep_weights := attr design "rep_weights" in
  let* jdata :=
    match rep_weights with
    | VNone =>
        let* clust_per_strat := attr_idx design "clust_per_strat" in
        let* strat_for_clust := attr_idx design "strat_for_clust" in
        let* nh := take_idx clust_per_strat strat_for_clust in
        let nh := (λ n : nat, of_Z (Z.of_nat n)) <$> nh in
        let* data := attr_mat self "data" in
        let* tot := np_dot weights data.1 data.2 in
        let* _pseudo := pseudo_values nh tot jdata in
        let mh := (λ n, fsqrt (fdiv (fsub n (of_Z 1)) n)) <$> nh in
        let* fpc := attr_arr design "fpc" in
        let fh := (λ f, fsqrt (fsub (of_Z 1) f)) <$> fpc in
        scale_rows fh mh jdata
    | _ =>
        let* rw := as_mat rep_weights in
        let nh := Z.of_nat rw.1 in
        if bool_decide (nh = 0%Z) then Err ZeroDivisionError
        else
          let mh := fsqrt (fdiv (of_Z (nh - 1)) (of_Z nh)) in
          Ok ((λ r : list T, (λ x, fmul x mh) <$> r) <$> jdata)
    end in
  let vcov := gram jdata in
  let self := <["vcov" := VMat (length vcov) vcov]> self in
  let stderr := fsqrt <$> diag vcov in
  let self := <["stderr" := VArr stderr]> self in
  Ok (self, (VArr est, VMat (length vcov) vcov, VArr stderr), g).

(** [SurveyStat._bootstrap] (lines 324-360) *)
Definition _bootstrap (cls : StatClass) (self : gmap string Val)
    (replicates bsn : option Z) (g : G)
  : Result (gmap string Val * (Val * Val * Val) * G) :=
  let* design := attr_obj self "design" in
  let* weights := attr_arr design "weights" in
  let* est := call_stat cls self weights in
  let* replicates := from_option Ok (Err TypeError) replicates in
  let* '(jdata, g) :=
    replicate_stats cls self design bsn (seq 0 (Z.to_nat replicates)) g in
  let* mse := attr_bool self "mse" in
  let* jdata := (if mse then isub_est jdata est else Ok (isub_mean jdata)) in
  match jdata with
  | [] =>
      (* the product of two empty one-axis arrays is the number 0.0 *)
      let vcov := fdiv (of_Z 0) (of_Z replicates) in
      let self := <["vcov" := VFloat vcov]> self in
      let stderr := fsqrt vcov in
      let self := <["stderr" := VFloat stderr]> self in
      Ok (self, (VArr est, VFloat vcov, VFloat stderr), g)
  | _ =>
      let vcov := (λ r, vdiv r (of_Z replicates)) <$> gram jdata in
      let self := <["vcov" := VMat (length vcov) vcov]> self in
      let stderr := fsqrt <$> diag vcov in
      let self := <["stderr" := VArr stderr]> self in
      Ok (self, (VArr est, VMat (length vcov) vcov, VArr stderr), g)
  end.

(** the tail shared by [SurveyMean.__init__] (lines 459-462) and
    [SurveyTotal.__init__] (lines 516-519) *)
Definition estimate (cls : StatClass) (self : gmap string Val)
    (replicates bsn : option Z) (g : G) : Result (gmap string Val * G) :=
  let* design := attr_obj self "design" in
  let* cov_method := attr_str design "cov_method" in
  let* '(self, (est, vcov, stderr), g) :=
    (if bool_decide (cov_method = "jack") then _jackknife cls self g
     else _bootstrap cls self replicates bsn g) in
  let self := <["est" := est]> self in
  let self := <["vcov" := vcov]> self in
  let self := <["stderr" := stderr]> self in
  Ok (self, g).

(** [SurveyMean.__init__] (lines 453-462) *)
Definition SurveyMean_init (design : gmap string Val) (data : ndarray)
    (mse : bool) (replicates bsn : option Z) (g : G)
  : Result (gmap string Val * G) :=
  let self := SurveyStat_init ∅ design mse in
  let self := <["data" := data_attr data]> self in
  estimate Mean self replicates bsn g.

(** [SurveyTotal.__init__] (lines 510-519) *)
Definition SurveyTotal_init (design : gmap string Val) (data : ndarray)
    (replicates : option Z) (mse : bool) (bsn : option Z) (g : G)
  : Result (gmap string Val * G) :=
  let self := SurveyStat_init ∅ design mse in
  let self := <["data" := data_attr data]> self in
  estimate Total self replicates bsn g.

(** *** SurveyQuantile and SurveyMedian *)

(** operands of a Python comparison: a number, or a bound method that was
    named but not called *)
Inductive PyOperand : Type :=
| PNum (x : T)
| PBoundMethod (name : string).

(** [a > b]: ordering a method object against a number is a TypeError
    (Python 3, which the argument-free [super()] calls of the module require) *)
Definition py_gt (a b : PyOperand) : Result bool :=
  match a, b with
  | PNum x, PNum y => Ok (flt y x)
  | _, _ => Err TypeError
  end.

(** lines 577-579: [if (self.quantile.min() < 0 or self.quantile.max > 1):
    raise ValueError] *)
Definition check_quantile (quantile : list T) : Result unit :=
  let* qmin := np_min quantile in
  let* bad :=
    (if flt qmin (of_Z 0) then Ok true
     else py_gt (PBoundMethod "max") (PNum (of_Z 1))) in
  if bad then Err ValueError else Ok ().

(** [SurveyQuantile.__init__] (lines 568-591); the positional argument
    [replicates] is never read *)
Definition SurveyQuantile_init (design : gmap string Val) (data : ndarray)
    (quantile : list T) (replicates : Val) (mse : bool) (bsn : option Z) (g : G)
  : Result (gmap string Val * G) :=
  let self : gmap string Val := <["data" := data_attr data]> ∅ in
  let self := SurveyStat_init self design mse in
  let self := <["quantile" := VArr quantile]> self in
  let* _ := check_quantile quantile in
  let* design := attr_obj self "design" in
  let* weights := attr_arr design "weights" in
  let self := <["n_cw" := VInt (Z.of_nat (length weights))]> self in
  let* data := attr_mat self "data" in
  let self := <["est" := VList (replicate data.1 (VInt 0))]> self in
  let self := <["std" := VList (replicate data.1 (VInt 0))]> self in
  let* cov_method := attr_str design "cov_method" in
  for_each (seq 0 data.1) (λ index '(self, g),
      let* '(self, _, g) :=
        (if bool_decide (cov_method = "jack") then _jackknife Quantile self g
         else _bootstrap Quantile self None None g) in
      (* the returned triple is unpacked into two targets *)
      Err ValueError)
    (self, g).

(** [SurveyMedian.__init__] (lines 618-622); the literal [.50] is 1/2 *)
Definition SurveyMedian_init (design : gmap string Val) (data : ndarray)
    (cov_method : Val) (mse : bool) (g : G) : Result (gmap string Val * G) :=
  let* '(sp, g) :=
    SurveyQuantile_init design data [fdiv (of_Z 1) (of_Z 2)] cov_method mse None g in
  let self : gmap string Val := ∅ in
  let* est := attr sp "est" in
  let self := <["est" := est]> self in
  let* vcov := attr sp "vcov" in
  let self := <["vcov" := vcov]> self in
  Ok (self, g).

(** *** Reading a design object back

    The arrays a design built from strata, clusters and weights carries, as
    one record; [view] raises when an attribute is missing. *)
Record DesignView : Type := {
  v_weights : list T;
  v_strat : list nat;
  v_sclust : list nat;
  v_strat_for_clust : list nat;
  v_clust_per_strat : list nat;
  v_nstrat : nat;
  v_nclust : nat;
  v_ii : list (list nat);
  v_fpc : list T
}.

Definition view (d : gmap string Val) : Result DesignView :=
  let* w := attr_arr d "weights" in
  let* strat := attr_idx d "strat" in
  let* sclust := attr_idx d "sclust" in
  let* sfc := attr_idx d "strat_for_clust" in
  let* cps := attr_idx d "clust_per_strat" in
  let* nstrat := attr_nat d "nstrat" in
  let* nclust := attr_nat d "nclust" in
  let* ii := attr_idxs d "ii" in
  let* fpc := attr_arr d "fpc" in
  Ok {| v_weights := w; v_strat := strat; v_sclust := sclust;
        v_strat_for_clust := sfc; v_clust_per_strat := cps;
        v_nstrat := nstrat; v_nclust := nclust; v_ii := ii; v_fpc := fpc |}.

(** the delete-one weights [w'] for cluster [c] as the specification words
    them: zero on cluster [c], scaled on the rest of its stratum, unchanged
    on every observation outside that stratum *)
Definition jackknife_weights_as_stated (v : DesignView) (c : nat) (w' : list T)
  : Prop :=
  ∀ s nh, v_strat_for_clust v !! c = Some s →
    v_clust_per_strat v !! s = Some nh → 2 ≤ nh →
    length w' = length (v_weights v) ∧
    ∀ i x si ci,
      v_weights v !! i = Some x → v_strat v !! i = Some si →
      v_sclust v !! i = Some ci →
      (ci = c → w' !! i = Some (of_Z 0)) ∧
      (ci ≠ c → si = s →
         w' !! i = Some (fmul x (fdiv (of_Z (Z.of_nat nh)) (of_Z (Z.of_nat nh - 1))))) ∧
      (si ≠ s → w' !! i = Some x).

(** the conditions under which the specification says construction fails *)
Definition config_error (strata cluster : option (list Z))
    (weights : option (list T)) (rep_weights : option (nat * list (list T)))
    (cov_method : string) : Prop :=
  cov_method ∉ cov_methods ∨
  (is_Some rep_weights ∧ (is_Some strata ∨ is_Some cluster)) ∨
  (rep_weights = None ∧ strata = None ∧ cluster = None ∧ weights = None) ∨
  ¬ (∀ x y, x ∈ supplied_lengths strata cluster weights →
            y ∈ supplied_lengths strata cluster weights → x = y).

(** construction fails exactly under those conditions, as the specification
    words it *)
Definition construction_as_stated (strata cluster : option (list Z))
    (weights : option (list T)) (rep_weights : option (nat * list (list T)))
    (fpc : option (list T)) (cov_method : string) (nest : bool) : Prop :=
  raises (SurveyDesign_init strata cluster weights rep_weights fpc cov_method nest)
  ↔ config_error strata cluster weights rep_weights cov_method.

(** the relabelled clusters of line 95-100 *)
Definition relabel (nest : bool) (clust strat : list nat) : list nat :=
  if nest then
    let m := max_list clust + 1 in
    unique_inverse (Z.of_nat <$> zip_with (λ c s, c + m * s) clust strat)
  else clust.

(** the dictionary [__init__] leaves behind on the strata/cluster path *)
Definition strata_design (cm : string) (w fpc0 fpc : list T)
    (strat sclust sfc : list nat) : gmap string Val :=
  <["ii" := VIdxs ((λ s, np_flatnonzero (eq_mask sfc s))
                     <$> seq 0 (max_list strat + 1))]>
  (<["nclust" := VInt (Z.of_nat (sum_list (np_bincount sfc 0)))]>
  (<["fpc" := VArr fpc]>
  (<["strat_for_clust" := VIdx sfc]>
  (<["clust_per_strat" := VIdx (np_bincount sfc 0)]>
  (<["sclust" := VIdx sclust]>
  (<["nstrat" := VInt (Z.of_nat (max_list strat + 1))]>
  (<["strat" := VIdx strat]>
  (<["fpc" := VArr fpc0]>
  (<["weights" := VArr w]>
  (<["rep_weights" := VNone]>
  (<["cov_method" := VStr cm]> ∅))))))))))).

End Survey.

(** ** An executable instance: exact rational arithmetic

    Results are kept in lowest terms so that equal numbers are equal terms.
    [fsqrt] is exact on squares of rationals and rounds down otherwise;
    [fpow] is exact for integer exponents. *)

Definition Qsqrt (x : Q) : Q :=
  Qred (Z.sqrt (Qnum x * Zpos (Qden x)) # Qden x).
Definition Qpow (x y : Q) : Q :=
  match Qden y with
  | 1%positive => Qred (Qpower x (Qnum y))
  | _ => 1%Q
  end.

#[export] Instance QOps : FloatOps Q := {|
  of_Z := inject_Z;
  fadd := λ a b, Qred (a + b);
  fsub := λ a b, Qred (a - b);
  fmul := λ a b, Qred (a * b);
  fdiv := λ a b, Qred (a / b);
  fpow := Qpow;
  fsqrt := Qsqrt;
  flt := λ a b, negb (Qle_bool b a);
  feq := Qeq_bool
|}.

(** A deterministic stand-in for the random source: the state is a counter
    and the [j]-th draw takes the element at position [(g + j) mod len]. *)
#[export] Instance CounterRandom : Random nat := {|
  choice := λ g a k,
    ((λ j, default 0 (a !! ((g + j) mod length a))) <$> seq 0 k, g + k)
|}.



(** ** Example designs *)

Definition design_of (r : Result (gmap string (Val (T:=Q)))) : gmap string Val :=
  match r with Ok d => d | Err _ => ∅ end.

Definition stat_of (r : Result (gmap string (Val (T:=Q)) * nat))
  : gmap string Val :=
  match r with Ok (o, _) => o | Err _ => ∅ end.

(** two strata of two single-observation clusters, unit weights *)
Definition two_by_two : gmap string (Val (T:=Q)) :=
  design_of (SurveyDesign_init (Some [0; 0; 1; 1]%Z) (Some [0; 1; 2; 3]%Z)
               (Some [1; 1; 1; 1]%Q) None None "jack" true).

Definition two_by_two_view : DesignView (T:=Q) :=
  {| v_weights := [1; 1; 1; 1]%Q; v_strat := [0; 0; 1; 1];
     v_sclust := [0; 1; 2; 3]; v_strat_for_clust := [0; 0; 1; 1];
     v_clust_per_strat := [2; 2]; v_nstrat := 2; v_nclust := 4;
     v_ii := [[0; 1]; [2; 3]]; v_fpc := [0; 0; 0; 0]%Q |}.

(** cluster labels reused across the two strata, constructed without nesting *)
Definition straddling : gmap string (Val (T:=Q)) :=
  design_of (SurveyDesign_init (Some [0; 0; 1; 1]%Z) (Some [0; 1; 0; 1]%Z)
               (Some [1; 1; 1; 1]%Q) None None "jack" false).

Definition straddling_view : DesignView (T:=Q) :=
  {| v_weights := [1; 1; 1; 1]%Q; v_strat := [0; 0; 1; 1];
     v_sclust := [0; 1; 0; 1]; v_strat_for_clust := [0; 0];
     v_clust_per_strat := [2]; v_nstrat := 2; v_nclust := 2;
     v_ii := [[0; 1]; []]; v_fpc := [0; 0]%Q |}.

(** strata labels only, bootstrap method *)
Definition strata_only : gmap string (Val (T:=Q)) :=
  design_of (SurveyDesign_init (Some [0; 0; 1; 1]%Z) None None None None "boot" true).

(** one stratum of three two-observation clusters, mean bootstrap *)
Definition three_clusters : gmap string (Val (T:=Q)) :=
  design_of (SurveyDesign_init (Some [5; 5; 5; 5; 5; 5]%Z)
               (Some [0; 0; 1; 1; 2; 2]%Z) None None None "mean_boot" true).

(** the mean of the column 10, 20, 30, 40 on [two_by_two] *)
Definition mean_two_by_two : gmap string (Val (T:=Q)) :=
  stat_of (SurveyMean_init two_by_two (Arr1 [10; 20; 30; 40]%Q) false None None
             (0 : nat)).

(** a statistic object with four unit-weight observations, whose data
    column sorts to 1, 2, 3, 4 *)
Definition quantile_example : gmap string (Val (T:=Q)) :=
  <["n_cw" := VInt 4]>
    (<["quantile" := VArr [1 # 2; 3 # 10]%Q]>
       (<["data" := VMat 1 [[3]; [1]; [4]; [2]]%Q]> ∅)).

(** labelled strata and clusters with an fpc per observation *)
Definition labelled : gmap string (Val (T:=Q)) :=
  design_of (SurveyDesign_init (Some [7; 3; 7; 3; 3]%Z) (Some [1; 1; 2; 1; 2]%Z)
               None None (Some [1 # 10; 2 # 10; 3 # 10; 4 # 10; 5 # 10]%Q)
               "jack" true).

Definition labelled_view : DesignView (T:=Q) :=
  {| v_weights := [1; 1; 1; 1; 1]%Q; v_strat := [1; 0; 1; 0; 0];
     v_sclust := [2; 0; 3; 0; 1]; v_strat_for_clust := [0; 0; 1; 1];
     v_clust_per_strat := [2; 2]; v_nstrat := 2; v_nclust := 4;
     v_ii := [[0; 1]; [2; 3]];
     v_fpc := [2 # 10; 5 # 10; 1 # 10; 3 # 10]%Q |}.

(** a stratum of two clusters and a stratum of a single cluster *)
Definition lonely : gmap string (Val (T:=Q)) :=
  design_of (SurveyDesign_init (Some [0; 0; 1]%Z) (Some [0; 1; 2]%Z)
               (Some [1; 1; 1]%Q) None None "jack" true).

Definition lonely_view : DesignView (T:=Q) :=
  {| v_weights := [1; 1; 1]%Q; v_strat := [0; 0; 1];
     v_sclust := [0; 1; 2]; v_strat_for_clust := [0; 0; 1];
     v_clust_per_strat := [2; 1]; v_nstrat := 2; v_nclust := 3;
     v_ii := [[0; 1]; [2]]; v_fpc := [0; 0; 0]%Q |}.

(** three observations with two columns of replicate weights *)
Definition replicated : gmap string (Val (T:=Q)) :=
  design_of (SurveyDesign_init None None None
               (Some (2, [[1; 2]; [3; 4]; [5; 6]]%Q)) None "jack" true).

(** the arrays of [three_clusters] under the plain bootstrap *)
Definition three_clusters_boot : gmap string (Val (T:=Q)) :=
  design_of (SurveyDesign_init (Some [5; 5; 5; 5; 5; 5]%Z)
               (Some [0; 0; 1; 1; 2; 2]%Z) None None None "boot" true).

(** the data of [quantile_example] with the levels 1 and 0 *)
Definition quantile_ends : gmap string (Val (T:=Q)) :=
  <["n_cw" := VInt 4]>
    (<["quantile" := VArr [1; 0]%Q]>
       (<["data" := VMat 1 [[3]; [1]; [4]; [2]]%Q]> ∅)).

(** the same data with the single level 1/2 *)
Definition quantile_half : gmap string (Val (T:=Q)) :=
  <["n_cw" := VInt 4]>
    (<["quantile" := VArr [1 # 2]%Q]>
       (<["data" := VMat 1 [[3]; [1]; [4]; [2]]%Q]> ∅)).

(** * Properties *)

(** ** The error monad *)

Lemma bind_Ok {A B : Type} (m : Result A) (f : A → Result B) (b : B) :
  bind m f = Ok b ↔ ∃ a, m = Ok a ∧ f a = Ok b.
Proof.
  destruct m as [a|e]; simpl; split.
  - eauto.
  - by intros (a' & [= ->] & ?).
  - done.
  - by intros (? & ? & ?).
Qed.

(** peel the successful steps off a computation known to return *)
Ltac inv_bind H :=
  repeat first
    [ apply bind_Ok in H as (? & _ & H)
    | match type of H with
      | context [match ?x with pair _ _ => _ end] => destruct x
      end ].

Lemma map_result_Ok {A B : Type} (f : A → Result B) (l : list A) (r : list B) :
  map_result f l = Ok r ↔ Forall2 (λ a b, f a = Ok b) l r.
Proof.
  revert r. induction l as [|a l IH]; intros r; simpl.
  - split; [intros [= <-]; constructor | by inversion 1].
  - rewrite bind_Ok. split.
    + intros (b & Hb & Hr). apply bind_Ok in Hr as (bs & Hbs & [= <-]).
      constructor; [done | by apply IH].
    + inversion 1 as [|? b ? bs Hb Hbs]; subst. exists b. split; [done|].
      apply IH in Hbs. by rewrite Hbs.
Qed.

Lemma map_result_total {A B : Type} (f : A → Result B) (l : list A) :
  (∀ a, a ∈ l → succeeds (f a)) → succeeds (map_result f l).
Proof.
  induction l as [|a l IH]; intros Hf; simpl; [by eexists|].
  destruct (Hf a) as [b Hb]; [by left|]. rewrite Hb. simpl.
  destruct IH as [bs Hbs]; [intros; apply Hf; by right|].
  rewrite Hbs. by eexists.
Qed.

(** ** numpy: [np.unique] and its index outputs *)

Lemma elem_of_insert_unique (x y : Z) (u : list Z) :
  y ∈ insert_unique x u ↔ y = x ∨ y ∈ u.
Proof.
  induction u as [|z u IH]; simpl.
  - rewrite list_elem_of_singleton. set_solver.
  - destruct (Z.ltb_spec x z); [set_solver|].
    destruct (Z.eqb_spec x z); [set_solver|].
    rewrite !elem_of_cons, IH. tauto.
Qed.

Lemma elem_of_np_unique (x : Z) (l : list Z) : x ∈ np_unique l ↔ x ∈ l.
Proof.
  induction l as [|y l IH]; simpl; [done|].
  rewrite elem_of_insert_unique, elem_of_cons, IH. done.
Qed.

Lemma insert_unique_sorted (x : Z) (u : list Z) :
  StronglySorted Z.lt u → StronglySorted Z.lt (insert_unique x u).
Proof.
  induction 1 as [|z u Hu IH Hz]; simpl.
  - repeat constructor.
  - destruct (Z.ltb_spec x z).
    + constructor; [by constructor|].
      constructor; [done|]. eapply Forall_impl; [done|]. simpl. lia.
    + destruct (Z.eqb_spec x z); [by constructor|].
      constructor; [done|].
      apply Forall_forall. intros y Hy.
      apply elem_of_insert_unique in Hy as [->|Hy]; [lia|].
      by eapply Forall_forall in Hz.
Qed.

Lemma np_unique_sorted (l : list Z) : StronglySorted Z.lt (np_unique l).
Proof.
  induction l; simpl; [constructor | by apply insert_unique_sorted].
Qed.

Lemma StronglySorted_lt_NoDup (u : list Z) : StronglySorted Z.lt u → NoDup u.
Proof.
  induction 1 as [|z u Hu IH Hz]; constructor; [|done].
  intros Hin. eapply Forall_forall in Hz; [|done]. lia.
Qed.

Lemma np_unique_NoDup (l : list Z) : NoDup (np_unique l).
Proof. apply StronglySorted_lt_NoDup, np_unique_sorted. Qed.

(** a strictly ascending list is determined by its elements *)
Lemma sorted_lt_ext (u v : list Z) :
  StronglySorted Z.lt u → StronglySorted Z.lt v →
  (∀ x, x ∈ u ↔ x ∈ v) → u = v.
Proof.
  intros Hu Hv Huv.
  apply (StronglySorted_unique_strong Z.lt); [lia|done..|].
  apply NoDup_Permutation; auto using StronglySorted_lt_NoDup.
Qed.

Lemma index_of_lookup (x : Z) (l : list Z) :
  x ∈ l → l !! index_of x l = Some x.
Proof.
  induction l as [|y l IH]; [by rewrite elem_of_nil|].
  simpl. destruct (Z.eqb_spec x y) as [->|Hne]; [done|].
  rewrite elem_of_cons. intros [?|?]; [done | by apply IH].
Qed.

Lemma index_of_first (x : Z) (l : list Z) (i : nat) :
  i < index_of x l → l !! i ≠ Some x.
Proof.
  revert i. induction l as [|y l IH]; intros i; simpl; [lia|].
  destruct (Z.eqb_spec x y) as [->|Hne]; [lia|].
  destruct i as [|i]; simpl; [congruence|]. intros ?. apply IH. lia.
Qed.

Lemma index_of_lt (x : Z) (l : list Z) : x ∈ l → index_of x l < length l.
Proof. intros Hx. eapply lookup_lt_Some, index_of_lookup, Hx. Qed.

Lemma index_of_NoDup (l : list Z) (i : nat) (x : Z) :
  NoDup l → l !! i = Some x → index_of x l = i.
Proof.
  intros Hnd Hi.
  assert (x ∈ l) as Hx by (by eapply list_elem_of_lookup_2).
  eapply NoDup_lookup; [done| |done]. by apply index_of_lookup.
Qed.

Lemma length_unique_inverse (l : list Z) : length (unique_inverse l) = length l.
Proof. unfold unique_inverse. by rewrite length_fmap. Qed.

Lemma unique_inverse_lookup (l : list Z) (i j : nat) :
  unique_inverse l !! i = Some j ↔
  ∃ x, l !! i = Some x ∧ np_unique l !! j = Some x.
Proof.
  unfold unique_inverse. rewrite list_lookup_fmap.
  destruct (l !! i) as [x|] eqn:Hx; simpl; [|naive_solver].
  assert (x ∈ np_unique l) as Hin.
  { apply elem_of_np_unique. by eapply list_elem_of_lookup_2. }
  split.
  - intros [= <-]. exists x. split; [done|]. by apply index_of_lookup.
  - intros (? & [= <-] & Hj). f_equal.
    by apply index_of_NoDup; [apply np_unique_NoDup|].
Qed.

Lemma unique_inverse_lt (l : list Z) (i j : nat) :
  unique_inverse l !! i = Some j → j < length (np_unique l).
Proof.
  rewrite unique_inverse_lookup. intros (x & _ & Hj). by eapply lookup_lt_Some.
Qed.

Lemma unique_inverse_surj (l : list Z) (j : nat) :
  j < length (np_unique l) → ∃ i, unique_inverse l !! i = Some j.
Proof.
  intros Hj. apply lookup_lt_is_Some in Hj as [x Hx].
  assert (x ∈ l) as Hin.
  { apply elem_of_np_unique. by eapply list_elem_of_lookup_2. }
  apply list_elem_of_lookup in Hin as [i Hi].
  exists i. apply unique_inverse_lookup. eauto.
Qed.

(** the relabelled array takes exactly the values 0 .. k-1 *)
Lemma np_unique_dense (l : list Z) :
  np_unique (Z.of_nat <$> unique_inverse l) =
  Z.of_nat <$> seq 0 (length (np_unique l)).
Proof.
  apply sorted_lt_ext; [apply np_unique_sorted| |].
  - generalize 0. induction (length (np_unique l)) as [|k IH]; intros s; simpl.
    + constructor.
    + constructor; [apply IH|].
      apply Forall_forall. intros x.
      rewrite list_elem_of_fmap. intros (y & -> & Hy).
      apply elem_of_seq in Hy. lia.
  - intros x. rewrite elem_of_np_unique, !list_elem_of_fmap. split.
    + intros (j & -> & Hj). exists j. split; [done|].
      apply list_elem_of_lookup in Hj as [i Hi].
      apply unique_inverse_lt in Hi. apply elem_of_seq. lia.
    + intros (j & -> & Hj). exists j. split; [done|].
      apply elem_of_seq in Hj.
      destruct (unique_inverse_surj l j) as [i Hi]; [lia|].
      by eapply list_elem_of_lookup_2.
Qed.

(** ** Argument checking *)

Lemma size_list_to_set_1 (v : list nat) :
  size (list_to_set v : gset nat) = 1 ↔ v ≠ [] ∧ ∀ x y, x ∈ v → y ∈ v → x = y.
Proof.
  split.
  - intros Hsz. split.
    + intros ->. by vm_compute in Hsz.
    + intros x y Hx Hy.
      apply (size_singleton_inv (list_to_set v : gset nat)); [done|..];
        by apply elem_of_list_to_set.
  - intros [Hne Heq]. destruct v as [|x v]; [done|].
    assert ((list_to_set (x :: v) : gset nat) = {[x]}) as ->.
    { apply set_eq. intros y. rewrite elem_of_list_to_set, elem_of_singleton.
      split; [|intros ->; by left].
      intros Hy. apply Heq; [done | by left]. }
    apply size_singleton.
Qed.

Section Facts.
Context {T : Type} `{FloatOps T} {G : Type} `{Random G}.

Lemma check_args_Ok strata cluster (weights fpc : option (list T)) r :
  _check_args strata cluster weights fpc = Ok r ↔
  ∃ n, supplied_lengths strata cluster weights ≠ [] ∧
       (∀ x, x ∈ supplied_lengths strata cluster weights → x = n) ∧
       r = (default (replicate n 1%Z) strata, default (replicate n 1%Z) cluster,
            default (np_ones n) weights, default (np_zeros n) fpc).
Proof.
  unfold _check_args. fold (supplied_lengths strata cluster weights).
  set (v := supplied_lengths strata cluster weights).
  assert (v = [] ↔ ¬ is_Some strata ∧ ¬ is_Some cluster ∧ ¬ is_Some weights) as Hv.
  { unfold v, supplied_lengths. rewrite <- !eq_None_not_Some.
    destruct strata, cluster, weights; simpl; naive_solver. }
  case_bool_decide as Hnone.
  { split; [done|]. intros (n & Hne & _). by apply Hv in Hnone. }
  case_bool_decide as Hsz.
  - split; [done|]. intros (n & Hne & Hall & _).
    exfalso. apply Hsz. apply size_list_to_set_1. split; [done|].
    intros x y Hx Hy. by rewrite (Hall x), (Hall y).
  - apply size_list_to_set_1 in Hsz as [Hne Hall].
    destruct v as [|n v'] eqn:Ev; [done|]. simpl.
    split.
    + intros [= <-]. exists n. split; [done|]. split; [|done].
      intros x Hx. apply Hall; [done | by left].
    + intros (n' & _ & Hall' & ->).
      by rewrite (Hall' n) by by left.
Qed.

Lemma check_args_lengths strata cluster (weights fpc : option (list T)) s c w f :
  _check_args strata cluster weights fpc = Ok (s, c, w, f) →
  length c = length s ∧ length w = length s ∧
  (fpc = None → length f = length s) ∧
  (∀ x, x ∈ supplied_lengths strata cluster weights → x = length s).
Proof.
  intros (n & Hne & Hall & [= -> -> -> ->])%check_args_Ok.
  assert (∀ (o : option (list Z)),
    (∀ l, o = Some l → length l = n) → length (default (replicate n 1%Z) o) = n) as HZ.
  { intros [l|] Hl; simpl; [by apply Hl | by rewrite length_replicate]. }
  assert (length (default (replicate n 1%Z) strata) = n) as ->.
  { apply HZ. intros l ->. apply Hall. unfold supplied_lengths. simpl. by left. }
  assert (length (default (replicate n 1%Z) cluster) = n) as ->.
  { apply HZ. intros l ->. apply Hall. unfold supplied_lengths.
    destruct strata; simpl; set_solver. }
  assert (length (default (np_ones n) weights) = n) as ->.
  { destruct weights as [l|]; simpl; [|by unfold np_ones; rewrite length_replicate].
    apply Hall. unfold supplied_lengths.
    destruct strata, cluster; simpl; set_solver. }
  split_and!; [done..| |done].
  intros ->. simpl. by unfold np_zeros; rewrite length_replicate.
Qed.

(** ** What the constructor leaves behind *)

Lemma py_max_Ok (l : list nat) (m : nat) :
  py_max l = Ok m ↔ l ≠ [] ∧ m = max_list l.
Proof. destruct l; simpl; naive_solver. Qed.

Lemma init_strata_inv strata cluster (weights fpc : option (list T)) cm nest d :
  SurveyDesign_init strata cluster weights None fpc cm nest = Ok d →
  ∃ s c w f0 f sfc,
    _check_args strata cluster weights fpc = Ok (s, c, w, f0) ∧
    cm ∈ cov_methods ∧ s ≠ [] ∧
    let strat := unique_inverse s in
    let sclust := relabel nest (unique_inverse c) strat in
    let ii := unique_index (Z.of_nat <$> sclust) in
    take_idx strat ii = Ok sfc ∧ take_idx f0 ii = Ok f ∧
    d = strata_design cm w f0 f strat sclust sfc.
Proof.
  unfold SurveyDesign_init. case_bool_decide as Hcm; simpl; [|done].
  intros Hd. apply bind_Ok in Hd as ([[[s c] w] f0] & Hargs & Hd).
  apply bind_Ok in Hd as (mx & [Hs ->]%py_max_Ok & Hd).
  apply bind_Ok in Hd as (sclust & Hsclust & Hd).
  apply bind_Ok in Hd as (sfc & Hsfc & Hd).
  apply bind_Ok in Hd as (sfc' & Hsfc' & Hd).
  apply bind_Ok in Hd as (f & Hf & [= <-]).
  rewrite Hsfc in Hsfc'. injection Hsfc' as <-.
  assert (sclust = relabel nest (unique_inverse c) (unique_inverse s)) as ->.
  { unfold relabel. destruct nest; [|by injection Hsclust].
    apply bind_Ok in Hsclust as (mc & [_ ->]%py_max_Ok & [= <-]). done. }
  exists s, c, w, f0, f, sfc. split_and!; try done.
  intros ->. done.
Qed.

Lemma init_strata_total strata cluster (weights fpc : option (list T)) cm nest
    s c w f0 f sfc :
  _check_args strata cluster weights fpc = Ok (s, c, w, f0) →
  cm ∈ cov_methods → s ≠ [] →
  let strat := unique_inverse s in
  let sclust := relabel nest (unique_inverse c) strat in
  let ii := unique_index (Z.of_nat <$> sclust) in
  take_idx strat ii = Ok sfc → take_idx f0 ii = Ok f →
  SurveyDesign_init strata cluster weights None fpc cm nest =
    Ok (strata_design cm w f0 f strat sclust sfc).
Proof.
  intros Hargs Hcm Hs strat sclust ii Hsfc Hf.
  unfold SurveyDesign_init. rewrite bool_decide_eq_true_2 by done. simpl.
  rewrite Hargs. simpl.
  assert (unique_inverse s ≠ []) as Hstrat.
  { intros Hnil%(f_equal length). rewrite length_unique_inverse in Hnil.
    by destruct s. }
  assert (unique_inverse c ≠ []) as Hclust.
  { intros Hnil%(f_equal length). rewrite length_unique_inverse in Hnil.
    apply check_args_lengths in Hargs as (Hc & _). destruct s, c; done. }
  assert (py_max (unique_inverse s) = Ok (max_list (unique_inverse s))) as ->
    by by apply py_max_Ok.
  simpl.
  assert ((if nest then
             let* mc := py_max (unique_inverse c) in
             Ok (unique_inverse (Z.of_nat <$>
                   zip_with (λ c0 s0, c0 + (mc + 1) * s0)
                     (unique_inverse c) (unique_inverse s)))
           else Ok (unique_inverse c)) = Ok sclust) as ->.
  { unfold sclust, relabel. destruct nest; [|done].
    assert (py_max (unique_inverse c) = Ok (max_list (unique_inverse c))) as ->
      by by apply py_max_Ok.
    done. }
  simpl. fold ii. fold strat. rewrite Hsfc. simpl. rewrite Hf. done.
Qed.

Lemma view_strata_design cm (w f0 f : list T) strat sclust sfc :
  view (strata_design cm w f0 f strat sclust sfc) =
  Ok {| v_weights := w; v_strat := strat; v_sclust := sclust;
        v_strat_for_clust := sfc; v_clust_per_strat := np_bincount sfc 0;
        v_nstrat := max_list strat + 1;
        v_nclust := sum_list (np_bincount sfc 0);
        v_ii := (λ s, np_flatnonzero (eq_mask sfc s)) <$> seq 0 (max_list strat + 1);
        v_fpc := f |}.
Proof.
  unfold view, attr_arr, attr_idx, attr_idxs, attr_nat, attr, strata_design.
  simplify_map_eq. simpl. by rewrite !Nat2Z.id.
Qed.

Lemma strata_design_rep_weights cm (w f0 f : list T) strat sclust sfc :
  attr (strata_design cm w f0 f strat sclust sfc) "rep_weights" = Ok VNone.
Proof. unfold attr, strata_design. by simplify_map_eq. Qed.

Lemma strata_design_cov_method cm (w f0 f : list T) strat sclust sfc :
  attr_str (strata_design cm w f0 f strat sclust sfc) "cov_method" = Ok cm.
Proof. unfold attr_str, attr, strata_design. by simplify_map_eq. Qed.

(** no assignment of the constructor creates an attribute [design] *)
Lemma strata_design_no_design cm (w f0 f : list T) strat sclust sfc :
  attr (strata_design cm w f0 f strat sclust sfc) "design" = Err AttributeError.
Proof. unfold attr, strata_design. by simplify_map_eq. Qed.

(** ** Relabelled clusters and strata *)

Lemma relabel_is_inverse (nest : bool) (c : list Z) (strat : list nat) :
  length strat = length c →
  ∃ X, relabel nest (unique_inverse c) strat = unique_inverse X ∧
       length X = length c.
Proof.
  intros Hlen. destruct nest; simpl; [|by exists c].
  eexists. split; [done|].
  by rewrite length_fmap, length_zip_with, length_unique_inverse, Hlen, Nat.min_id.
Qed.

Lemma unique_index_dense (X : list Z) :
  unique_index (Z.of_nat <$> unique_inverse X) =
  (λ c : nat, index_of (Z.of_nat c) (Z.of_nat <$> unique_inverse X))
    <$> seq 0 (length (np_unique X)).
Proof.
  unfold unique_index. rewrite np_unique_dense. by rewrite <- list_fmap_compose.
Qed.

Lemma take_idx_Ok {A} (a : list A) (idx : list nat) (r : list A) :
  take_idx a idx = Ok r ↔ Forall2 (λ i x, a !! i = Some x) idx r.
Proof.
  unfold take_idx. rewrite map_result_Ok.
  split; intros Hr; eapply Forall2_impl; try exact Hr;
    intros i x; simpl; destruct (a !! i); naive_solver.
Qed.

Lemma take_idx_total {A} (a : list A) (idx : list nat) :
  (∀ i, i ∈ idx → i < length a) → succeeds (take_idx a idx).
Proof.
  intros Hidx. apply map_result_total. intros i Hi.
  destruct (lookup_lt_is_Some_2 a i (Hidx i Hi)) as [x ->]. by eexists.
Qed.

Lemma first_pos_lookup (sclust : list nat) (c : nat) :
  c ∈ sclust →
  sclust !! index_of (Z.of_nat c) (Z.of_nat <$> sclust) = Some c.
Proof.
  intros Hc.
  assert ((Z.of_nat <$> sclust) !! index_of (Z.of_nat c) (Z.of_nat <$> sclust)
          = Some (Z.of_nat c)) as Hi.
  { apply index_of_lookup, list_elem_of_fmap. eauto. }
  rewrite list_lookup_fmap in Hi.
  destruct (sclust !! _) as [c'|]; simpl in Hi; [|done].
  f_equal. injection Hi. lia.
Qed.

(** the facts about the per-cluster arrays that the later proofs use *)
Lemma cluster_facts (X : list Z) (strat sfc : list nat) :
  let sclust := unique_inverse X in
  let k := length (np_unique X) in
  take_idx strat (unique_index (Z.of_nat <$> sclust)) = Ok sfc →
  length sfc = k ∧
  (∀ i c, sclust !! i = Some c → c < k) ∧
  (∀ c s, sfc !! c = Some s →
     ∃ i, sclust !! i = Some c ∧ strat !! i = Some s) ∧
  (∀ s, s ∈ sfc → s ∈ strat).
Proof.
  intros sclust k Hsfc. apply take_idx_Ok in Hsfc.
  unfold sclust in Hsfc. rewrite unique_index_dense in Hsfc.
  fold k sclust in Hsfc.
  assert (length sfc = k) as Hlen.
  { apply Forall2_length in Hsfc. by rewrite length_fmap, length_seq in Hsfc. }
  assert (∀ c s, sfc !! c = Some s →
            ∃ i, sclust !! i = Some c ∧ strat !! i = Some s) as Hrow.
  { intros c s Hc.
    destruct (Forall2_lookup_r _ _ _ _ _ Hsfc Hc) as (i & Hi & Hs).
    rewrite list_lookup_fmap in Hi.
    assert (c < k) as Hck by (rewrite <- Hlen; by eapply lookup_lt_Some).
    rewrite lookup_seq_lt in Hi by done. simpl in Hi. injection Hi as <-.
    eexists. split; [|done]. apply first_pos_lookup.
    destruct (unique_inverse_surj X c Hck) as [j Hj].
    by eapply list_elem_of_lookup_2. }
  split_and!; [done| |done|].
  - intros i c. apply unique_inverse_lt.
  - intros s [c Hc]%list_elem_of_lookup. destruct (Hrow c s Hc) as (i & _ & Hs).
    by eapply list_elem_of_lookup_2.
Qed.

(** ** [np.bincount] and [np.flatnonzero] *)

Lemma sum_list_fmap_add {A} (f g : A → nat) (l : list A) :
  sum_list ((λ v, f v + g v) <$> l) = sum_list (f <$> l) + sum_list (g <$> l).
Proof.
  induction l as [|a l IH]; [done|].
  rewrite !fmap_cons. cbn [sum_list_with]. rewrite IH. unfold id. lia.
Qed.

Lemma sum_list_indicator_NoDup (a : nat) (l : list nat) :
  NoDup l →
  sum_list ((λ v, if decide (a = v) then 1 else 0) <$> l) =
  if decide (a ∈ l) then 1 else 0.
Proof.
  induction 1 as [|v l Hv Hl IH].
  - simpl. destruct (decide (a ∈ [])) as [Hin|]; [by apply elem_of_nil in Hin|done].
  - rewrite fmap_cons. cbn [sum_list_with]. rewrite IH. unfold id.
    destruct (decide (a = v)) as [->|Hne].
    + rewrite (decide_True (P := v ∈ v :: l)) by by left.
      by rewrite (decide_False (P := v ∈ l)).
    + destruct (decide (a ∈ l)).
      * rewrite (decide_True (P := a ∈ v :: l)) by by right. done.
      * rewrite (decide_False (P := a ∈ v :: l)); [done|].
        rewrite elem_of_cons. tauto.
Qed.

Lemma sum_list_indicator (a m : nat) :
  a < m →
  sum_list ((λ v, if decide (a = v) then 1 else 0) <$> seq 0 m) = 1.
Proof.
  intros Ha. rewrite sum_list_indicator_NoDup by apply NoDup_seq.
  rewrite decide_True; [done|]. apply elem_of_seq. lia.
Qed.

Lemma count_eq_cons (v a : nat) (l : list nat) :
  count_eq v (a :: l) = (if decide (a = v) then 1 else 0) + count_eq v l.
Proof. unfold count_eq. rewrite filter_cons. by destruct (decide (a = v)). Qed.

Lemma sum_list_counts (l : list nat) (m : nat) :
  (∀ x, x ∈ l → x < m) →
  sum_list ((λ v, count_eq v l) <$> seq 0 m) = length l.
Proof.
  induction l as [|a l IH]; intros Hl.
  - unfold count_eq. simpl. induction (seq 0 m); simpl; auto.
  - erewrite list_fmap_ext; [|intros ???; apply count_eq_cons].
    rewrite (sum_list_fmap_add (λ v, if decide (a = v) then 1 else 0)
               (λ v, count_eq v l)).
    rewrite sum_list_indicator by (apply Hl; by left).
    rewrite IH by (intros; apply Hl; by right). done.
Qed.

Lemma length_bincount (l : list nat) :
  l ≠ [] → length (np_bincount l 0) = S (max_list l).
Proof.
  intros Hl. unfold np_bincount. rewrite length_fmap, length_seq.
  destruct l; [done|]. lia.
Qed.

Lemma sum_list_bincount (l : list nat) : sum_list (np_bincount l 0) = length l.
Proof.
  unfold np_bincount. destruct l as [|a l]; [done|].
  apply sum_list_counts. intros x Hx%max_list_elem_of_le. lia.
Qed.

Lemma bincount_lookup (l : list nat) (s : nat) :
  s ∈ l → np_bincount l 0 !! s = Some (count_eq s l) ∧ 1 ≤ count_eq s l.
Proof.
  intros Hs. split.
  - unfold np_bincount. rewrite list_lookup_fmap.
    destruct l as [|a l]; [by apply elem_of_nil in Hs|].
    apply max_list_elem_of_le in Hs.
    rewrite lookup_seq_lt by lia. done.
  - unfold count_eq.
    assert (s ∈ filter (λ x, x = s) l) as Hin by (by apply list_elem_of_filter).
    destruct (filter _ l); [by apply elem_of_nil in Hin | simpl; lia].
Qed.

Lemma elem_of_flatnonzero_from (i : nat) (mask : list bool) (x : nat) :
  x ∈ flatnonzero_from i mask ↔ ∃ j, x = i + j ∧ mask !! j = Some true.
Proof.
  revert i. induction mask as [|b mask IH]; intros i; simpl.
  - rewrite elem_of_nil. naive_solver.
  - assert (x ∈ flatnonzero_from (S i) mask ↔
            ∃ j, x = i + S j ∧ mask !! j = Some true) as IH'.
    { rewrite IH. split; intros (j & -> & ?); exists j; split; (lia || done). }
    destruct b; rewrite ?elem_of_cons, IH'; split.
    + intros [->|(j & -> & ?)]; [exists 0; split; [lia|done]|by exists (S j)].
    + intros ([|j] & -> & Hj); [left; lia|right; by exists j].
    + intros (j & -> & ?); by exists (S j).
    + intros ([|j] & -> & Hj); [done|by exists j].
Qed.

Lemma flatnonzero_from_NoDup (i : nat) (mask : list bool) :
  NoDup (flatnonzero_from i mask).
Proof.
  revert i. induction mask as [|b mask IH]; intros i; simpl; [constructor|].
  destruct b; [|done]. constructor; [|done].
  rewrite elem_of_flatnonzero_from. intros (j & ? & _). lia.
Qed.

Lemma elem_of_flatnonzero (a : list nat) (s c : nat) :
  c ∈ np_flatnonzero (eq_mask a s) ↔ a !! c = Some s.
Proof.
  unfold np_flatnonzero, eq_mask. rewrite elem_of_flatnonzero_from.
  split.
  - intros (j & -> & Hj). rewrite list_lookup_fmap in Hj. simpl.
    destruct (a !! j) as [x|]; simpl in Hj; [|done].
    injection Hj as Hj. by apply bool_decide_eq_true in Hj as ->.
  - intros Hc. exists c. split; [done|].
    rewrite list_lookup_fmap, Hc. simpl. by rewrite bool_decide_eq_true_2.
Qed.

(** [clust_per_strat[s]] counts the clusters listed in [ii[s]] *)
Lemma length_flatnonzero_from (i : nat) (a : list nat) (s : nat) :
  length (flatnonzero_from i (eq_mask a s)) = count_eq s a.
Proof.
  revert i. induction a as [|x a IH]; intros i; [done|].
  rewrite count_eq_cons. simpl.
  destruct (decide (x = s)) as [->|Hne].
  - rewrite bool_decide_eq_true_2 by done. simpl. by rewrite IH.
  - rewrite bool_decide_eq_false_2 by done. by rewrite IH.
Qed.

Lemma bincount_block (sfc : list nat) (s nh : nat) :
  np_bincount sfc 0 !! s = Some nh →
  length (np_flatnonzero (eq_mask sfc s)) = nh.
Proof.
  unfold np_bincount. rewrite list_lookup_fmap. intros Hnh.
  destruct (seq 0 _ !! s) as [s'|] eqn:Hs; simpl in Hnh; [|done].
  apply lookup_seq in Hs as [-> _]. injection Hnh as <-.
  apply length_flatnonzero_from.
Qed.

(** the blocks [flatnonzero(a == s)], s = 0 .. m-1, partition the positions
    of [a] when every entry of [a] is below [m] *)
Lemma blocks_prefix (a : list nat) (m : nat) :
  NoDup (concat ((λ s, np_flatnonzero (eq_mask a s)) <$> seq 0 m)) ∧
  ∀ c, c ∈ concat ((λ s, np_flatnonzero (eq_mask a s)) <$> seq 0 m) ↔
       ∃ s, s < m ∧ a !! c = Some s.
Proof.
  induction m as [|m [IHnd IHin]].
  - split; [constructor|]. intros c. simpl. rewrite elem_of_nil. naive_solver lia.
  - rewrite seq_S, fmap_app, concat_app. cbn [fmap list_fmap concat plus].
    rewrite app_nil_r. split.
    + apply NoDup_app. split_and!; [done| |apply flatnonzero_from_NoDup].
      intros c (s & Hs & Hc)%IHin Hc'%elem_of_flatnonzero.
      rewrite Hc in Hc'. injection Hc' as ->. lia.
    + intros c. rewrite elem_of_app, IHin, elem_of_flatnonzero. split.
      * intros [(s & ? & ?)|?]; [exists s|exists m]; split; (lia || done).
      * intros (s & Hs & Hc). destruct (decide (s = m)) as [->|?];
          [by right|left; exists s; split; [lia|done]].
Qed.

Lemma blocks_partition (a : list nat) (m : nat) :
  (∀ s, s ∈ a → s < m) →
  concat ((λ s, np_flatnonzero (eq_mask a s)) <$> seq 0 m) ≡ₚ seq 0 (length a).
Proof.
  intros Ha. destruct (blocks_prefix a m) as [Hnd Hin].
  apply NoDup_Permutation; [done|apply NoDup_seq|].
  intros c. rewrite Hin, elem_of_seq. split.
  - intros (s & _ & Hc%lookup_lt_Some). lia.
  - intros [_ Hc]. apply lookup_lt_is_Some in Hc as [s Hs].
    exists s. split; [|done]. apply Ha. by eapply list_elem_of_lookup_2.
Qed.

(** the per-cluster arrays of a constructed design *)
Lemma design_cluster_facts strata cluster (weights fpc : option (list T)) s c w f0
    (nest : bool) sfc :
  _check_args strata cluster weights fpc = Ok (s, c, w, f0) →
  let strat := unique_inverse s in
  let sclust := relabel nest (unique_inverse c) strat in
  take_idx strat (unique_index (Z.of_nat <$> sclust)) = Ok sfc →
  length strat = length w ∧ length sclust = length w ∧
  (∀ i c, sclust !! i = Some c → c < length sfc) ∧
  (∀ c s, sfc !! c = Some s → ∃ i, sclust !! i = Some c ∧ strat !! i = Some s) ∧
  (∀ s, s ∈ sfc → s ∈ strat).
Proof.
  intros Hargs strat sclust Hsfc.
  apply check_args_lengths in Hargs as (Hc & Hw & _).
  assert (length strat = length c) as Hsc.
  { unfold strat. by rewrite length_unique_inverse. }
  destruct (relabel_is_inverse nest c strat Hsc) as (X & HX & HlenX).
  fold sclust in HX.
  assert (length sclust = length w) as Hlen.
  { by rewrite HX, length_unique_inverse, HlenX, Hc, Hw. }
  rewrite HX in Hsfc. apply cluster_facts in Hsfc as (Hk & Hlt & Hrow & Hin).
  rewrite <- HX in *. rewrite Hk.
  split_and!; try done. by rewrite Hsc, Hc, Hw.
Qed.

(** C2. For every design constructed from strata, clusters and weights the
    cluster counts per stratum sum to [nclust], [strat_for_clust] gives each
    cluster index 0 .. nclust-1 one stratum below [nstrat], and the index
    sets [ii], one per stratum, hold exactly the clusters of that stratum and
    together form a partition of 0 .. nclust-1. *)
Theorem design_bookkeeping strata cluster (weights fpc : option (list T)) cm nest d :
  SurveyDesign_init strata cluster weights None fpc cm nest = Ok d →
  ∃ v, view d = Ok v ∧
    sum_list (v_clust_per_strat v) = v_nclust v ∧
    length (v_strat_for_clust v) = v_nclust v ∧
    (∀ c s, v_strat_for_clust v !! c = Some s → s < v_nstrat v) ∧
    length (v_ii v) = v_nstrat v ∧
    (∀ s blk c, v_ii v !! s = Some blk →
       (c ∈ blk ↔ v_strat_for_clust v !! c = Some s)) ∧
    concat (v_ii v) ≡ₚ seq 0 (v_nclust v) ∧
    (∀ s blk nh, v_ii v !! s = Some blk →
       v_clust_per_strat v !! s = Some nh → length blk = nh).
Proof.
  intros (s & c & w & f0 & f & sfc & Hargs & Hcm & Hs & Hsfc & Hf & ->)%init_strata_inv.
  eexists. split; [apply view_strata_design|]. simpl.
  destruct (design_cluster_facts _ _ _ _ _ _ _ _ nest _ Hargs Hsfc)
    as (_ & _ & _ & _ & Hin).
  assert (∀ x, x ∈ sfc → x < max_list (unique_inverse s) + 1) as Hlt.
  { intros x Hx%Hin%max_list_elem_of_le. lia. }
  rewrite sum_list_bincount.
  split_and!; try done.
  - intros k x Hk. apply Hlt. by eapply list_elem_of_lookup_2.
  - by rewrite length_fmap, length_seq.
  - intros x blk k Hblk. rewrite list_lookup_fmap in Hblk.
    destruct (seq _ _ !! x) as [x'|] eqn:Hx; simpl in Hblk; [|done].
    injection Hblk as <-. apply lookup_seq in Hx as [-> _]. simpl.
    apply elem_of_flatnonzero.
  - by apply blocks_partition.
  - intros x blk nh Hblk Hnh. rewrite list_lookup_fmap in Hblk.
    destruct (seq _ _ !! x) as [x'|] eqn:Hx; simpl in Hblk; [|done].
    injection Hblk as <-. apply lookup_seq in Hx as [-> _]. simpl.
    by apply bincount_block.
Qed.

(** ** The delete-one jackknife weights *)

Lemma mask_mul_Ok (w : list T) (mask : list bool) (f : T) :
  length mask = length w →
  mask_mul w mask f = Ok (zip_with (λ x (b : bool), if b then fmul x f else x) w mask).
Proof. intros Hlen. unfold mask_mul. by rewrite bool_decide_eq_true_2. Qed.

Lemma mask_set_Ok (w : list T) (mask : list bool) (v : T) :
  length mask = length w →
  mask_set w mask v = Ok (zip_with (λ x (b : bool), if b then v else x) w mask).
Proof. intros Hlen. unfold mask_set. by rewrite bool_decide_eq_true_2. Qed.

Lemma length_eq_mask (a : list nat) (v : nat) : length (eq_mask a v) = length a.
Proof. unfold eq_mask. by rewrite length_fmap. Qed.

Lemma eq_mask_lookup (a : list nat) (v i x : nat) :
  a !! i = Some x → eq_mask a v !! i = Some (bool_decide (x = v)).
Proof. intros Hi. unfold eq_mask. by rewrite list_lookup_fmap, Hi. Qed.

(** the weights [_jackknife_rep_weights] computes from the arrays of a design *)
Lemma jackknife_weights_lookup (w : list T) (strat sclust : list nat) (c s : nat)
    (f : T) (i : nat) (x : T) (si ci : nat) :
  w !! i = Some x → strat !! i = Some si → sclust !! i = Some ci →
  zip_with (λ y (b : bool), if b then of_Z 0 else y)
    (zip_with (λ y (b : bool), if b then fmul y f else y) w (eq_mask strat s))
    (eq_mask sclust c) !! i =
  Some (if decide (ci = c) then of_Z 0
        else if decide (si = s) then fmul x f else x).
Proof.
  intros Hx Hsi Hci.
  rewrite !lookup_zip_with, Hx. simpl.
  rewrite (eq_mask_lookup _ _ _ _ Hsi), (eq_mask_lookup _ _ _ _ Hci). simpl.
  destruct (decide (ci = c)) as [->|Hc].
  - by rewrite bool_decide_eq_true_2.
  - rewrite (bool_decide_eq_false_2 (ci = c)) by done.
    destruct (decide (si = s)) as [->|Hs].
    + by rewrite bool_decide_eq_true_2.
    + by rewrite bool_decide_eq_false_2.
Qed.

Lemma nested_same_stratum (clust strat : list nat) (i j c : nat) :
  length clust = length strat →
  relabel true clust strat !! i = Some c →
  relabel true clust strat !! j = Some c →
  strat !! i = strat !! j.
Proof.
  intros Hlen Hi Hj. unfold relabel in Hi, Hj.
  apply unique_inverse_lookup in Hi as (x & Hxi & Hx).
  apply unique_inverse_lookup in Hj as (y & Hyj & Hy).
  rewrite Hx in Hy. injection Hy as <-.
  rewrite list_lookup_fmap, lookup_zip_with in Hxi, Hyj.
  destruct (clust !! i) as [ci|] eqn:Hci; [|done].
  destruct (strat !! i) as [si|] eqn:Hsi; [|done].
  destruct (clust !! j) as [cj|] eqn:Hcj; [|done].
  destruct (strat !! j) as [sj|] eqn:Hsj; [|done].
  simpl in Hxi, Hyj. injection Hxi as <-. injection Hyj as Heq.
  apply list_elem_of_lookup_2, max_list_elem_of_le in Hci, Hcj.
  f_equal. nia.
Qed.

(** the replicate weights on the dictionary of a jackknife design *)
Lemma jackknife_weights_Ok (w f0 f : list T) (strat sclust sfc : list nat)
    (c s nh : nat) (bsn : option Z) (g : G) :
  length strat = length w → length sclust = length w →
  sfc !! c = Some s → np_bincount sfc 0 !! s = Some nh →
  get_rep_weights (strata_design "jack" w f0 f strat sclust sfc) c bsn g =
  Ok (zip_with (λ y (b : bool), if b then of_Z 0 else y)
        (zip_with (λ y (b : bool),
                     if b then fmul y (fdiv (of_Z (Z.of_nat nh))
                                            (of_Z (Z.of_nat nh - 1)))
                     else y) w (eq_mask strat s))
        (eq_mask sclust c), g).
Proof.
  intros Hstrat Hsclust Hc Hnh.
  unfold get_rep_weights. rewrite strata_design_rep_weights. simpl.
  rewrite strata_design_cov_method. simpl.
  unfold _jackknife_rep_weights, attr_idx, attr_arr, attr, strata_design.
  simplify_map_eq. simpl. unfold item. rewrite Hc. simpl. rewrite Hnh. simpl.
  rewrite mask_mul_Ok by by rewrite length_eq_mask.
  simpl. rewrite mask_set_Ok; [done|].
  by rewrite length_eq_mask, !length_zip_with, length_eq_mask, Hstrat, Nat.min_id.
Qed.

(** C1 (amended). For a design constructed with the jackknife method, the
    replicate weights for a cluster index [c] whose stratum [s] holds [nh]
    clusters have the length of the weights, are 0 on the observations of
    cluster [c], the weight times nh/(nh-1) on the other observations of
    stratum [s], and the weight itself on the observations that are neither
    in stratum [s] nor in cluster [c]; cluster [c] has an observation in
    stratum [s], and when [nest] is set every observation of cluster [c] lies
    in stratum [s]. *)
Theorem jackknife_rep_weights_spec strata cluster (weights fpc : option (list T))
    nest d :
  SurveyDesign_init strata cluster weights None fpc "jack" nest = Ok d →
  ∃ v, view d = Ok v ∧
    length (v_strat v) = length (v_weights v) ∧
    length (v_sclust v) = length (v_weights v) ∧
    ∀ c s nh bsn (g : G),
      v_strat_for_clust v !! c = Some s →
      v_clust_per_strat v !! s = Some nh →
      2 ≤ nh →
      ∃ w', get_rep_weights d c bsn g = Ok (w', g) ∧
        length w' = length (v_weights v) ∧
        (∀ i x si ci,
           v_weights v !! i = Some x → v_strat v !! i = Some si →
           v_sclust v !! i = Some ci →
           w' !! i =
           Some (if decide (ci = c) then of_Z 0
                 else if decide (si = s)
                      then fmul x (fdiv (of_Z (Z.of_nat nh)) (of_Z (Z.of_nat nh - 1)))
                      else x)) ∧
        (∃ i, v_sclust v !! i = Some c ∧ v_strat v !! i = Some s) ∧
        (nest = true →
           ∀ i, v_sclust v !! i = Some c → v_strat v !! i = Some s).
Proof.
  intros (s0 & c0 & w & f0 & f & sfc & Hargs & Hcm & Hs & Hsfc & Hf & ->)%init_strata_inv.
  eexists. split; [apply view_strata_design|]. simpl.
  destruct (design_cluster_facts _ _ _ _ _ _ _ _ nest _ Hargs Hsfc)
    as (Hstrat & Hsclust & _ & Hrow & _).
  split_and!; [done..|].
  intros c s nh bsn g Hc Hnh _.
  eexists. split_and!.
  - by apply jackknife_weights_Ok.
  - by rewrite !length_zip_with, !length_eq_mask, Hstrat, Hsclust, !Nat.min_id.
  - intros i x si ci. apply jackknife_weights_lookup.
  - by apply Hrow.
  - intros -> i Hi. destruct (Hrow c s Hc) as (j & Hj & Hsj).
    rewrite <- Hsj. eapply nested_same_stratum; [|done..].
    rewrite !length_unique_inverse.
    by apply check_args_lengths in Hargs as (-> & _).
Qed.

(** ** Construction: errors and defaults *)

Lemma check_args_Err strata cluster (weights fpc : option (list T)) e :
  _check_args strata cluster weights fpc = Err e → e = ValueError.
Proof. unfold _check_args. repeat case_bool_decide; by intros [= <-]. Qed.

Lemma unique_index_lt (L : list Z) (i : nat) :
  i ∈ unique_index L → i < length L.
Proof.
  unfold unique_index. rewrite list_elem_of_fmap. intros (u & -> & Hu).
  by apply index_of_lt, elem_of_np_unique.
Qed.

Lemma length_relabel (nest : bool) (c : list Z) (strat : list nat) :
  length strat = length c →
  length (relabel nest (unique_inverse c) strat) = length c.
Proof.
  intros Hlen. destruct (relabel_is_inverse nest c strat Hlen) as (X & -> & <-).
  apply length_unique_inverse.
Qed.

Lemma init_strata_succeeds strata cluster (weights fpc : option (list T)) cm nest
    s c w f0 :
  _check_args strata cluster weights fpc = Ok (s, c, w, f0) →
  cm ∈ cov_methods → s ≠ [] → length s ≤ length f0 →
  succeeds (SurveyDesign_init strata cluster weights None fpc cm nest).
Proof.
  intros Hargs Hcm Hs Hf0.
  pose proof (check_args_lengths _ _ _ _ _ _ _ _ Hargs) as (Hc & Hw & _).
  set (strat := unique_inverse s).
  set (sclust := relabel nest (unique_inverse c) strat).
  set (ii := unique_index (Z.of_nat <$> sclust)).
  assert (length sclust = length s) as Hlen.
  { unfold sclust. rewrite length_relabel; [done|].
    unfold strat. by rewrite length_unique_inverse. }
  assert (∀ i, i ∈ ii → i < length s) as Hii.
  { intros i Hi%unique_index_lt. by rewrite length_fmap, Hlen in Hi. }
  destruct (take_idx_total strat ii) as [sfc Hsfc].
  { intros i Hi%Hii. unfold strat. by rewrite length_unique_inverse. }
  destruct (take_idx_total f0 ii) as [f Hf].
  { intros i Hi%Hii. lia. }
  eexists. by eapply init_strata_total.
Qed.

(** supplying the defaults explicitly builds the same object *)
Lemma init_defaults strata cluster (weights fpc : option (list T)) cm nest s c w f0 :
  _check_args strata cluster weights fpc = Ok (s, c, w, f0) →
  length f0 = length s →
  SurveyDesign_init strata cluster weights None fpc cm nest =
  SurveyDesign_init (Some s) (Some c) (Some w) None (Some f0) cm nest.
Proof.
  intros Hargs Hf0.
  pose proof (check_args_lengths _ _ _ _ _ _ _ _ Hargs) as (Hc & Hw & _).
  assert (_check_args (Some s) (Some c) (Some w) (Some f0) = Ok (s, c, w, f0)) as Hargs'.
  { apply check_args_Ok. exists (length s). unfold supplied_lengths. simpl.
    rewrite Hc, Hw. split_and!; [done| |done]. set_solver. }
  unfold SurveyDesign_init. by rewrite Hargs, Hargs'.
Qed.

(** C3 (amended). When no supplied array is empty and a supplied [fpc] has an
    entry for every observation, construction raises exactly under the four
    listed conditions, and then a ValueError.  Otherwise it succeeds: with
    replicate weights the object holds [cov_method], [rep_weights] and the
    weights (ones, one per row, when absent); without them the weights are
    the supplied ones or ones of the common length, and the object is the one
    built from the arrays with ones for absent strata and clusters and zeros
    for an absent [fpc]. *)
Theorem construction_errors strata cluster (weights : option (list T)) rep_weights
    fpc cm nest :
  (rep_weights = None →
     ∀ n, n ∈ supplied_lengths strata cluster weights → 0 < n) →
  (rep_weights = None →
     ∀ f n, fpc = Some f → n ∈ supplied_lengths strata cluster weights →
       n ≤ length f) →
  let r := SurveyDesign_init strata cluster weights rep_weights fpc cm nest in
  (raises r ↔ config_error strata cluster weights rep_weights cm) ∧
  (∀ e, r = Err e → e = ValueError) ∧
  (∀ d, r = Ok d →
     match rep_weights with
     | Some (p, rows) =>
         d = <["weights" := VArr (default (np_ones (length rows)) weights)]>
               (<["rep_weights" := VMat p rows]>
                 (<["cov_method" := VStr cm]> ∅))
     | None =>
         ∃ n, (∀ x, x ∈ supplied_lengths strata cluster weights → x = n) ∧
           attr_arr d "weights" = Ok (default (np_ones n) weights) ∧
           r = SurveyDesign_init
                 (Some (default (replicate n 1%Z) strata))
                 (Some (default (replicate n 1%Z) cluster))
                 (Some (default (np_ones n) weights)) None
                 (Some (default (np_zeros n) fpc)) cm nest
     end).
Proof.
  intros Hne Hfpc r.
  destruct (decide (cm ∈ cov_methods)) as [Hcm|Hcm].
  2:{ assert (r = Err ValueError) as Hr.
      { unfold r, SurveyDesign_init. by rewrite bool_decide_eq_false_2. }
      rewrite Hr. split_and!; [|by intros ? [= <-]|done].
      split; [intros _; by left | intros _; by eexists]. }
  destruct rep_weights as [[p rows]|].
  - (* replicate weights supplied *)
    destruct (decide (is_Some strata ∨ is_Some cluster)) as [Hsc|Hsc].
    + assert (r = Err ValueError) as Hr.
      { unfold r, SurveyDesign_init. rewrite bool_decide_eq_true_2 by done.
        simpl. by rewrite bool_decide_eq_true_2. }
      rewrite Hr. split_and!; [|by intros ? [= <-]|done].
      split; [intros _; right; left; eauto | intros _; by eexists].
    + assert (r = Ok (<["weights" := VArr (default (np_ones (length rows)) weights)]>
                       (<["rep_weights" := VMat p rows]>
                         (<["cov_method" := VStr cm]> ∅)))) as Hr.
      { unfold r, SurveyDesign_init. rewrite bool_decide_eq_true_2 by done.
        simpl. by rewrite bool_decide_eq_false_2. }
      rewrite Hr. split_and!; [|done|by intros ? [= <-]].
      split; [by intros [? ?]|].
      intros [?|[[_ ?]|[(? & _)|Hl]]]; [done..|]. exfalso. apply Hl.
      assert (strata = None ∧ cluster = None) as [-> ->].
      { rewrite !eq_None_not_Some. tauto. }
      unfold supplied_lengths. destruct weights; simpl; set_solver.
  - (* strata / cluster / weights *)
    specialize (Hne eq_refl). specialize (Hfpc eq_refl).
    destruct (_check_args strata cluster weights fpc) as [[[[s c] w] f0]|e] eqn:Hargs.
    + pose proof Hargs as (n & Hv & Hall & [= -> -> -> ->])%check_args_Ok.
      pose proof (check_args_lengths _ _ _ _ _ _ _ _ Hargs) as (Hc & Hw & Hf0 & Hlen).
      set (s := default (replicate n 1%Z) strata) in *.
      assert (n = length s) as Hn.
      { destruct (supplied_lengths strata cluster weights) as [|x v] eqn:Ev; [done|].
        rewrite <- (Hall x), <- (Hlen x) by (by left). done. }
      assert (0 < length s) as Hpos.
      { destruct (supplied_lengths strata cluster weights) as [|x v] eqn:Ev; [done|].
        rewrite <- (Hlen x) by (by left). apply Hne. by left. }
      assert (length s ≤ length (default (np_zeros n) fpc)) as Hflen.
      { destruct fpc as [f|]; simpl; [|by unfold np_zeros; rewrite length_replicate, Hn].
        destruct (supplied_lengths strata cluster weights) as [|x v] eqn:Ev; [done|].
        rewrite <- (Hlen x) by (by left). eapply Hfpc; [done | by left]. }
      destruct (init_strata_succeeds _ _ _ _ cm nest _ _ _ _ Hargs Hcm) as [d Hd];
        [intros Hnil; rewrite Hnil in Hpos; by apply Nat.lt_irrefl in Hpos | done |].
      fold r in Hd. rewrite Hd. split_and!; [|done|].
      * split; [by intros [? ?]|].
        intros [Hbad|[[[? Hbad] _]|[(_ & Hs' & Hc' & Hw')|Hl]]]; exfalso.
        -- done.
        -- done.
        -- apply Hv. unfold supplied_lengths. by rewrite Hs', Hc', Hw'.
        -- apply Hl. intros x y Hx Hy. by rewrite (Hall x), (Hall y).
      * intros ? [= <-]. exists n. split; [done|]. split.
        -- apply init_strata_inv in Hd
             as (s' & c' & w' & f0' & f' & sfc & Hargs' & _ & _ & _ & _ & ->).
           rewrite Hargs in Hargs'. injection Hargs' as <- <- <- <-.
           unfold attr_arr, attr, strata_design. by simplify_map_eq.
        -- rewrite <- Hd. unfold r.
           destruct (decide (length (default (np_zeros n) fpc) = length s)) as [Heq|Hneq].
           ++ by apply init_defaults.
           ++ (* a longer fpc is passed on as it is *)
              destruct fpc as [f|]; simpl in *;
                [|by unfold np_zeros in Hneq; rewrite length_replicate in Hneq].
              subst s. unfold SurveyDesign_init. rewrite Hargs.
              assert (_check_args (Some (default (replicate n 1%Z) strata))
                        (Some (default (replicate n 1%Z) cluster))
                        (Some (default (np_ones n) weights)) (Some f)
                      = Ok (default (replicate n 1%Z) strata,
                            default (replicate n 1%Z) cluster,
                            default (np_ones n) weights, f)) as ->; [|done].
              apply check_args_Ok. exists (length (default (replicate n 1%Z) strata)).
              unfold supplied_lengths. simpl.
              rewrite Hc, Hw. split_and!; [done| |done]. set_solver.
    + pose proof (check_args_Err _ _ _ _ _ Hargs) as ->.
      assert (r = Err ValueError) as Hr.
      { unfold r, SurveyDesign_init. rewrite bool_decide_eq_true_2 by done.
        simpl. by rewrite Hargs. }
      rewrite Hr. split_and!; [|by intros ? [= <-]|done].
      split; [intros _ | intros _; by eexists].
      destruct (decide (supplied_lengths strata cluster weights = [])) as [Hnil|Hnn].
      * right; right; left. unfold supplied_lengths in Hnil.
        destruct strata, cluster, weights; done.
      * right; right; right. intros Hall.
        destruct (supplied_lengths strata cluster weights) as [|x v] eqn:Ev; [done|].
        assert (_check_args strata cluster weights fpc =
                Ok (default (replicate x 1%Z) strata,
                    default (replicate x 1%Z) cluster,
                    default (np_ones x) weights, default (np_zeros x) fpc)) as Hok.
        { apply check_args_Ok. exists x. rewrite Ev. split_and!; [done| |done].
          intros y Hy. apply Hall; [done | by left]. }
        by rewrite Hok in Hargs.
Qed.

(** ** Centering of the jackknife replicates *)

Lemma take_idx_omap {A} (a : list A) (idx : list nat) :
  (∀ i, i ∈ idx → i < length a) →
  take_idx a idx = Ok (omap (λ i, a !! i) idx).
Proof.
  intros Hidx. apply take_idx_Ok.
  induction idx as [|i idx IH]; simpl; [constructor|].
  destruct (lookup_lt_is_Some_2 a i) as [x Hx]; [apply Hidx; by left|].
  rewrite Hx. simpl. constructor; [done|]. apply IH. intros; apply Hidx; by right.
Qed.

Lemma omap_lookup_ext {A} (a b : list A) (idx : list nat) :
  (∀ i, i ∈ idx → a !! i = b !! i) →
  omap (λ i, a !! i) idx = omap (λ i, b !! i) idx.
Proof.
  induction idx as [|i idx IH]; intros Hab; simpl; [done|].
  rewrite (Hab i) by by left.
  destruct (b !! i); [f_equal|]; apply IH; intros; apply Hab; by right.
Qed.

Lemma foldl_insert_rows (f : list T → list T) (jdata : list (list T))
    (upd : list (nat * list T)) (acc : list (list T)) (c : nat) :
  length acc = length jdata →
  (∀ i r, (i, r) ∈ upd → jdata !! i = Some r) →
  length (foldl (λ a ir, <[ir.1 := f ir.2]> a) acc upd) = length jdata ∧
  foldl (λ a ir, <[ir.1 := f ir.2]> a) acc upd !! c =
    if decide (c ∈ upd.*1) then f <$> jdata !! c else acc !! c.
Proof.
  revert acc. induction upd as [|[i r] upd IH]; intros acc Hlen Hupd; simpl.
  - by split.
  - destruct (IH (<[i := f r]> acc)) as [IHlen IHc].
    { by rewrite length_insert. }
    { intros; apply Hupd; by right. }
    split; [done|]. rewrite IHc.
    assert (jdata !! i = Some r) as Hi by (apply Hupd; by left).
    destruct (decide (c ∈ upd.*1)) as [Hin|Hnin].
    + rewrite decide_True; [done | by right].
    + destruct (decide (c = i)) as [->|Hne].
      * rewrite decide_True by by left.
        rewrite list_lookup_insert_eq, Hi; [done|].
        rewrite Hlen. by eapply lookup_lt_Some.
      * rewrite decide_False by (rewrite elem_of_cons; tauto).
        by rewrite list_lookup_insert_ne.
Qed.

Lemma isub_mean_at_Ok (jdata : list (list T)) (idx : list nat) :
  jdata ≠ [] → (∀ i, i ∈ idx → i < length jdata) →
  ∃ jd, isub_mean_at jdata idx = Ok jd ∧ length jd = length jdata ∧
    ∀ c, jd !! c =
      if decide (c ∈ idx)
      then (λ r, vsub r (mean0 (omap (λ i, jdata !! i) idx))) <$> jdata !! c
      else jdata !! c.
Proof.
  intros Hne Hidx. unfold isub_mean_at. destruct jdata as [|r0 jd0] eqn:E; [done|].
  rewrite <- E in *. clear E r0 jd0 Hne.
  rewrite (take_idx_omap _ _ Hidx). simpl.
  set (rows := omap (λ i, jdata !! i) idx).
  assert (Forall2 (λ i r, jdata !! i = Some r) idx rows) as Hrows.
  { apply take_idx_Ok. by apply take_idx_omap. }
  eexists. split; [done|].
  assert (∀ i r, (i, r) ∈ zip idx rows → jdata !! i = Some r) as Hupd.
  { intros i r [k Hk]%list_elem_of_lookup.
    apply lookup_zip_with_Some in Hk as (i' & r' & [= <- <-] & Hi & Hr).
    exact (Forall2_lookup_lr _ _ _ _ _ _ Hrows Hi Hr). }
  split.
  - by destruct (foldl_insert_rows (λ r, vsub r (mean0 rows)) jdata (zip idx rows)
                  jdata 0 eq_refl Hupd) as [Hl _].
  - intros c.
    destruct (foldl_insert_rows (λ r, vsub r (mean0 rows)) jdata (zip idx rows)
                jdata c eq_refl Hupd) as [_ ->].
    rewrite fst_zip; [done|]. apply Forall2_length in Hrows. lia.
Qed.

(** the loop over the strata, for any list of distinct strata *)
Lemma center_loop (d : gmap string (Val (T:=T))) (ii : list (list nat)) (sfc : list nat)
    (S : list nat) (jdata : list (list T)) :
  attr_idxs d "ii" = Ok ii →
  NoDup S → jdata ≠ [] → length jdata = length sfc →
  (∀ s, s ∈ S → ∃ blk, ii !! s = Some blk ∧ ∀ c, c ∈ blk ↔ sfc !! c = Some s) →
  ∃ jc,
    for_each S (λ s jdata,
      let* ii := attr_idxs d "ii" in
      let* ii_s := item ii s in
      isub_mean_at jdata ii_s) jdata = Ok jc ∧
    length jc = length jdata ∧
    ∀ c s blk, sfc !! c = Some s → ii !! s = Some blk →
      (∀ c', c' ∈ blk ↔ sfc !! c' = Some s) →
      jc !! c =
        if decide (s ∈ S)
        then (λ r, vsub r (mean0 (omap (λ i, jdata !! i) blk))) <$> jdata !! c
        else jdata !! c.
Proof.
  intros Hii HS. revert jdata.
  set (body := λ (s : nat) (jdata : list (list T)),
         let* ii := attr_idxs d "ii" in
         let* ii_s := item ii s in isub_mean_at jdata ii_s).
  induction HS as [|s S Hs HS IH]; intros jdata Hne Hlen Hblk; simpl.
  - exists jdata. split_and!; [done..|]. by intros c s blk _ _ _.
  - unfold body at 1. rewrite Hii. simpl.
    destruct (Hblk s) as (blk_s & Hblk_s & Hmem); [by left|].
    unfold item. rewrite Hblk_s. simpl.
    destruct (isub_mean_at_Ok jdata blk_s Hne) as (jd1 & -> & Hlen1 & Hjd1).
    { intros i Hi%Hmem%lookup_lt_Some. lia. }
    simpl.
    destruct (IH jd1) as (jc & Hjc & Hlenjc & Hpt).
    { intros ->. simpl in Hlen1. by destruct jdata. }
    { lia. }
    { intros; apply Hblk; by right. }
    exists jc. split_and!; [exact Hjc|lia|].
    intros c s' blk Hc Hblk' Hmem'. rewrite (Hpt c s' blk Hc Hblk' Hmem').
    destruct (decide (s' = s)) as [->|Hne'].
    + rewrite (decide_False (P := s ∈ S)) by done.
      rewrite decide_True by by left.
      rewrite Hblk_s in Hblk'. injection Hblk' as <-.
      rewrite Hjd1. rewrite decide_True; [done|]. by apply Hmem.
    + assert (∀ c', sfc !! c' = Some s' → jd1 !! c' = jdata !! c') as Hsame.
      { intros c' Hc'. rewrite Hjd1. rewrite decide_False; [done|].
        intros Hin%Hmem. congruence. }
      rewrite (omap_lookup_ext jd1 jdata blk) by (intros i Hi%Hmem'; by apply Hsame).
      rewrite (Hsame c Hc).
      destruct (decide (s' ∈ S)) as [Hin|Hnin].
      * rewrite decide_True; [done | by right].
      * rewrite decide_False; [done|]. rewrite elem_of_cons. tauto.
Qed.

Lemma blocks_lookup (sfc : list nat) (N s : nat) (blk : list nat) :
  ((λ s, np_flatnonzero (eq_mask sfc s)) <$> seq 0 N) !! s = Some blk →
  s < N ∧ ∀ c, c ∈ blk ↔ sfc !! c = Some s.
Proof.
  rewrite list_lookup_fmap. intros Hblk.
  destruct (seq 0 N !! s) as [s'|] eqn:Hs; simpl in Hblk; [|done].
  injection Hblk as <-. apply lookup_seq in Hs as [-> Hlt]. simpl.
  split; [done|]. intros c. apply elem_of_flatnonzero.
Qed.

(** centering on the dictionary of a design whose strata labels are all
    below the stratum count *)
Lemma center_strata_design cm (w f0 f : list T) (strat sclust sfc : list nat)
    (est : list T) (jdata : list (list T)) :
  (∀ s, s ∈ sfc → s < max_list strat + 1) →
  jdata ≠ [] → length jdata = length sfc →
  ∃ jc,
    jackknife_center (strata_design cm w f0 f strat sclust sfc) false est jdata
      = Ok jc ∧
    length jc = length jdata ∧
    ∀ c s blk row,
      sfc !! c = Some s →
      ((λ s, np_flatnonzero (eq_mask sfc s)) <$> seq 0 (max_list strat + 1)) !! s
        = Some blk →
      jdata !! c = Some row →
      ∃ rows, take_idx jdata blk = Ok rows ∧
              jc !! c = Some (vsub row (mean0 rows)).
Proof.
  intros Hlt Hne Hjlen.
  unfold jackknife_center. rewrite strata_design_rep_weights. simpl.
  set (d := strata_design cm w f0 f strat sclust sfc).
  set (N := max_list strat + 1) in *.
  set (iiv := (λ s, np_flatnonzero (eq_mask sfc s)) <$> seq 0 N) in *.
  assert (attr_nat d "nstrat" = Ok N) as ->.
  { unfold attr_nat, attr, d, strata_design. simplify_map_eq. simpl.
    by rewrite Nat2Z.id. }
  simpl.
  destruct (center_loop d iiv sfc (seq 0 N) jdata) as (jc & Hjc & Hlenjc & Hpt).
  { unfold attr_idxs, attr, d, strata_design. by simplify_map_eq. }
  { apply NoDup_seq. }
  { exact Hne. }
  { exact Hjlen. }
  { intros s Hsin. apply elem_of_seq in Hsin.
    destruct (lookup_lt_is_Some_2 iiv s) as [blk Hblk].
    { unfold iiv. rewrite length_fmap, length_seq. lia. }
    exists blk. split; [done|]. by apply blocks_lookup in Hblk as [_ ?]. }
  exists jc. split_and!; [exact Hjc|done|].
  intros c s blk row Hc Hblk Hrow.
  pose proof (blocks_lookup _ _ _ _ Hblk) as [HsN Hmem].
  exists (omap (λ i, jdata !! i) blk). split.
  - apply take_idx_omap. intros i Hi. rewrite Hjlen.
    eapply lookup_lt_Some, Hmem; done.
  - rewrite (Hpt c s blk Hc Hblk Hmem).
    rewrite decide_True, Hrow; [done|]. apply elem_of_seq. lia.
Qed.

(** a constructed design has at least one cluster *)
Lemma design_has_cluster strata cluster (weights fpc : option (list T)) s c w f0
    (nest : bool) sfc :
  _check_args strata cluster weights fpc = Ok (s, c, w, f0) → s ≠ [] →
  take_idx (unique_inverse s)
    (unique_index (Z.of_nat <$> relabel nest (unique_inverse c) (unique_inverse s)))
    = Ok sfc →
  sfc ≠ [].
Proof.
  intros Hargs Hs Hsfc.
  destruct (design_cluster_facts _ _ _ _ _ _ _ _ nest _ Hargs Hsfc)
    as (_ & Hl & Hk & _).
  destruct (lookup_lt_is_Some_2
              (relabel nest (unique_inverse c) (unique_inverse s)) 0)
    as [k Hc].
  { rewrite Hl. apply check_args_lengths in Hargs as (_ & -> & _).
    destruct s; [done | simpl; lia]. }
  apply Hk in Hc. intros ->. simpl in Hc. lia.
Qed.


(** ** The mean-bootstrap generator *)

(** C6 (the code does otherwise). On every design constructed with the
    mean-bootstrap method, [get_rep_weights] raises AttributeError: the
    generator starts by reading [self.design], which a design does not have. *)
Theorem mean_bootstrap_raises strata cluster (weights fpc : option (list T)) nest d
    (c : nat) (bsn : option Z) (g : G) :
  SurveyDesign_init strata cluster weights None fpc "mean_boot" nest = Ok d →
  get_rep_weights d c bsn g = Err AttributeError.
Proof.
  intros (s0 & c0 & w & f0 & f & sfc & _ & _ & _ & _ & _ & ->)%init_strata_inv.
  unfold get_rep_weights. rewrite strata_design_rep_weights. simpl.
  rewrite strata_design_cov_method. simpl.
  unfold _mean_bootstrap_weight, attr_obj.
  by rewrite strata_design_no_design.
Qed.

(** ** Quantiles *)

(** C8 (the code does otherwise). The level check of [SurveyQuantile] never
    passes: it raises ValueError when the smallest level is negative (or
    there is no level), and TypeError in every other case, whether or not a
    level exceeds 1. *)
Theorem quantile_level_check (quantile : list T) :
  check_quantile quantile =
  match np_min quantile with
  | Err e => Err e
  | Ok m => if flt m (of_Z 0) then Err ValueError else Err TypeError
  end.
Proof.
  unfold check_quantile. destruct (np_min quantile) as [m|e]; simpl; [|done].
  by destruct (flt m (of_Z 0)).
Qed.

Lemma check_quantile_raises (quantile : list T) : raises (check_quantile quantile).
Proof.
  unfold check_quantile. destruct (np_min quantile) as [m|e]; simpl; [|by eexists].
  destruct (flt m (of_Z 0)); simpl; by eexists.
Qed.

(** C7 (the code does otherwise). Constructing a [SurveyQuantile] raises for
    every design, data array and list of levels, and so does constructing a
    [SurveyMedian]; no object with [est], [vcov] and [stderr] is produced. *)
Theorem quantile_construction_raises (design : gmap string Val) (data : ndarray)
    (quantile : list T) (replicates cov_method : Val) (mse : bool)
    (bsn : option Z) (g : G) :
  raises (SurveyQuantile_init design data quantile replicates mse bsn g) ∧
  raises (SurveyMedian_init design data cov_method mse g).
Proof.
  assert (∀ q r b, raises (SurveyQuantile_init design data q r mse b g)) as Hq.
  { intros q r b. unfold SurveyQuantile_init.
    destruct (check_quantile_raises q) as [e ->]. by eexists. }
  split; [apply Hq|].
  unfold SurveyMedian_init.
  destruct (Hq [fdiv (of_Z 1) (of_Z 2)] cov_method None) as [e ->]. by eexists.
Qed.

(** ** Attributes of a statistic object *)

Lemma jackknife_writes (cls : StatClass) (self self' : gmap string Val) r (g g' : G) :
  _jackknife cls self g = Ok (self', r, g') →
  ∃ vcov stderr, self' = <["stderr" := stderr]> (<["vcov" := vcov]> self).
Proof.
  unfold _jackknife. intros Hj. inv_bind Hj.
  injection Hj as <- _ _. eauto.
Qed.

Lemma bootstrap_writes (cls : StatClass) (self self' : gmap string Val)
    replicates bsn r (g g' : G) :
  _bootstrap cls self replicates bsn g = Ok (self', r, g') →
  ∃ vcov stderr, self' = <["stderr" := stderr]> (<["vcov" := vcov]> self).
Proof.
  unfold _bootstrap. intros Hj.
  apply bind_Ok in Hj as (design & _ & Hj).
  apply bind_Ok in Hj as (weights & _ & Hj).
  apply bind_Ok in Hj as (est & _ & Hj).
  apply bind_Ok in Hj as (reps & _ & Hj).
  apply bind_Ok in Hj as ([jdata g1] & _ & Hj).
  apply bind_Ok in Hj as (mse & _ & Hj).
  apply bind_Ok in Hj as (jdata' & _ & Hj).
  destruct jdata'; injection Hj as <- _ _; eauto.
Qed.

Lemma estimate_attributes (cls : StatClass) (self obj : gmap string Val)
    replicates bsn (g g' : G) :
  estimate cls self replicates bsn g = Ok (obj, g') →
  dom obj = {["est"; "vcov"; "stderr"]} ∪ dom self.
Proof.
  unfold estimate. intros He.
  apply bind_Ok in He as (design & _ & He).
  apply bind_Ok in He as (cm & _ & He).
  apply bind_Ok in He as ([[self' [[est vcov] stderr]] g1] & Hrun & [= <- _]).
  assert (∃ a b, self' = <["stderr" := b]> (<["vcov" := a]> self)) as (a & b & ->).
  { case_bool_decide; [eapply jackknife_writes | eapply bootstrap_writes]; done. }
  rewrite !dom_insert_L. set_solver.
Qed.

(** C5 (the code does otherwise). After [SurveyMean] or [SurveyTotal] has run
    its estimation, the attributes of the object are exactly [design], [mse],
    [data], [est], [vcov] and [stderr]: the pseudo-values computed on line 410
    are not retained under any name. *)
Theorem pseudo_values_not_retained (design : gmap string Val) (data : ndarray)
    (mse : bool) (replicates bsn : option Z) (g g' : G) (obj : gmap string Val) :
  SurveyMean_init design data mse replicates bsn g = Ok (obj, g') ∨
  SurveyTotal_init design data replicates mse bsn g = Ok (obj, g') →
  dom obj = {["design"; "mse"; "data"; "est"; "vcov"; "stderr"]} ∧
  obj !! "pseudo" = None.
Proof.
  intros Hinit.
  assert (dom obj = {["design"; "mse"; "data"; "est"; "vcov"; "stderr"]}) as Hdom.
  { destruct Hinit as [Hi|Hi]; apply estimate_attributes in Hi; rewrite Hi;
      unfold SurveyStat_init; rewrite !dom_insert_L; set_solver. }
  split; [done|]. apply not_elem_of_dom. rewrite Hdom. set_solver.
Qed.

(** ** The weighted quantile *)

Lemma length_cumsum_from (acc : T) (l : list T) :
  length (cumsum_from acc l) = length l.
Proof. revert acc. induction l as [|x l IH]; intros acc; simpl; [done|]. by rewrite IH. Qed.

Lemma length_np_cumsum (l : list T) : length (np_cumsum l) = length l.
Proof. destruct l; simpl; [done|]. by rewrite length_cumsum_from. Qed.

Lemma length_insert_sorted (x : T) (l : list T) :
  length (insert_sorted x l) = S (length l).
Proof. induction l as [|y l IH]; simpl; [done|]. destruct (flt y x); simpl; by rewrite ?IH. Qed.

Lemma length_np_sort (l : list T) : length (np_sort l) = length l.
Proof.
  induction l as [|x l IH]; simpl; [done|].
  by rewrite length_insert_sorted, <- IH.
Qed.

(** *** The search for the position of a target *)

Lemma first_not_below_le (a : list T) (v : T) : first_not_below a v ≤ length a.
Proof. induction a as [|x a IH]; simpl; [done|]. destruct (flt x v); lia. Qed.

Lemma first_not_below_below (a : list T) (v : T) (i : nat) (x : T) :
  i < first_not_below a v → a !! i = Some x → flt x v = true.
Proof.
  revert i. induction a as [|y a IH]; intros i; simpl; [lia|].
  destruct (flt y v) eqn:Hy; [|lia].
  destruct i as [|i]; simpl; [by intros _ [= <-]|].
  intros Hi. apply IH. lia.
Qed.

Lemma first_not_below_at (a : list T) (v x : T) :
  a !! first_not_below a v = Some x → flt x v = false.
Proof.
  induction a as [|y a IH]; simpl; [done|].
  destruct (flt y v) eqn:Hy; simpl; [done|]. by intros [= <-].
Qed.

Lemma ascending_lookup (a : list T) (i j : nat) (x y : T) :
  ascending a → a !! i = Some x → a !! j = Some y → i < j → flt y x = false.
Proof.
  intros Ha. revert i j. induction Ha as [|z a Ha IH Hz]; intros i j Hi Hj Hij.
  - done.
  - destruct j as [|j]; [lia|]. simpl in Hj. destruct i as [|i]; simpl in Hi.
    + injection Hi as <-. eapply Forall_forall in Hz; [done|].
      by eapply list_elem_of_lookup_2.
    + eapply IH; [done..|lia].
Qed.

(** on an ascending array the elements below [v] are those before
    [first_not_below a v] *)
Lemma ascending_partition (a : list T) (v : T) (i : nat) (x : T) :
  flt_order → ascending a → a !! i = Some x →
  flt x v = true ↔ i < first_not_below a v.
Proof.
  intros [_ Hneg] Ha Hi. split; [|intros; by eapply first_not_below_below].
  intros Hx. destruct (decide (i < first_not_below a v)) as [|Hge]; [done|].
  destruct (lookup_lt_is_Some_2 a (first_not_below a v)) as [y Hy].
  { apply lookup_lt_Some in Hi. lia. }
  pose proof (first_not_below_at a v y Hy) as Hyv.
  destruct (decide (first_not_below a v = i)) as [Heq|Hne].
  - rewrite Heq, Hi in Hy. injection Hy as <-. congruence.
  - assert (flt x y = false) as Hxy.
    { eapply (ascending_lookup a (first_not_below a v) i); [done..|lia]. }
    rewrite (Hneg x y v Hxy Hyv) in Hx. done.
Qed.

Lemma bisect_bounds (fuel : nat) (a : list T) (v : T) (lo hi : nat) :
  lo ≤ hi → lo ≤ bisect fuel a v lo hi ≤ hi.
Proof.
  revert lo hi. induction fuel as [|fuel IH]; intros lo hi Hle; cbn [bisect]; [lia|].
  destruct (Nat.ltb_spec lo hi) as [Hlt|]; [|lia].
  pose proof (Nat.div_lt (hi - lo) 2) as Hdiv.
  set (m := (hi - lo) / 2) in *.
  destruct (a !! (lo + m)); [|lia].
  destruct (flt t v).
  - specialize (IH (lo + m + 1) hi). lia.
  - specialize (IH lo (lo + m)). lia.
Qed.

(** more turns than the width of the window change nothing *)
Lemma bisect_fuel (f1 f2 : nat) (a : list T) (v : T) (lo hi : nat) :
  hi - lo ≤ f1 → hi - lo ≤ f2 → bisect f1 a v lo hi = bisect f2 a v lo hi.
Proof.
  revert f2 lo hi. induction f1 as [|f1 IH]; intros f2 lo hi H1 H2.
  - destruct f2; cbn [bisect]; [done|].
    destruct (Nat.ltb_spec lo hi); [lia|done].
  - destruct f2 as [|f2]; cbn [bisect].
    + destruct (Nat.ltb_spec lo hi); [lia|done].
    + destruct (Nat.ltb_spec lo hi) as [Hlt|]; [|done].
      pose proof (Nat.div_lt (hi - lo) 2) as Hdiv.
      set (m := (hi - lo) / 2) in *.
      destruct (a !! (lo + m)); [|done].
      destruct (flt t v); apply IH; lia.
Qed.

Lemma bisect_first (fuel : nat) (a : list T) (v : T) (lo hi : nat) :
  (∀ i x, a !! i = Some x → flt x v = true ↔ i < first_not_below a v) →
  hi ≤ length a → lo ≤ first_not_below a v ≤ hi → hi - lo ≤ fuel →
  bisect fuel a v lo hi = first_not_below a v.
Proof.
  intros Hpart. revert lo hi.
  induction fuel as [|fuel IH]; intros lo hi Hhi Hwin Hfuel; cbn [bisect]; [lia|].
  destruct (Nat.ltb_spec lo hi) as [Hlt|]; [|lia].
  pose proof (Nat.div_lt (hi - lo) 2) as Hdiv.
  set (m := (hi - lo) / 2) in *.
  destruct (lookup_lt_is_Some_2 a (lo + m)) as [x Hx]; [lia|].
  rewrite Hx. pose proof (Hpart _ _ Hx) as Hiff.
  destruct (flt x v) eqn:Hxv.
  - assert (lo + m < first_not_below a v) by (by apply Hiff).
    apply IH; lia.
  - assert (¬ lo + m < first_not_below a v) by (rewrite <- Hiff; congruence).
    apply IH; lia.
Qed.

Lemma length_searchsorted_from (a : list T) (last_key : T) (lo hi : nat)
    (keys : list T) :
  length (searchsorted_from a last_key lo hi keys) = length keys.
Proof.
  revert last_key lo hi. induction keys as [|k keys IH]; intros; simpl; [done|].
  destruct (flt last_key k); simpl; by rewrite IH.
Qed.

Lemma searchsorted_from_le (a : list T) (last_key : T) (lo hi : nat)
    (keys : list T) (pos : nat) :
  lo ≤ length a → pos ∈ searchsorted_from a last_key lo hi keys → pos ≤ length a.
Proof.
  revert last_key lo hi. induction keys as [|k keys IH]; intros last_key lo hi Hlo; simpl.
  - by intros ?%elem_of_nil.
  - assert (∀ lo' hi', lo' ≤ hi' → hi' ≤ length a →
              pos ∈ bisect (hi' - lo') a k lo' hi'
                    :: searchsorted_from a k (bisect (hi' - lo') a k lo' hi')
                         (bisect (hi' - lo') a k lo' hi') keys →
              pos ≤ length a) as Hstep.
    { intros lo' hi' Hle Hhi'.
      pose proof (bisect_bounds (hi' - lo') a k lo' hi' Hle) as Hb.
      intros [->|Hin]%elem_of_cons; [lia|].
      eapply IH; [|done]. lia. }
    destruct (flt last_key k); simpl.
    + apply Hstep; [done|lia].
    + apply Hstep; [lia|]. destruct (Nat.ltb_spec hi (length a)); lia.
Qed.

Lemma length_np_searchsorted (a keys : list T) :
  length (np_searchsorted a keys) = length keys.
Proof. destruct keys; [done|]. apply length_searchsorted_from. Qed.

Lemma np_searchsorted_le (a keys : list T) (pos : nat) :
  pos ∈ np_searchsorted a keys → pos ≤ length a.
Proof.
  destruct keys as [|k keys]; [by intros ?%elem_of_nil|].
  unfold np_searchsorted. apply searchsorted_from_le. lia.
Qed.

Lemma first_not_below_mono (a : list T) (u v : T) :
  flt_order → ascending a →
  (flt u v = true → first_not_below a u ≤ first_not_below a v) ∧
  (flt u v = false → first_not_below a v ≤ first_not_below a u).
Proof.
  intros Hord Ha. pose proof Hord as [Htr Hneg]. split; intros Huv.
  - destruct (decide (first_not_below a u ≤ first_not_below a v)) as [|Hgt]; [done|].
    destruct (lookup_lt_is_Some_2 a (first_not_below a v)) as [y Hy].
    { pose proof (first_not_below_le a u). lia. }
    assert (flt y u = true) as Hyu.
    { eapply first_not_below_below; [|done]. lia. }
    pose proof (first_not_below_at a v y Hy) as Hyv.
    rewrite (Htr y u v Hyu Huv) in Hyv. done.
  - destruct (decide (first_not_below a v ≤ first_not_below a u)) as [|Hgt]; [done|].
    destruct (lookup_lt_is_Some_2 a (first_not_below a u)) as [y Hy].
    { pose proof (first_not_below_le a v). lia. }
    pose proof (first_not_below_at a u y Hy) as Hyu.
    assert (flt y v = true) as Hyv.
    { eapply first_not_below_below; [|done]. lia. }
    rewrite (Hneg y u v Hyu Huv) in Hyv. done.
Qed.

Lemma searchsorted_from_first (a : list T) (last_key : T) (lo hi : nat)
    (keys : list T) :
  flt_order → ascending a →
  lo ≤ first_not_below a last_key → first_not_below a last_key ≤ hi →
  searchsorted_from a last_key lo hi keys = first_not_below a <$> keys.
Proof.
  intros Hord Ha. revert last_key lo hi.
  induction keys as [|k keys IH]; intros last_key lo hi Hlo Hhi; simpl; [done|].
  pose proof (first_not_below_le a k) as Hk.
  destruct (first_not_below_mono a last_key k Hord Ha) as [Hup Hdown].
  assert (∀ lo' hi', hi' ≤ length a →
            lo' ≤ first_not_below a k ≤ hi' →
            bisect (hi' - lo') a k lo' hi' = first_not_below a k) as Hbis.
  { intros lo' hi' H1 H2. apply bisect_first; [|done..|lia].
    intros i x. by apply ascending_partition. }
  destruct (flt last_key k); simpl.
  - rewrite Hbis by (specialize (Hup eq_refl); lia).
    f_equal. by apply IH.
  - rewrite Hbis.
    2:{ destruct (Nat.ltb_spec hi (length a)); lia. }
    2:{ specialize (Hdown eq_refl). destruct (Nat.ltb_spec hi (length a)); lia. }
    f_equal. by apply IH.
Qed.

(** on an ascending array, with a comparison that is a strict weak order,
    the bisection finds the documented position of every key *)
Lemma np_searchsorted_ascending (a keys : list T) :
  flt_order → ascending a →
  np_searchsorted a keys = first_not_below a <$> keys.
Proof.
  intros Hord Ha. destruct keys as [|k keys]; [done|].
  unfold np_searchsorted. apply searchsorted_from_first; [done..|lia|].
  apply first_not_below_le.
Qed.

Lemma item_last_Ok {A} (a : list A) :
  a ≠ [] → ∃ x, last a = Some x ∧ item_last a = Ok x.
Proof.
  intros Ha. unfold item_last.
  destruct (last a) as [x|] eqn:Hl; [eauto|]. by apply last_None in Hl.
Qed.

Lemma quantile_at_spec (cw sorted_data : list T) (n : nat) (pos : nat) (qi : T) :
  length cw = n → length sorted_data = n → 0 < n → pos ≤ n →
  if decide (pos = n - 1 ∨ pos = n)
  then ∃ x, last sorted_data = Some x ∧
            quantile_at cw sorted_data (Z.of_nat n) (pos, qi) = Ok x
  else ∃ a b cw_pos,
         sorted_data !! pos = Some a ∧ sorted_data !! (pos + 1) = Some b ∧
         cw !! pos = Some cw_pos ∧
         quantile_at cw sorted_data (Z.of_nat n) (pos, qi) =
           Ok (if feq cw_pos qi then fdiv (fadd a b) (of_Z 2) else a).
Proof.
  intros Hcw Hsd Hn Hpos. unfold quantile_at.
  destruct (decide (pos = n - 1 ∨ pos = n)) as [Hend|Hmid].
  - rewrite bool_decide_eq_true_2 by lia.
    apply item_last_Ok. intros ->. simpl in Hsd. lia.
  - rewrite bool_decide_eq_false_2 by lia.
    destruct (lookup_lt_is_Some_2 sorted_data pos) as [a Ha]; [lia|].
    destruct (lookup_lt_is_Some_2 sorted_data (pos + 1)) as [b Hb]; [lia|].
    destruct (lookup_lt_is_Some_2 cw pos) as [cw_pos Hc]; [lia|].
    exists a, b, cw_pos. split_and!; [done..|].
    unfold item. rewrite Hc. simpl. rewrite Ha.
    destruct (feq cw_pos qi); simpl; [|done]. by rewrite Hb.
Qed.

(** C9. With weights, data column and design weights of one non-zero length,
    [_stat] returns one value per level, and the search finds one position
    per level.  For a level whose target [q * cw[last]] is found at position
    [pos]: when [pos] is the last or the one-past-last position the last
    sorted value is returned; otherwise, on a tie [cw[pos] == target] the
    average of the sorted values at [pos] and [pos + 1] is returned, and
    without a tie the sorted value at [pos].  When the cumulative weights
    are ascending (and the comparison is a strict weak order) the position
    found is the first one whose cumulative weight is not below the target. *)
Theorem quantile_tie_rule (self : gmap string Val) (weights : list T)
    (col_index p : nat) (rows : list (list T)) (quantile : list T) :
  attr_mat self "data" = Ok (p, rows) → col_index < p →
  attr_arr self "quantile" = Ok quantile →
  attr self "n_cw" = Ok (VInt (Z.of_nat (length weights))) →
  length rows = length weights → weights ≠ [] →
  let cw := np_cumsum weights in
  let sorted_data :=
    np_sort ((λ r : list T, default (of_Z 0) (r !! col_index)) <$> rows) in
  ∃ cw_last res,
    last cw = Some cw_last ∧
    SurveyQuantile_stat self weights col_index = Ok res ∧
    length res = length quantile ∧
    let q := (λ x, fmul x cw_last) <$> quantile in
    let ind := np_searchsorted cw q in
    length ind = length quantile ∧
    (flt_order → ascending cw → ind = first_not_below cw <$> q) ∧
    ∀ i level pos, quantile !! i = Some level → ind !! i = Some pos →
      let target := fmul level cw_last in
      if decide (pos = length weights - 1 ∨ pos = length weights)
      then res !! i = last sorted_data
      else ∃ a b cw_pos,
             sorted_data !! pos = Some a ∧ sorted_data !! (pos + 1) = Some b ∧
             cw !! pos = Some cw_pos ∧
             res !! i =
               Some (if feq cw_pos target then fdiv (fadd a b) (of_Z 2) else a).
Proof.
  intros Hdata Hcol Hq Hncw Hrows Hw cw sorted_data.
  set (n := length weights).
  assert (0 < n) as Hn by (unfold n; destruct weights; [done | simpl; lia]).
  assert (length cw = n) as Hcw by apply length_np_cumsum.
  assert (length sorted_data = n) as Hsd.
  { unfold sorted_data. by rewrite length_np_sort, length_fmap. }
  destruct (item_last_Ok cw) as (cw_last & Hlast & Hitem).
  { intros Hnil. rewrite Hnil in Hcw. simpl in Hcw. lia. }
  exists cw_last.
  set (q := (λ x, fmul x cw_last) <$> quantile).
  set (ind := np_searchsorted cw q).
  assert (length ind = length quantile) as Hind.
  { unfold ind, q. by rewrite length_np_searchsorted, length_fmap. }
  assert (SurveyQuantile_stat self weights col_index =
          map_result (quantile_at cw sorted_data (Z.of_nat n)) (zip ind q)) as ->.
  { unfold SurveyQuantile_stat. rewrite Hdata. simpl.
    rewrite bool_decide_eq_true_2 by done. simpl.
    rewrite Hq. simpl. fold cw. rewrite Hitem. simpl. rewrite Hncw. simpl.
    done. }
  assert (∀ pq, pq ∈ zip ind q →
            succeeds (quantile_at cw sorted_data (Z.of_nat n) pq)) as Htot.
  { intros [pos qi] [k Hk]%list_elem_of_lookup.
    apply lookup_zip_with_Some in Hk as (pos' & qi' & [= <- <-] & Hp & _).
    assert (pos ≤ n) as Hle.
    { rewrite <- Hcw. eapply np_searchsorted_le, list_elem_of_lookup_2, Hp. }
    pose proof (quantile_at_spec cw sorted_data n pos qi Hcw Hsd Hn Hle) as Hspec.
    destruct (decide _); [destruct Hspec as (x & _ & ->)
                         |destruct Hspec as (a & b & c & _ & _ & _ & ->)];
      by eexists. }
  destruct (map_result_total _ _ Htot) as [res Hres].
  exists res. split_and!; [done..| |].
  { apply map_result_Ok, Forall2_length in Hres.
    rewrite length_zip_with, Hind in Hres. unfold q in Hres.
    rewrite length_fmap in Hres. lia. }
  cbv zeta. fold q. fold ind. split_and!.
  - done.
  - intros Hord Hasc. by apply np_searchsorted_ascending.
  - intros i level pos Hi Hpos. set (target := fmul level cw_last).
    apply map_result_Ok in Hres.
    assert (zip ind q !! i = Some (pos, target)) as Hz.
    { apply lookup_zip_with_Some. exists pos, target.
      unfold q. rewrite list_lookup_fmap, Hi. done. }
    destruct (Forall2_lookup_l _ _ _ _ _ Hres Hz) as (y & Hy & Hval).
    assert (pos ≤ n) as Hle.
    { rewrite <- Hcw. eapply np_searchsorted_le, list_elem_of_lookup_2, Hpos. }
    pose proof (quantile_at_spec cw sorted_data n pos target Hcw Hsd Hn Hle) as Hspec.
    fold n. destruct (decide _).
    + destruct Hspec as (x & Hx & Hx'). rewrite Hx' in Hval.
      injection Hval as <-. by rewrite Hy, Hx.
    + destruct Hspec as (a & b & c & Ha & Hb & Hc & Hv').
      rewrite Hv' in Hval. injection Hval as <-. by exists a, b, c.
Qed.

(** ** The jackknife run on a constructed design *)

Lemma np_dot_Ok (w : list T) (p : nat) (rows : list (list T)) :
  length w = length rows → succeeds (np_dot w p rows).
Proof. intros Hlen. unfold np_dot. rewrite bool_decide_eq_true_2 by done. by eexists. Qed.

Lemma call_stat_Ok (cls : StatClass) d mse (l : list T) (w : list T) :
  cls ≠ Quantile → length w = length l →
  succeeds (call_stat cls (stat_self d mse (Arr1 l)) w).
Proof.
  intros Hcls Hlen.
  assert (attr_mat (stat_self d mse (Arr1 l)) "data" = Ok (1, (λ x, [x]) <$> l)) as Hdata.
  { unfold attr_mat, attr, stat_self, SurveyStat_init. by simplify_map_eq. }
  destruct (np_dot_Ok w 1 ((λ x, [x]) <$> l)) as [v Hv]; [by rewrite length_fmap|].
  destruct cls; [| |done]; simpl;
    unfold SurveyMean_stat, SurveyTotal_stat; rewrite Hdata; simpl; rewrite Hv;
    by eexists.
Qed.

Lemma replicate_stats_Ok (cls : StatClass) mse (l : list T) (w f0 f : list T)
    (strat sclust sfc : list nat) (cs : list nat) (g : G) :
  cls ≠ Quantile → length l = length w →
  length strat = length w → length sclust = length w →
  (∀ c, c ∈ cs → c < length sfc) →
  let d := strata_design "jack" w f0 f strat sclust sfc in
  ∃ jdata, replicate_stats cls (stat_self d mse (Arr1 l)) d None cs g = Ok (jdata, g) ∧
           length jdata = length cs.
Proof.
  intros Hcls Hl Hstrat Hsclust Hcs d.
  induction cs as [|c cs IH]; simpl; [by eexists|].
  destruct (lookup_lt_is_Some_2 sfc c) as [s Hs]; [apply Hcs; by left|].
  destruct (bincount_lookup sfc s) as [Hnh _]; [by eapply list_elem_of_lookup_2|].
  unfold d at 1.
  rewrite (jackknife_weights_Ok w f0 f strat sclust sfc c s _ None g Hstrat Hsclust Hs Hnh).
  simpl.
  destruct (call_stat_Ok cls d mse l
              (zip_with (λ y (b : bool), if b then of_Z 0 else y)
                 (zip_with (λ y (b : bool),
                    if b then fmul y (fdiv (of_Z (Z.of_nat (count_eq s sfc)))
                                        (of_Z (Z.of_nat (count_eq s sfc) - 1)))
                    else y) w (eq_mask strat s))
                 (eq_mask sclust c))) as [v Hv]; [done| |].
  { rewrite !length_zip_with, !length_eq_mask. lia. }
  rewrite Hv. simpl.
  destruct IH as (jdata & -> & Hlen); [intros; apply Hcs; by right|].
  simpl. eexists. split; [done|]. simpl. by rewrite Hlen.
Qed.

Lemma jackknife_run_Ok (cls : StatClass) mse (l : list T) (w f0 f : list T)
    (strat sclust sfc : list nat) (g : G) :
  cls ≠ Quantile → length l = length w →
  length strat = length w → length sclust = length w →
  sfc ≠ [] → (∀ s, s ∈ sfc → s < max_list strat + 1) → length f = length sfc →
  let d := strata_design "jack" w f0 f strat sclust sfc in
  ∃ self' est vcov stderr,
    _jackknife cls (stat_self d mse (Arr1 l)) g =
      Ok (self', (VArr est, VMat (length vcov) vcov, VArr stderr), g).
Proof.
  intros Hcls Hl Hstrat Hsclust Hsfc Hlt Hf d.
  set (self := stat_self d mse (Arr1 l)).
  unfold _jackknife.
  assert (attr_obj self "design" = Ok d) as ->.
  { unfold attr_obj, attr, self, stat_self, SurveyStat_init. by simplify_map_eq. }
  simpl.
  assert (attr_arr d "weights" = Ok w) as ->.
  { unfold attr_arr, attr, d, strata_design. by simplify_map_eq. }
  simpl.
  destruct (call_stat_Ok cls d mse l w Hcls) as [est Hest]; [done|].
  fold self in Hest. rewrite Hest. simpl.
  assert (attr_nat d "nclust" = Ok (length sfc)) as ->.
  { unfold attr_nat, attr, d, strata_design. simplify_map_eq. simpl.
    by rewrite Nat2Z.id, sum_list_bincount. }
  simpl.
  destruct (replicate_stats_Ok cls mse l w f0 f strat sclust sfc (seq 0 (length sfc)) g)
    as (jdata & Hjdata & Hjlen); [done..| |].
  { intros c Hc%elem_of_seq. lia. }
  fold d self in Hjdata. rewrite Hjdata. simpl.
  rewrite length_seq in Hjlen.
  assert (attr_bool self "mse" = Ok mse) as ->.
  { unfold attr_bool, attr, self, stat_self, SurveyStat_init. by simplify_map_eq. }
  simpl.
  assert (jdata ≠ []) as Hjne.
  { intros ->. by destruct sfc. }
  assert (∃ jc, jackknife_center d mse est jdata = Ok jc ∧ length jc = length sfc)
    as (jc & -> & Hjc).
  { destruct mse.
    - eexists. split; [unfold jackknife_center, isub_est; by destruct jdata|].
      by rewrite length_fmap.
    - destruct (center_strata_design "jack" w f0 f strat sclust sfc est jdata)
        as (jc & Hc & Hlen & _); [done..|].
      exists jc. split; [done | lia]. }
  simpl.
  unfold d at 1. rewrite strata_design_rep_weights. simpl.
  assert (attr_idx d "clust_per_strat" = Ok (np_bincount sfc 0)) as ->.
  { unfold attr_idx, attr, d, strata_design. by simplify_map_eq. }
  simpl.
  assert (attr_idx d "strat_for_clust" = Ok sfc) as ->.
  { unfold attr_idx, attr, d, strata_design. by simplify_map_eq. }
  simpl.
  destruct (take_idx_total (np_bincount sfc 0) sfc) as [nh Hnh].
  { intros s Hs. rewrite length_bincount by done.
    apply max_list_elem_of_le in Hs. lia. }
  rewrite Hnh. simpl.
  assert (length nh = length sfc) as Hnhlen.
  { apply take_idx_Ok, Forall2_length in Hnh. lia. }
  assert (attr_mat self "data" = Ok (1, (λ x, [x]) <$> l)) as ->.
  { unfold attr_mat, attr, self, stat_self, SurveyStat_init. by simplify_map_eq. }
  simpl.
  destruct (np_dot_Ok w 1 ((λ x, [x]) <$> l)) as [tot ->]; [by rewrite length_fmap|].
  simpl.
  unfold pseudo_values. rewrite bool_decide_eq_true_2 by (rewrite length_fmap; lia).
  simpl.
  assert (attr_arr d "fpc" = Ok f) as ->.
  { unfold attr_arr, attr, d, strata_design. by simplify_map_eq. }
  simpl.
  unfold scale_rows. rewrite bool_decide_eq_true_2 by (rewrite !length_fmap; lia).
  simpl. by eexists _, _, _, _.
Qed.

Lemma estimate_jack_Ok (cls : StatClass) strata cluster (weights fpc : option (list T))
    nest d w (l : list T) mse replicates bsn (g : G) :
  cls ≠ Quantile →
  SurveyDesign_init strata cluster weights None fpc "jack" nest = Ok d →
  attr_arr d "weights" = Ok w → length l = length w →
  ∃ obj est vcov stderr,
    estimate cls (stat_self d mse (Arr1 l)) replicates bsn g = Ok (obj, g) ∧
    obj !! "data" = Some (VMat 1 ((λ x, [x]) <$> l)) ∧
    obj !! "est" = Some (VArr est) ∧
    obj !! "vcov" = Some (VMat (length vcov) vcov) ∧
    obj !! "stderr" = Some (VArr stderr).
Proof.
  intros Hcls (s0 & c0 & w' & f0 & f & sfc & Hargs & Hcm & Hs & Hsfc & Hf & ->)%init_strata_inv.
  intros Hw Hl.
  assert (w' = w) as ->.
  { unfold attr_arr, attr, strata_design in Hw. by simplify_map_eq. }
  clear Hw.
  destruct (design_cluster_facts _ _ _ _ _ _ _ _ nest _ Hargs Hsfc)
    as (Hstrat & Hsclust & _ & _ & Hin).
  pose proof (design_has_cluster _ _ _ _ _ _ _ _ nest _ Hargs Hs Hsfc) as Hne.
  assert (length f = length sfc) as Hflen.
  { apply take_idx_Ok, Forall2_length in Hsfc, Hf. lia. }
  destruct (jackknife_run_Ok cls mse l w f0 f _ _ sfc g Hcls Hl Hstrat Hsclust Hne)
    as (self' & est & vcov & stderr & Hrun); [|done|].
  { intros x Hx%Hin%max_list_elem_of_le. lia. }
  unfold estimate.
  set (d := strata_design "jack" w f0 f (unique_inverse s0)
              (relabel nest (unique_inverse c0) (unique_inverse s0)) sfc) in *.
  assert (attr_obj (stat_self d mse (Arr1 l)) "design" = Ok d) as ->.
  { unfold attr_obj, attr, stat_self, SurveyStat_init. by simplify_map_eq. }
  simpl. unfold d at 1. rewrite strata_design_cov_method. simpl.
  fold d. rewrite Hrun. simpl.
  destruct (jackknife_writes _ _ _ _ _ _ Hrun) as (a & b & ->).
  exists (<["stderr" := VArr stderr]>
            (<["vcov" := VMat (length vcov) vcov]>
               (<["est" := VArr est]>
                  (<["stderr" := b]> (<["vcov" := a]> (stat_self d mse (Arr1 l))))))),
    est, vcov, stderr.
  split; [done|]. unfold stat_self, SurveyStat_init. by simplify_map_eq.
Qed.

(** C10. [SurveyMean] and [SurveyTotal] turn a one-dimensional array into an
    n-by-1 matrix, so that every outcome is the one obtained from the explicit
    column matrix; on a jackknife design constructed from strata and clusters
    a one-dimensional array with one entry per observation is accepted, the
    object holds the n-by-1 matrix as [data], and [est], [vcov] and [stderr]
    are set. *)
Theorem one_dimensional_data :
  (∀ (design : gmap string Val) (l : list T) mse replicates bsn (g : G),
     SurveyMean_init design (Arr1 l) mse replicates bsn g =
       SurveyMean_init design (Arr2 1 ((λ x, [x]) <$> l)) mse replicates bsn g ∧
     SurveyTotal_init design (Arr1 l) replicates mse bsn g =
       SurveyTotal_init design (Arr2 1 ((λ x, [x]) <$> l)) replicates mse bsn g) ∧
  (∀ strata cluster (weights fpc : option (list T)) nest d w (l : list T)
     mse replicates bsn (g : G),
     SurveyDesign_init strata cluster weights None fpc "jack" nest = Ok d →
     attr_arr d "weights" = Ok w → length l = length w →
     (∃ obj est vcov stderr,
        SurveyMean_init d (Arr1 l) mse replicates bsn g = Ok (obj, g) ∧
        obj !! "data" = Some (VMat 1 ((λ x, [x]) <$> l)) ∧
        obj !! "est" = Some (VArr est) ∧
        obj !! "vcov" = Some (VMat (length vcov) vcov) ∧
        obj !! "stderr" = Some (VArr stderr)) ∧
     (∃ obj est vcov stderr,
        SurveyTotal_init d (Arr1 l) replicates mse bsn g = Ok (obj, g) ∧
        obj !! "data" = Some (VMat 1 ((λ x, [x]) <$> l)) ∧
        obj !! "est" = Some (VArr est) ∧
        obj !! "vcov" = Some (VMat (length vcov) vcov) ∧
        obj !! "stderr" = Some (VArr stderr))).
Proof.
  split; [done|].
  intros strata cluster weights fpc nest d w l mse replicates bsn g Hd Hw Hl.
  split.
  - by eapply (estimate_jack_Ok Mean).
  - by eapply (estimate_jack_Ok Total).
Qed.

(** ** Relabelling of strata and clusters *)

Lemma sorted_lookup_lt (u : list Z) (a b : nat) (x y : Z) :
  StronglySorted Z.lt u → u !! a = Some x → u !! b = Some y →
  a < b → (x < y)%Z.
Proof.
  intros Hu. revert a b. induction Hu as [|z u Hu IH Hz]; intros a b Ha Hb Hab.
  - done.
  - destruct b as [|b]; [lia|]. simpl in Hb. destruct a as [|a]; simpl in Ha.
    + injection Ha as <-. eapply Forall_forall in Hz; [done|].
      by eapply list_elem_of_lookup_2.
    + eapply IH; [done..|lia].
Qed.

Lemma sorted_lookup_order (u : list Z) (a b : nat) (x y : Z) :
  StronglySorted Z.lt u → u !! a = Some x → u !! b = Some y →
  (a = b ↔ x = y) ∧ (a < b ↔ (x < y)%Z).
Proof.
  intros Hu Ha Hb.
  destruct (lt_eq_lt_dec a b) as [[Hlt| ->]|Hgt].
  - pose proof (sorted_lookup_lt u a b x y Hu Ha Hb Hlt). lia.
  - rewrite Ha in Hb. injection Hb as <-. lia.
  - pose proof (sorted_lookup_lt u b a y x Hu Hb Ha Hgt). lia.
Qed.

Lemma max_list_lt_ge (l : list nat) (k : nat) :
  (∀ x, x ∈ l → x < k) → (∀ j, j < k → j ∈ l) → l ≠ [] →
  max_list l + 1 = k.
Proof.
  intros Hlt Hsurj Hne.
  assert (max_list l < k) as Hmax.
  { apply Hlt. by apply max_list_elem_of. }
  destruct (decide (k = 0)) as [->|Hk]; [lia|].
  assert (k - 1 ∈ l) as Hin by (apply Hsurj; lia).
  apply max_list_elem_of_le in Hin. lia.
Qed.

Lemma max_list_unique_inverse (s : list Z) :
  s ≠ [] → max_list (unique_inverse s) + 1 = length (np_unique s).
Proof.
  intros Hs. apply max_list_lt_ge.
  - intros x [i Hi]%list_elem_of_lookup. by eapply unique_inverse_lt.
  - intros j Hj. destruct (unique_inverse_surj s j Hj) as [i Hi].
    by eapply list_elem_of_lookup_2.
  - intros Hnil%(f_equal length). rewrite length_unique_inverse in Hnil.
    by destruct s.
Qed.

Lemma unique_inverse_order (s : list Z) (i j a b : nat) (x y : Z) :
  s !! i = Some x → s !! j = Some y →
  unique_inverse s !! i = Some a → unique_inverse s !! j = Some b →
  (a = b ↔ x = y) ∧ (a < b ↔ (x < y)%Z).
Proof.
  intros Hx Hy (x' & Hx' & Ha)%unique_inverse_lookup (y' & Hy' & Hb)%unique_inverse_lookup.
  rewrite Hx in Hx'. injection Hx' as <-. rewrite Hy in Hy'. injection Hy' as <-.
  eapply sorted_lookup_order; [apply np_unique_sorted|done..].
Qed.

Lemma check_args_supplied (s c : list Z) (weights fpc : option (list T)) s0 c0 w f0 :
  _check_args (Some s) (Some c) weights fpc = Ok (s0, c0, w, f0) → s0 = s ∧ c0 = c.
Proof. by intros (n & _ & _ & [= -> -> _ _])%check_args_Ok. Qed.

Lemma check_args_strata (s : list Z) cluster (weights fpc : option (list T)) s0 c0 w f0 :
  _check_args (Some s) cluster weights fpc = Ok (s0, c0, w, f0) → s0 = s.
Proof. by intros (n & _ & _ & [= -> _ _ _])%check_args_Ok. Qed.

(** X1. The recoded strata keep the grouping and the order of the labels:
    two observations get the same code exactly when their labels are equal,
    a smaller code exactly when the label is smaller, and the codes are
    exactly 0 .. nstrat-1, with nstrat the number of distinct labels. *)
Theorem strata_relabelling (s : list Z) cluster (weights fpc : option (list T))
    cm nest d :
  SurveyDesign_init (Some s) cluster weights None fpc cm nest = Ok d →
  ∃ v, view d = Ok v ∧
    length (v_strat v) = length s ∧
    v_nstrat v = length (np_unique s) ∧
    (∀ a, a < v_nstrat v ↔ a ∈ v_strat v) ∧
    (∀ i j a b x y,
       s !! i = Some x → s !! j = Some y →
       v_strat v !! i = Some a → v_strat v !! j = Some b →
       (a = b ↔ x = y) ∧ (a < b ↔ (x < y)%Z)).
Proof.
  intros (s0 & c0 & w & f0 & f & sfc & Hargs & Hcm & Hs & Hsfc & Hf & ->)%init_strata_inv.
  apply check_args_strata in Hargs as ->.
  eexists. split; [apply view_strata_design|]. simpl.
  rewrite max_list_unique_inverse by done.
  split_and!.
  - apply length_unique_inverse.
  - done.
  - intros a. split.
    + intros Ha. destruct (unique_inverse_surj s a Ha) as [i Hi].
      by eapply list_elem_of_lookup_2.
    + intros [i Hi]%list_elem_of_lookup. by eapply unique_inverse_lt.
  - intros i j a b x y. apply unique_inverse_order.
Qed.

Lemma nested_code_eq (m c1 s1 c2 s2 : nat) :
  c1 < m → c2 < m → (c1 + m * s1 = c2 + m * s2 ↔ c1 = c2 ∧ s1 = s2).
Proof.
  intros H1 H2. split; [|by intros [-> ->]]. intros Heq.
  assert (s1 = s2) as -> by nia. lia.
Qed.

(** X2. The recoded clusters are exactly 0 .. nclust-1.  With [nest], two
    observations share a cluster code exactly when they carry the same
    cluster label and the same stratum label; without it, exactly when they
    carry the same cluster label. *)
Theorem cluster_relabelling (s c : list Z) (weights fpc : option (list T)) cm nest d :
  SurveyDesign_init (Some s) (Some c) weights None fpc cm nest = Ok d →
  ∃ v, view d = Ok v ∧
    length (v_sclust v) = length c ∧
    (∀ a, a < v_nclust v ↔ a ∈ v_sclust v) ∧
    (∀ i j a b x y sx sy,
       c !! i = Some x → c !! j = Some y →
       s !! i = Some sx → s !! j = Some sy →
       v_sclust v !! i = Some a → v_sclust v !! j = Some b →
       (a = b ↔ x = y ∧ (nest = true → sx = sy))).
Proof.
  intros (s0 & c0 & w & f0 & f & sfc & Hargs & Hcm & Hs & Hsfc & Hf & ->)%init_strata_inv.
  pose proof (check_args_lengths _ _ _ _ _ _ _ _ Hargs) as (Hlenc & _).
  apply check_args_supplied in Hargs as [-> ->].
  eexists. split; [apply view_strata_design|]. simpl.
  rewrite sum_list_bincount.
  assert (length (unique_inverse s) = length c) as Hsc.
  { by rewrite length_unique_inverse. }
  destruct (relabel_is_inverse nest c (unique_inverse s) Hsc) as (X & HX & HlenX).
  pose proof Hsfc as Hfacts. rewrite HX in Hfacts.
  apply cluster_facts in Hfacts as (Hk & _).
  split_and!.
  - by apply length_relabel.
  - intros a. rewrite Hk, HX. split.
    + intros Ha. destruct (unique_inverse_surj X a Ha) as [i Hi].
      by eapply list_elem_of_lookup_2.
    + intros [i Hi]%list_elem_of_lookup. by eapply unique_inverse_lt.
  - intros i j a b x y sx sy Hx Hy Hsx Hsy Ha Hb.
    destruct (lookup_lt_is_Some_2 (unique_inverse c) i) as [ci Hci].
    { rewrite length_unique_inverse. by eapply lookup_lt_Some. }
    destruct (lookup_lt_is_Some_2 (unique_inverse c) j) as [cj Hcj].
    { rewrite length_unique_inverse. by eapply lookup_lt_Some. }
    destruct (unique_inverse_order c i j ci cj x y Hx Hy Hci Hcj) as [Hceq _].
    destruct nest; simpl in Ha, Hb.
    + destruct (lookup_lt_is_Some_2 (unique_inverse s) i) as [si Hsi].
      { rewrite length_unique_inverse. by eapply lookup_lt_Some. }
      destruct (lookup_lt_is_Some_2 (unique_inverse s) j) as [sj Hsj].
      { rewrite length_unique_inverse. by eapply lookup_lt_Some. }
      destruct (unique_inverse_order s i j si sj sx sy Hsx Hsy Hsi Hsj) as [Hseq _].
      set (m := max_list (unique_inverse c) + 1) in *.
      set (raw := Z.of_nat <$> zip_with (λ c0 s0, c0 + m * s0)
                    (unique_inverse c) (unique_inverse s)) in *.
      assert (raw !! i = Some (Z.of_nat (ci + m * si))) as Hri.
      { unfold raw. by rewrite list_lookup_fmap, lookup_zip_with, Hci, Hsi. }
      assert (raw !! j = Some (Z.of_nat (cj + m * sj))) as Hrj.
      { unfold raw. by rewrite list_lookup_fmap, lookup_zip_with, Hcj, Hsj. }
      destruct (unique_inverse_order raw i j a b _ _ Hri Hrj Ha Hb) as [Hreq _].
      assert (ci < m ∧ cj < m) as [Hcim Hcjm].
      { apply list_elem_of_lookup_2, max_list_elem_of_le in Hci, Hcj.
        unfold m. lia. }
      pose proof (nested_code_eq m ci si cj sj Hcim Hcjm) as Hcode.
      rewrite Hreq. split.
      * intros Heq. assert (ci = cj ∧ si = sj) as [? ?] by (apply Hcode; lia).
        split; [by apply Hceq | intros _; by apply Hseq].
      * intros [Hxy Hss]. apply Hceq in Hxy. apply Hseq in Hss; [|done].
        subst. done.
    + rewrite Hci in Ha. rewrite Hcj in Hb. injection Ha as <-. injection Hb as <-.
      rewrite Hceq. split; [intros ->; by split | by intros [? _]].
Qed.

(** ** Per-cluster arrays *)

(** the position [unique_index] records for cluster [c] is that of its first
    observation *)
Lemma first_observation (X : list Z) (c : nat) :
  c < length (np_unique X) →
  let sclust := unique_inverse X in
  let i := index_of (Z.of_nat c) (Z.of_nat <$> sclust) in
  unique_index (Z.of_nat <$> sclust) !! c = Some i ∧
  sclust !! i = Some c ∧ ∀ j, j < i → sclust !! j ≠ Some c.
Proof.
  intros Hc sclust i. split_and!.
  - unfold sclust. rewrite unique_index_dense, list_lookup_fmap.
    by rewrite lookup_seq_lt.
  - apply first_pos_lookup. destruct (unique_inverse_surj X c Hc) as [j Hj].
    by eapply list_elem_of_lookup_2.
  - intros j Hj Hjc. apply (index_of_first _ _ _ Hj).
    by rewrite list_lookup_fmap, Hjc.
Qed.

(** X3. The fpc kept on the design has one entry per cluster.  The stratum
    and the fpc of a cluster are those of its first observation; an absent
    fpc gives zeros. *)
Theorem cluster_first_observation strata cluster (weights fpc : option (list T))
    cm nest d :
  SurveyDesign_init strata cluster weights None fpc cm nest = Ok d →
  ∃ v, view d = Ok v ∧
    length (v_fpc v) = v_nclust v ∧
    (fpc = None → ∀ c x, v_fpc v !! c = Some x → x = of_Z 0) ∧
    (∀ c, c < v_nclust v →
       ∃ i, v_sclust v !! i = Some c ∧
            (∀ j, j < i → v_sclust v !! j ≠ Some c) ∧
            v_strat_for_clust v !! c = v_strat v !! i ∧
            (∀ f0, fpc = Some f0 → v_fpc v !! c = f0 !! i)).
Proof.
  intros (s0 & c0 & w & f0 & f & sfc & Hargs & Hcm & Hs & Hsfc & Hf & ->)%init_strata_inv.
  eexists. split; [apply view_strata_design|]. simpl.
  rewrite sum_list_bincount.
  pose proof (check_args_lengths _ _ _ _ _ _ _ _ Hargs) as (Hlenc & _).
  assert (length (unique_inverse s0) = length c0) as Hsc.
  { by rewrite length_unique_inverse. }
  destruct (relabel_is_inverse nest c0 (unique_inverse s0) Hsc) as (X & HX & HlenX).
  rewrite HX in *.
  pose proof Hsfc as (Hk & _)%cluster_facts.
  apply take_idx_Ok in Hsfc, Hf.
  split_and!.
  - apply Forall2_length in Hsfc, Hf. lia.
  - intros -> c x Hx.
    destruct (Forall2_lookup_r _ _ _ _ _ Hf Hx) as (i & _ & Hi).
    apply check_args_Ok in Hargs as (n & _ & _ & [= _ _ _ ->]). simpl in Hi.
    unfold np_zeros in Hi. by apply lookup_replicate in Hi as [-> _].
  - intros c Hc. rewrite Hk in Hc.
    destruct (first_observation X c Hc) as (Hii & Hfirst & Hbefore).
    eexists. split_and!; [exact Hfirst|exact Hbefore| |].
    + destruct (Forall2_lookup_l _ _ _ _ _ Hsfc Hii) as (x & -> & ->). done.
    + intros f1 ->.
      destruct (Forall2_lookup_l _ _ _ _ _ Hf Hii) as (x & -> & Hx).
      apply check_args_Ok in Hargs as (n & _ & _ & [= _ _ _ ->]). done.
Qed.

(** under [nest] every stratum is the stratum of one of its clusters *)
Lemma nested_strata_covered (s0 c0 : list Z) (sfc : list nat) (s : nat) :
  length c0 = length s0 → s0 ≠ [] →
  take_idx (unique_inverse s0)
    (unique_index (Z.of_nat <$> relabel true (unique_inverse c0) (unique_inverse s0)))
    = Ok sfc →
  s < max_list (unique_inverse s0) + 1 → s ∈ sfc.
Proof.
  intros Hlen Hs Hsfc Hlt.
  rewrite max_list_unique_inverse in Hlt by done.
  destruct (unique_inverse_surj s0 s Hlt) as [i Hi].
  assert (length (unique_inverse s0) = length c0) as Hsc.
  { by rewrite length_unique_inverse. }
  destruct (relabel_is_inverse true c0 (unique_inverse s0) Hsc) as (X & HX & HlenX).
  destruct (lookup_lt_is_Some_2 (relabel true (unique_inverse c0) (unique_inverse s0)) i)
    as [c Hc].
  { rewrite HX, length_unique_inverse, HlenX, <- Hsc. by eapply lookup_lt_Some. }
  pose proof Hsfc as Hfacts. rewrite HX in Hfacts.
  apply cluster_facts in Hfacts as (Hk & Hck & Hrow & _).
  rewrite <- HX in Hck, Hrow.
  destruct (lookup_lt_is_Some_2 sfc c) as [s' Hs'].
  { rewrite Hk. by eapply Hck. }
  destruct (Hrow c s' Hs') as (j & Hj & Hsj).
  assert (unique_inverse s0 !! i = unique_inverse s0 !! j) as Heq.
  { eapply nested_same_stratum; [|done..]. by rewrite !length_unique_inverse. }
  rewrite Hi, Hsj in Heq. injection Heq as ->.
  by eapply list_elem_of_lookup_2.
Qed.

(** X4. Under [nest] (the default) every stratum holds at least one cluster:
    [clust_per_strat] has [nstrat] entries, each at least 1, and there are
    at least as many clusters as strata. *)
Theorem nested_strata_have_clusters strata cluster (weights fpc : option (list T))
    cm d :
  SurveyDesign_init strata cluster weights None fpc cm true = Ok d →
  ∃ v, view d = Ok v ∧
    length (v_clust_per_strat v) = v_nstrat v ∧
    (∀ s nh, v_clust_per_strat v !! s = Some nh → 1 ≤ nh) ∧
    1 ≤ v_nstrat v ∧ v_nstrat v ≤ v_nclust v.
Proof.
  intros (s0 & c0 & w & f0 & f & sfc & Hargs & Hcm & Hs & Hsfc & Hf & ->)%init_strata_inv.
  eexists. split; [apply view_strata_design|]. simpl.
  rewrite sum_list_bincount.
  pose proof (check_args_lengths _ _ _ _ _ _ _ _ Hargs) as (Hlenc & _).
  pose proof (design_has_cluster _ _ _ _ _ _ _ _ true _ Hargs Hs Hsfc) as Hne.
  destruct (design_cluster_facts _ _ _ _ _ _ _ _ true _ Hargs Hsfc)
    as (_ & _ & _ & _ & Hin).
  pose proof (nested_strata_covered s0 c0 sfc) as Hcov.
  assert (max_list sfc + 1 = max_list (unique_inverse s0) + 1) as Hmax.
  { apply max_list_lt_ge; [|by eauto|done].
    intros x Hx%Hin%max_list_elem_of_le. lia. }
  split_and!.
  - rewrite length_bincount by done. lia.
  - intros s nh Hnh.
    assert (s ∈ sfc) as Hsin.
    { apply Hcov; [done..|]. apply lookup_lt_Some in Hnh.
      rewrite length_bincount in Hnh by done. lia. }
    destruct (bincount_lookup sfc s Hsin) as [Hnh' Hpos].
    rewrite Hnh in Hnh'. by injection Hnh' as ->.
  - lia.
  - assert (seq 0 (max_list (unique_inverse s0) + 1) ⊆+ sfc) as Hsub.
    { apply NoDup_submseteq; [apply NoDup_seq|].
      intros x Hx%elem_of_seq. apply Hcov; [done..|lia]. }
    apply submseteq_length in Hsub. by rewrite length_seq in Hsub.
Qed.

(** ** Edge cases of the delete-one weights *)

(** X5. On a jackknife design, asking for the weights of a cluster index
    that is not below [nclust] raises IndexError. *)
Theorem jackknife_cluster_out_of_range strata cluster (weights fpc : option (list T))
    nest d v (c : nat) (bsn : option Z) (g : G) :
  SurveyDesign_init strata cluster weights None fpc "jack" nest = Ok d →
  view d = Ok v → v_nclust v ≤ c →
  get_rep_weights d c bsn g = Err IndexError.
Proof.
  intros (s0 & c0 & w & f0 & f & sfc & Hargs & Hcm & Hs & Hsfc & Hf & ->)%init_strata_inv.
  rewrite view_strata_design. intros [= <-]. simpl. rewrite sum_list_bincount.
  intros Hc.
  unfold get_rep_weights. rewrite strata_design_rep_weights. simpl.
  rewrite strata_design_cov_method. simpl.
  unfold _jackknife_rep_weights, attr_idx, attr, strata_design.
  simplify_map_eq. simpl. unfold item.
  by rewrite (lookup_ge_None_2 sfc c).
Qed.

Lemma single_count (sfc : list nat) (s a b : nat) :
  np_bincount sfc 0 !! s = Some 1 →
  sfc !! a = Some s → sfc !! b = Some s → a = b.
Proof.
  intros Hone%bincount_block Ha%elem_of_flatnonzero Hb%elem_of_flatnonzero.
  destruct (np_flatnonzero (eq_mask sfc s)) as [|z [|z' l]]; [done| |done].
  apply list_elem_of_singleton in Ha, Hb. congruence.
Qed.

(** X6. Under [nest], deleting the only cluster of a stratum gives weight 0
    to every observation of that stratum and leaves all other weights as
    they are: the factor nh/(nh-1) with nh = 1 reaches no entry of the
    result. *)
Theorem jackknife_singleton_stratum strata cluster (weights fpc : option (list T)) d :
  SurveyDesign_init strata cluster weights None fpc "jack" true = Ok d →
  ∃ v, view d = Ok v ∧
    ∀ c s bsn (g : G),
      v_strat_for_clust v !! c = Some s →
      v_clust_per_strat v !! s = Some 1 →
      ∃ w', get_rep_weights d c bsn g = Ok (w', g) ∧
        length w' = length (v_weights v) ∧
        ∀ i x si, v_weights v !! i = Some x → v_strat v !! i = Some si →
          w' !! i = Some (if decide (si = s) then of_Z 0 else x).
Proof.
  intros (s0 & c0 & w & f0 & f & sfc & Hargs & Hcm & Hs & Hsfc & Hf & ->)%init_strata_inv.
  destruct (design_cluster_facts _ _ _ _ _ _ _ _ true _ Hargs Hsfc)
    as (Hstrat & Hsclust & Hck & Hrow & _).
  pose proof (check_args_lengths _ _ _ _ _ _ _ _ Hargs) as (Hlenc & _).
  assert (∀ i j c, relabel true (unique_inverse c0) (unique_inverse s0) !! i = Some c →
            relabel true (unique_inverse c0) (unique_inverse s0) !! j = Some c →
            unique_inverse s0 !! i = unique_inverse s0 !! j) as Hnest.
  { intros i j c. apply nested_same_stratum. by rewrite !length_unique_inverse. }
  set (sclust := relabel true (unique_inverse c0) (unique_inverse s0)) in *.
  clearbody sclust.
  eexists. split; [apply view_strata_design|]. simpl.
  intros c s bsn g Hc Hone.
  eexists. split_and!.
  - by apply jackknife_weights_Ok.
  - by rewrite !length_zip_with, !length_eq_mask, Hstrat, Hsclust, !Nat.min_id.
  - intros i x si Hx Hsi.
    destruct (lookup_lt_is_Some_2 sclust i) as [ci Hci].
    { rewrite Hsclust. by eapply lookup_lt_Some. }
    rewrite (jackknife_weights_lookup _ _ _ c s _ i x si ci Hx Hsi Hci).
    assert (ci = c ↔ si = s) as Hiff.
    { destruct (lookup_lt_is_Some_2 sfc ci) as [s' Hs']; [by eapply Hck|].
      destruct (Hrow ci s' Hs') as (j & Hj & Hsj).
      pose proof (Hnest i j ci Hci Hj) as Heq.
      rewrite Hsi, Hsj in Heq. injection Heq as <-.
      split.
      - intros ->. rewrite Hc in Hs'. by injection Hs'.
      - intros ->. by eapply single_count. }
    destruct (decide (ci = c)) as [Hcc|Hcc], (decide (si = s)) as [Hss|Hss];
      try done; tauto.
Qed.

(** ** Externally supplied replicate weights *)

Lemma init_rep_inv strata cluster (weights fpc : option (list T)) p rows cm nest d :
  SurveyDesign_init strata cluster weights (Some (p, rows)) fpc cm nest = Ok d →
  d = <["weights" := VArr (default (np_ones (length rows)) weights)]>
        (<["rep_weights" := VMat p rows]> (<["cov_method" := VStr cm]> ∅)).
Proof.
  unfold SurveyDesign_init. case_bool_decide; simpl; [|done].
  case_bool_decide; [done|]. by intros [= <-].
Qed.

(** X7. A design built from replicate weights hands them back column by
    column, whatever its [cov_method]: replicate [c] is column [c] of the
    supplied array, and an index that is not below the column count raises
    IndexError.  The random source is left untouched. *)
Theorem rep_weights_columns strata cluster (weights fpc : option (list T))
    p rows cm nest d (c : nat) (bsn : option Z) (g : G) :
  SurveyDesign_init strata cluster weights (Some (p, rows)) fpc cm nest = Ok d →
  (c < p →
     ∃ col, get_rep_weights d c bsn g = Ok (col, g) ∧
       length col = length rows ∧
       ∀ i r x, rows !! i = Some r → r !! c = Some x → col !! i = Some x) ∧
  (p ≤ c → get_rep_weights d c bsn g = Err IndexError).
Proof.
  intros ->%init_rep_inv.
  unfold get_rep_weights, attr. simplify_map_eq. simpl. split.
  - intros Hc. rewrite bool_decide_eq_true_2 by done.
    eexists. split_and!; [done|by rewrite length_fmap|].
    intros i r x Hr Hx. by rewrite list_lookup_fmap, Hr; simpl; rewrite Hx.
  - intros Hc. by rewrite bool_decide_eq_false_2 by lia.
Qed.

(** ** The bootstrap protocol *)

Lemma stat_self_attrs (d : gmap string (Val (T:=T))) (mse : bool) (data : ndarray) p rows :
  data_attr data = VMat p rows →
  attr_obj (stat_self d mse data) "design" = Ok d ∧
  attr_bool (stat_self d mse data) "mse" = Ok mse ∧
  attr_mat (stat_self d mse data) "data" = Ok (p, rows).
Proof.
  intros Hdata.
  unfold attr_obj, attr_bool, attr_mat, attr, stat_self, SurveyStat_init.
  rewrite Hdata. by simplify_map_eq.
Qed.

Lemma call_stat_data (cls : StatClass) (d : gmap string (Val (T:=T))) mse data p rows (w : list T) :
  cls ≠ Quantile → data_attr data = VMat p rows → length w = length rows →
  ∃ e, call_stat cls (stat_self d mse data) w = Ok e.
Proof.
  intros Hcls Hdata Hlen.
  destruct (stat_self_attrs d mse data p rows Hdata) as (_ & _ & Hmat).
  destruct (np_dot_Ok w p rows Hlen) as [v Hv].
  destruct cls; [| |done]; simpl;
    unfold SurveyMean_stat, SurveyTotal_stat; rewrite Hmat; simpl; rewrite Hv;
    by eexists.
Qed.

(** X8. On a design whose method is not the jackknife, [SurveyMean] and
    [SurveyTotal] called without [replicates] raise TypeError (the default
    [None] reaches [range]), once the point estimate has been computed. *)
Theorem bootstrap_needs_replicates (d : gmap string Val) (w : list T) cm
    (data : ndarray) p rows (mse : bool) (bsn : option Z) (g : G) :
  attr_arr d "weights" = Ok w → attr_str d "cov_method" = Ok cm → cm ≠ "jack" →
  data_attr data = VMat p rows → length rows = length w →
  SurveyMean_init d data mse None bsn g = Err TypeError ∧
  SurveyTotal_init d data None mse bsn g = Err TypeError.
Proof.
  intros Hw Hcm Hne Hdata Hlen.
  destruct (stat_self_attrs d mse data p rows Hdata) as (Hd & _ & _).
  assert (∀ cls, cls ≠ Quantile →
            estimate cls (stat_self d mse data) None bsn g = Err TypeError) as Hest.
  { intros cls Hcls. unfold estimate. rewrite Hd. simpl. rewrite Hcm. simpl.
    rewrite bool_decide_eq_false_2 by done.
    unfold _bootstrap. rewrite Hd. simpl. rewrite Hw. simpl.
    destruct (call_stat_data cls d mse data p rows w Hcls Hdata) as [e ->]; done. }
  split; by apply Hest.
Qed.

Lemma mean_boot_weights_Err (w f0 f : list T) strat sclust sfc (c : nat)
    (bsn : option Z) (g : G) :
  get_rep_weights (strata_design "mean_boot" w f0 f strat sclust sfc) c bsn g
  = Err AttributeError.
Proof.
  unfold get_rep_weights. rewrite strata_design_rep_weights. simpl.
  rewrite strata_design_cov_method. simpl.
  unfold _mean_bootstrap_weight, attr_obj.
  by rewrite strata_design_no_design.
Qed.

(** X9. On a mean-bootstrap design built from strata and clusters,
    [SurveyMean] and [SurveyTotal] with at least one replicate raise
    AttributeError: the first replicate weights cannot be generated. *)
Theorem mean_bootstrap_never_estimates strata cluster (weights fpc : option (list T))
    nest d (w : list T) (data : ndarray) p rows (mse : bool) (r : Z)
    (bsn : option Z) (g : G) :
  SurveyDesign_init strata cluster weights None fpc "mean_boot" nest = Ok d →
  attr_arr d "weights" = Ok w →
  data_attr data = VMat p rows → length rows = length w → (1 ≤ r)%Z →
  SurveyMean_init d data mse (Some r) bsn g = Err AttributeError ∧
  SurveyTotal_init d data (Some r) mse bsn g = Err AttributeError.
Proof.
  intros (s0 & c0 & w' & f0 & f & sfc & _ & _ & _ & _ & _ & ->)%init_strata_inv.
  intros Hw Hdata Hlen Hr.
  set (d := strata_design "mean_boot" w' f0 f (unique_inverse s0)
              (relabel nest (unique_inverse c0) (unique_inverse s0)) sfc) in *.
  destruct (stat_self_attrs d mse data p rows Hdata) as (Hd & _ & _).
  assert (∀ cls, cls ≠ Quantile →
            estimate cls (stat_self d mse data) (Some r) bsn g = Err AttributeError)
    as Hest.
  { intros cls Hcls. unfold estimate. rewrite Hd. simpl.
    unfold d at 1. rewrite strata_design_cov_method. simpl.
    unfold _bootstrap. rewrite Hd. simpl. rewrite Hw. simpl.
    destruct (call_stat_data cls d mse data p rows w Hcls Hdata) as [e ->]; [done|].
    simpl. destruct (Z.to_nat r) as [|k] eqn:Hk; [lia|].
    simpl. unfold d at 1. by rewrite mean_boot_weights_Err. }
  split; by apply Hest.
Qed.

Lemma estimate_no_replicates (cls : StatClass) (d : gmap string (Val (T:=T)))
    (w : list T) cm (data : ndarray) p rows (r : Z) (bsn : option Z) (g : G) :
  cls ≠ Quantile →
  attr_arr d "weights" = Ok w → attr_str d "cov_method" = Ok cm → cm ≠ "jack" →
  data_attr data = VMat p rows → length rows = length w → (r ≤ 0)%Z →
  ∃ e obj,
    call_stat cls (stat_self d false data) w = Ok e ∧
    estimate cls (stat_self d false data) (Some r) bsn g = Ok (obj, g) ∧
    obj !! "est" = Some (VArr e) ∧
    obj !! "vcov" = Some (VFloat (fdiv (of_Z 0) (of_Z r))) ∧
    obj !! "stderr" = Some (VFloat (fsqrt (fdiv (of_Z 0) (of_Z r)))).
Proof.
  intros Hcls Hw Hcm Hne Hdata Hlen Hr.
  destruct (stat_self_attrs d false data p rows Hdata) as (Hd & Hmse & _).
  destruct (call_stat_data cls d false data p rows w Hcls Hdata) as [e He]; [done|].
  exists e. eexists. split; [done|].
  unfold estimate. rewrite Hd. simpl. rewrite Hcm. simpl.
  rewrite bool_decide_eq_false_2 by done.
  unfold _bootstrap. rewrite Hd. simpl. rewrite Hw. simpl. rewrite He. simpl.
  assert (Z.to_nat r = 0) as -> by lia. simpl. rewrite Hmse. simpl.
  split; [done|]. by simplify_map_eq.
Qed.

(** X10. With a replicate count of zero or below and mse off, the bootstrap
    protocol of [SurveyMean] and [SurveyTotal] draws nothing and still
    succeeds: [est] is the statistic under the design weights, [vcov] is the
    single number 0.0 / replicates and [stderr] its square root, not arrays. *)
Theorem no_replicates_scalar_variance (d : gmap string Val) (w : list T) cm
    (data : ndarray) p rows (r : Z) (bsn : option Z) (g : G) :
  attr_arr d "weights" = Ok w → attr_str d "cov_method" = Ok cm → cm ≠ "jack" →
  data_attr data = VMat p rows → length rows = length w → (r ≤ 0)%Z →
  (∃ e obj,
     SurveyMean_stat (stat_self d false data) w = Ok e ∧
     SurveyMean_init d data false (Some r) bsn g = Ok (obj, g) ∧
     obj !! "est" = Some (VArr e) ∧
     obj !! "vcov" = Some (VFloat (fdiv (of_Z 0) (of_Z r))) ∧
     obj !! "stderr" = Some (VFloat (fsqrt (fdiv (of_Z 0) (of_Z r))))) ∧
  (∃ e obj,
     SurveyTotal_stat (stat_self d false data) w = Ok e ∧
     SurveyTotal_init d data (Some r) false bsn g = Ok (obj, g) ∧
     obj !! "est" = Some (VArr e) ∧
     obj !! "vcov" = Some (VFloat (fdiv (of_Z 0) (of_Z r))) ∧
     obj !! "stderr" = Some (VFloat (fsqrt (fdiv (of_Z 0) (of_Z r))))).
Proof.
  intros Hw Hcm Hne Hdata Hlen Hr. split.
  - by apply (estimate_no_replicates Mean d w cm data p rows r bsn g).
  - by apply (estimate_no_replicates Total d w cm data p rows r bsn g).
Qed.

(** ** The result fields *)

Lemma jackknife_returns (cls : StatClass) (self self' : gmap string Val) r (g g' : G) :
  _jackknife cls self g = Ok (self', r, g') →
  ∃ d w e vc,
    attr_obj self "design" = Ok d ∧ attr_arr d "weights" = Ok w ∧
    call_stat cls self w = Ok e ∧
    r = (VArr e, VMat (length vc) vc, VArr (fsqrt <$> diag vc)).
Proof.
  unfold _jackknife. intros Hj.
  apply bind_Ok in Hj as (d & Hd & Hj).
  apply bind_Ok in Hj as (w & Hw & Hj).
  apply bind_Ok in Hj as (e & He & Hj).
  inv_bind Hj. injection Hj as _ <- _.
  by eexists d, w, e, _.
Qed.

Lemma bootstrap_returns (cls : StatClass) (self self' : gmap string Val)
    replicates bsn r (g g' : G) :
  _bootstrap cls self replicates bsn g = Ok (self', r, g') →
  ∃ d w e,
    attr_obj self "design" = Ok d ∧ attr_arr d "weights" = Ok w ∧
    call_stat cls self w = Ok e ∧
    ((∃ vc, r = (VArr e, VMat (length vc) vc, VArr (fsqrt <$> diag vc))) ∨
     (∃ x, r = (VArr e, VFloat x, VFloat (fsqrt x)))).
Proof.
  unfold _bootstrap. intros Hj.
  apply bind_Ok in Hj as (d & Hd & Hj).
  apply bind_Ok in Hj as (w & Hw & Hj).
  apply bind_Ok in Hj as (e & He & Hj).
  apply bind_Ok in Hj as (reps & _ & Hj).
  apply bind_Ok in Hj as ([jdata g1] & _ & Hj).
  apply bind_Ok in Hj as (mse & _ & Hj).
  apply bind_Ok in Hj as (jdata' & _ & Hj).
  exists d, w, e. split_and!; [done..|].
  destruct jdata'; injection Hj as _ <- _; [right|left]; by eexists.
Qed.

Lemma estimate_fields (cls : StatClass) (self obj : gmap string Val)
    replicates bsn (g g' : G) :
  estimate cls self replicates bsn g = Ok (obj, g') →
  ∃ d w e,
    attr_obj self "design" = Ok d ∧ attr_arr d "weights" = Ok w ∧
    call_stat cls self w = Ok e ∧
    obj !! "est" = Some (VArr e) ∧
    ((∃ vc, obj !! "vcov" = Some (VMat (length vc) vc) ∧
            obj !! "stderr" = Some (VArr (fsqrt <$> diag vc))) ∨
     (∃ x, obj !! "vcov" = Some (VFloat x) ∧
           obj !! "stderr" = Some (VFloat (fsqrt x)))).
Proof.
  unfold estimate. intros He.
  apply bind_Ok in He as (d & Hd & He).
  apply bind_Ok in He as (cm & _ & He).
  apply bind_Ok in He as ([[self' [[est vcov] stderr]] g1] & Hrun & [= <- _]).
  assert (∃ w e, attr_arr d "weights" = Ok w ∧ call_stat cls self w = Ok e ∧
            ((∃ vc, (est, vcov, stderr)
                    = (VArr e, VMat (length vc) vc, VArr (fsqrt <$> diag vc))) ∨
             (∃ x, (est, vcov, stderr) = (VArr e, VFloat x, VFloat (fsqrt x)))))
    as (w & e & Hw & Hcall & Hr).
  { case_bool_decide.
    - apply jackknife_returns in Hrun as (d' & w & e & vc & Hd' & Hw & Hcall & Hr).
      rewrite Hd in Hd'. injection Hd' as <-. exists w, e. split_and!; [done..|].
      left. by exists vc.
    - apply bootstrap_returns in Hrun as (d' & w & e & Hd' & Hw & Hcall & Hr).
      rewrite Hd in Hd'. injection Hd' as <-. by exists w, e. }
  exists d, w, e. split_and!; [done..| |].
  - destruct Hr as [[vc [= -> _ _]]|[x [= -> _ _]]]; by simplify_map_eq.
  - destruct Hr as [[vc [= _ -> ->]]|[x [= _ -> ->]]]; [left|right];
      eexists; by simplify_map_eq.
Qed.

(** X11. Whenever [SurveyMean] or [SurveyTotal] is constructed, [est] is the
    statistic of the class evaluated with the design weights, and [stderr]
    is the square root of the diagonal of [vcov], entry by entry, or of
    [vcov] itself when that is a single number. *)
Theorem result_fields (design : gmap string Val) (data : ndarray) (mse : bool)
    (replicates bsn : option Z) (g g' : G) (obj : gmap string Val) (cls : StatClass) :
  (cls = Mean ∧ SurveyMean_init design data mse replicates bsn g = Ok (obj, g')) ∨
  (cls = Total ∧ SurveyTotal_init design data replicates mse bsn g = Ok (obj, g')) →
  ∃ w e,
    attr_arr design "weights" = Ok w ∧
    call_stat cls (stat_self design mse data) w = Ok e ∧
    obj !! "est" = Some (VArr e) ∧
    ((∃ vc, obj !! "vcov" = Some (VMat (length vc) vc) ∧
            obj !! "stderr" = Some (VArr (fsqrt <$> diag vc))) ∨
     (∃ x, obj !! "vcov" = Some (VFloat x) ∧
           obj !! "stderr" = Some (VFloat (fsqrt x)))).
Proof.
  intros Hinit.
  assert (estimate cls (stat_self design mse data) replicates bsn g = Ok (obj, g'))
    as Hest by (by destruct Hinit as [[-> ?]|[-> ?]]).
  apply estimate_fields in Hest as (d & w & e & Hd & Hw & Hcall & Hfields).
  assert (d = design) as ->.
  { unfold attr_obj, attr, stat_self, SurveyStat_init in Hd. by simplify_map_eq. }
  by exists w, e.
Qed.

(** ** More on the weighted quantile *)

Lemma insert_sorted_perm (x : T) (l : list T) : insert_sorted x l ≡ₚ x :: l.
Proof.
  induction l as [|y l IH]; simpl; [done|].
  destruct (flt y x); [|done]. rewrite IH. apply Permutation_swap.
Qed.

Lemma np_sort_perm (l : list T) : np_sort l ≡ₚ l.
Proof.
  induction l as [|x l IH]; simpl; [done|].
  by rewrite insert_sorted_perm, IH.
Qed.

Lemma item_elem_of {A} (a : list A) (i : nat) (x : A) : item a i = Ok x → x ∈ a.
Proof.
  unfold item. destruct (a !! i) eqn:Hi; [|done]. intros [= <-].
  by eapply list_elem_of_lookup_2.
Qed.

Lemma item_last_elem_of {A} (a : list A) (x : A) : item_last a = Ok x → x ∈ a.
Proof.
  unfold item_last. destruct (last a) eqn:Hl; [|done]. intros [= <-].
  rewrite last_lookup in Hl. by eapply list_elem_of_lookup_2.
Qed.

Lemma quantile_at_value (cw sorted_data : list T) (n_cw : Z) (pq : nat * T) (y : T) :
  quantile_at cw sorted_data n_cw pq = Ok y →
  y ∈ sorted_data ∨
  ∃ a b, a ∈ sorted_data ∧ b ∈ sorted_data ∧ y = fdiv (fadd a b) (of_Z 2).
Proof.
  destruct pq as [pos qi]. unfold quantile_at. case_bool_decide.
  - intros Hy%item_last_elem_of. by left.
  - intros Hy. apply bind_Ok in Hy as (cw_pos & _ & Hy).
    destruct (feq cw_pos qi).
    + apply bind_Ok in Hy as (a & Ha%item_elem_of & Hy).
      apply bind_Ok in Hy as (b & Hb%item_elem_of & [= <-]).
      right. by exists a, b.
    + apply item_elem_of in Hy. by left.
Qed.

(** X12. Every value [SurveyQuantile._stat] returns is an entry of the
    requested data column, or the midpoint of two of its entries; no other
    value is produced. *)
Theorem quantile_values_observed (self : gmap string Val) (weights : list T)
    (col_index p : nat) (rows : list (list T)) (res : list T) :
  attr_mat self "data" = Ok (p, rows) →
  Forall (λ r, length r = p) rows →
  SurveyQuantile_stat self weights col_index = Ok res →
  ∀ y, y ∈ res →
    let observed x := ∃ r, r ∈ rows ∧ r !! col_index = Some x in
    observed y ∨ ∃ a b, observed a ∧ observed b ∧ y = fdiv (fadd a b) (of_Z 2).
Proof.
  intros Hdata Hwf Hres y Hy observed.
  unfold SurveyQuantile_stat in Hres. rewrite Hdata in Hres. simpl in Hres.
  case_bool_decide as Hcol; simpl in Hres; [|done].
  apply bind_Ok in Hres as (quantile & _ & Hres).
  apply bind_Ok in Hres as (cw_last & _ & Hres).
  apply bind_Ok in Hres as (n_cw & _ & Hres).
  apply bind_Ok in Hres as (n & _ & Hres).
  apply map_result_Ok in Hres.
  apply list_elem_of_lookup in Hy as [i Hi].
  destruct (Forall2_lookup_r _ _ _ _ _ Hres Hi) as (pq & _ & Hval).
  assert (∀ x, x ∈ np_sort ((λ r : list T, default (of_Z 0) (r !! col_index)) <$> rows)
            → observed x) as Hobs.
  { intros x. rewrite np_sort_perm, list_elem_of_fmap. intros (r & -> & Hr).
    exists r. split; [done|].
    eapply Forall_forall in Hwf; [|done].
    destruct (lookup_lt_is_Some_2 r col_index) as [z ->]; [lia|done]. }
  apply quantile_at_value in Hval as [Hin|(a & b & Ha & Hb & ->)].
  - left. by apply Hobs.
  - right. exists a, b. split_and!; [by apply Hobs..|done].
Qed.

Lemma first_not_below_ge (a : list T) (v : T) (k : nat) :
  k ≤ length a →
  (∀ i x, i < k → a !! i = Some x → flt x v = true) →
  k ≤ first_not_below a v.
Proof.
  revert k. induction a as [|x a IH]; intros k Hk Hlt; simpl in *; [lia|].
  destruct k as [|k]; [lia|].
  rewrite (Hlt 0 x) by (done || lia).
  apply le_n_S, IH; [lia|]. intros i y Hi Hy. apply (Hlt (S i)); [lia|done].
Qed.

Lemma first_not_below_0 (a : list T) (v x : T) :
  a !! 0 = Some x → flt x v = false → first_not_below a v = 0.
Proof. destruct a; [done|]. simpl. intros [= ->] ->. done. Qed.

(** the value [_stat] computes for each level, on arrays of one length *)
Lemma quantile_stat_lookup (self : gmap string Val) (weights : list T)
    (col_index p : nat) (rows : list (list T)) (quantile : list T) :
  attr_mat self "data" = Ok (p, rows) → col_index < p →
  attr_arr self "quantile" = Ok quantile →
  attr self "n_cw" = Ok (VInt (Z.of_nat (length weights))) →
  length rows = length weights → weights ≠ [] →
  let cw := np_cumsum weights in
  let sorted_data :=
    np_sort ((λ r : list T, default (of_Z 0) (r !! col_index)) <$> rows) in
  ∃ cw_last res,
    last cw = Some cw_last ∧
    SurveyQuantile_stat self weights col_index = Ok res ∧
    ∀ i level pos, quantile !! i = Some level →
      np_searchsorted cw ((λ x, fmul x cw_last) <$> quantile) !! i = Some pos →
      ∃ y, res !! i = Some y ∧
        quantile_at cw sorted_data (Z.of_nat (length weights))
          (pos, fmul level cw_last) = Ok y.
Proof.
  intros Hdata Hcol Hq Hncw Hrows Hw cw sorted_data.
  set (n := length weights).
  assert (0 < n) as Hn by (unfold n; destruct weights; [done | simpl; lia]).
  assert (length cw = n) as Hcw by apply length_np_cumsum.
  assert (length sorted_data = n) as Hsd.
  { unfold sorted_data. by rewrite length_np_sort, length_fmap. }
  destruct (item_last_Ok cw) as (cw_last & Hlast & Hitem).
  { intros Hnil. rewrite Hnil in Hcw. simpl in Hcw. lia. }
  exists cw_last.
  set (q := (λ x, fmul x cw_last) <$> quantile).
  set (ind := np_searchsorted cw q).
  assert (SurveyQuantile_stat self weights col_index =
          map_result (quantile_at cw sorted_data (Z.of_nat n)) (zip ind q)) as ->.
  { unfold SurveyQuantile_stat. rewrite Hdata. simpl.
    rewrite bool_decide_eq_true_2 by done. simpl.
    rewrite Hq. simpl. fold cw. rewrite Hitem. simpl. rewrite Hncw. simpl.
    done. }
  assert (∀ pq, pq ∈ zip ind q →
            succeeds (quantile_at cw sorted_data (Z.of_nat n) pq)) as Htot.
  { intros [pos qi] [k Hk]%list_elem_of_lookup.
    apply lookup_zip_with_Some in Hk as (pos' & qi' & [= <- <-] & Hp & _).
    assert (pos ≤ n) as Hle.
    { rewrite <- Hcw. eapply np_searchsorted_le, list_elem_of_lookup_2, Hp. }
    pose proof (quantile_at_spec cw sorted_data n pos qi Hcw Hsd Hn Hle) as Hspec.
    destruct (decide _); [destruct Hspec as (x & _ & ->)
                         |destruct Hspec as (a & b & c & _ & _ & _ & ->)];
      by eexists. }
  destruct (map_result_total _ _ Htot) as [res Hres].
  exists res. split_and!; [done..|].
  intros i level pos Hi Hpos.
  apply map_result_Ok in Hres.
  assert (zip ind q !! i = Some (pos, fmul level cw_last)) as Hz.
  { apply lookup_zip_with_Some. eexists _, _.
    unfold q. rewrite list_lookup_fmap, Hi. done. }
  destruct (Forall2_lookup_l _ _ _ _ _ Hres Hz) as (y & Hy & Hval).
  by exists y.
Qed.

(** X13. On arrays of one non-zero length whose cumulative weights are
    ascending, the comparison being a strict weak order: a level whose
    target is above every cumulative weight but the last yields the last
    sorted value of the column; a level whose target is not above the first
    cumulative weight, and not equal to it, yields the first sorted value
    when there are at least three observations. *)
Theorem quantile_extremes (self : gmap string Val) (weights : list T)
    (col_index p : nat) (rows : list (list T)) (quantile : list T) :
  attr_mat self "data" = Ok (p, rows) → col_index < p →
  attr_arr self "quantile" = Ok quantile →
  attr self "n_cw" = Ok (VInt (Z.of_nat (length weights))) →
  length rows = length weights → weights ≠ [] →
  flt_order → ascending (np_cumsum weights) →
  let cw := np_cumsum weights in
  let sorted_data :=
    np_sort ((λ r : list T, default (of_Z 0) (r !! col_index)) <$> rows) in
  ∃ cw_last res,
    last cw = Some cw_last ∧
    SurveyQuantile_stat self weights col_index = Ok res ∧
    ∀ i level, quantile !! i = Some level →
      let target := fmul level cw_last in
      ((∀ k x, k < length weights - 1 → cw !! k = Some x → flt x target = true) →
       res !! i = last sorted_data) ∧
      (∀ x0, 3 ≤ length weights → cw !! 0 = Some x0 →
         flt x0 target = false → feq x0 target = false →
         res !! i = sorted_data !! 0).
Proof.
  intros Hdata Hcol Hq Hncw Hrows Hw Hord Hasc cw sorted_data.
  destruct (quantile_stat_lookup self weights col_index p rows quantile
              Hdata Hcol Hq Hncw Hrows Hw) as (cw_last & res & Hlast & Hres & Hpt).
  exists cw_last, res. split_and!; [done..|].
  intros i level Hi target.
  set (pos := first_not_below cw target).
  destruct (Hpt i level pos Hi) as (y & Hy & Hval).
  { fold cw. rewrite (np_searchsorted_ascending cw _ Hord Hasc).
    by rewrite !list_lookup_fmap, Hi. }
  fold cw sorted_data target in Hval.
  set (n := length weights) in *.
  assert (0 < n) as Hn by (unfold n; destruct weights; [done | simpl; lia]).
  assert (length cw = n) as Hcw by apply length_np_cumsum.
  assert (length sorted_data = n) as Hsd.
  { unfold sorted_data. by rewrite length_np_sort, length_fmap. }
  assert (pos ≤ n) as Hle by (rewrite <- Hcw; apply first_not_below_le).
  pose proof (quantile_at_spec cw sorted_data n pos target Hcw Hsd Hn Hle) as Hspec.
  split.
  - intros Hbelow.
    assert (n - 1 ≤ pos) as Hge.
    { apply first_not_below_ge; [lia|done]. }
    rewrite decide_True in Hspec by lia.
    destruct Hspec as (x & Hx & Hx'). rewrite Hx' in Hval. injection Hval as <-.
    by rewrite Hy, Hx.
  - intros x0 Hn3 Hx0 Hflt Hfeq.
    assert (pos = 0) as Hpos by (by eapply first_not_below_0).
    rewrite Hpos in Hspec, Hval.
    rewrite decide_False in Hspec by lia.
    destruct Hspec as (a & b & c & Ha & Hb & Hc & Hv).
    rewrite Hx0 in Hc. injection Hc as <-. rewrite Hfeq in Hv.
    rewrite Hv in Hval. injection Hval as <-. by rewrite Hy, Ha.
Qed.

(** ** Shapes of the estimate and of its covariance *)

Lemma for_each_inv {S A : Type} (P : S → Prop) (l : list A)
    (body : A → S → Result S) (s s' : S) :
  (∀ a s s', a ∈ l → body a s = Ok s' → P s → P s') →
  P s → for_each l body s = Ok s' → P s'.
Proof.
  revert s. induction l as [|a l IH]; intros s Hbody Hs; simpl.
  - by intros [= <-].
  - intros (s1 & H1 & Hrest)%bind_Ok.
    apply (IH s1); [|by eapply Hbody; [by left|done..]|done].
    intros a' s2 s3 Ha'. apply Hbody. by right.
Qed.

Lemma length_foldl_vadd {A} (f : A → list T) (p : nat) (acc : list T) (l : list A) :
  length acc = p → Forall (λ a, length (f a) = p) l →
  length (foldl (λ acc a, vadd acc (f a)) acc l) = p.
Proof.
  revert acc. induction l as [|a l IH]; intros acc Hacc Hl; simpl; [done|].
  apply Forall_cons in Hl as [Ha Hl]. apply IH; [|done].
  unfold vadd. rewrite length_zip_with. lia.
Qed.

Lemma np_dot_length (w : list T) (p : nat) (rows : list (list T)) (v : list T) :
  Forall (λ r, length r = p) rows → np_dot w p rows = Ok v → length v = p.
Proof.
  intros Hwf. unfold np_dot. case_bool_decide; [|done]. intros [= <-].
  apply (length_foldl_vadd (λ wr : T * list T, vscale wr.1 wr.2)).
  - apply length_replicate.
  - apply Forall_forall. intros [x r] [k Hk]%list_elem_of_lookup.
    apply lookup_zip_with_Some in Hk as (x' & r' & [= <- <-] & _ & Hr).
    simpl. unfold vscale. rewrite length_fmap.
    eapply Forall_forall in Hwf; [done|]. by eapply list_elem_of_lookup_2.
Qed.

Lemma call_stat_length (cls : StatClass) (self : gmap string Val) (w : list T)
    (p : nat) (rows : list (list T)) (e : list T) :
  attr_mat self "data" = Ok (p, rows) → Forall (λ r, length r = p) rows →
  call_stat cls self w = Ok e → length e = p.
Proof.
  intros Hdata Hwf. destruct cls; simpl; [| |done];
    unfold SurveyMean_stat, SurveyTotal_stat; rewrite Hdata; simpl.
  - intros (v & Hv & [= <-])%bind_Ok. unfold vdiv. rewrite length_fmap.
    by eapply np_dot_length.
  - by apply np_dot_length.
Qed.

Lemma replicate_stats_rows (cls : StatClass) (self design : gmap string Val)
    (bsn : option Z) (cs : list nat) (g g' : G) (jdata : list (list T))
    (p : nat) (rows : list (list T)) :
  attr_mat self "data" = Ok (p, rows) → Forall (λ r, length r = p) rows →
  replicate_stats cls self design bsn cs g = Ok (jdata, g') →
  length jdata = length cs ∧ Forall (λ r, length r = p) jdata.
Proof.
  intros Hdata Hwf. revert g g' jdata.
  induction cs as [|c cs IH]; intros g g' jdata; simpl.
  - by intros [= <- _].
  - intros ([w g1] & _ & Hrest)%bind_Ok.
    apply bind_Ok in Hrest as (v & Hv & Hrest).
    apply bind_Ok in Hrest as ([jd g2] & Hjd & [= <- _]).
    apply IH in Hjd as [Hlen Hrows]. split; [simpl; lia|].
    constructor; [|done]. by eapply call_stat_length.
Qed.

Lemma length_mean0 (p : nat) (rows : list (list T)) :
  rows ≠ [] → Forall (λ r, length r = p) rows → length (mean0 rows) = p.
Proof.
  intros Hne Hwf. unfold mean0, vdiv. rewrite length_fmap.
  destruct rows as [|r rows]; [done|].
  assert (length (default [] (head (r :: rows))) = p) as ->
    by exact (Forall_inv Hwf).
  apply (length_foldl_vadd (λ r : list T, r)); [apply length_replicate|done].
Qed.

Lemma length_vsub (a b : list T) (p : nat) :
  length a = p → length b = p → length (vsub a b) = p.
Proof. intros Ha Hb. unfold vsub. rewrite length_zip_with. lia. Qed.

Lemma foldl_insert_wf (p : nat) (f : list T → list T) (upd : list (nat * list T))
    (acc : list (list T)) :
  Forall (λ r, length r = p) acc →
  (∀ ir, ir ∈ upd → length (f ir.2) = p) →
  length (foldl (λ a ir, <[ir.1 := f ir.2]> a) acc upd) = length acc ∧
  Forall (λ r, length r = p) (foldl (λ a ir, <[ir.1 := f ir.2]> a) acc upd).
Proof.
  revert acc. induction upd as [|[i r] upd IH]; intros acc Hacc Hupd; simpl; [done|].
  destruct (IH (<[i := f r]> acc)) as [Hlen Hwf].
  - apply Forall_insert; [done|]. apply (Hupd (i, r)). by left.
  - intros ir Hir. apply Hupd. by right.
  - rewrite length_insert in Hlen. done.
Qed.

Lemma isub_mean_at_rows (p : nat) (jdata jd : list (list T)) (idx : list nat) :
  Forall (λ r, length r = p) jdata → isub_mean_at jdata idx = Ok jd →
  length jd = length jdata ∧ Forall (λ r, length r = p) jd.
Proof.
  intros Hwf. unfold isub_mean_at. destruct jdata as [|r0 jd0] eqn:E; [done|].
  rewrite <- E in *. clear E r0 jd0.
  intros (rows & Hrows & [= <-])%bind_Ok.
  apply take_idx_Ok in Hrows.
  assert (Forall (λ r, length r = p) rows) as Hrwf.
  { apply Forall_forall. intros r [k Hk]%list_elem_of_lookup.
    destruct (Forall2_lookup_r _ _ _ _ _ Hrows Hk) as (i & _ & Hi).
    eapply Forall_forall in Hwf; [done|]. by eapply list_elem_of_lookup_2. }
  apply (foldl_insert_wf p (λ r, vsub r (mean0 rows))); [done|].
  intros [i r] [k Hk]%list_elem_of_lookup.
  apply lookup_zip_with_Some in Hk as (i' & r' & [= <- <-] & _ & Hr).
  simpl. apply length_vsub.
  - eapply Forall_forall in Hrwf; [done|]. by eapply list_elem_of_lookup_2.
  - apply length_mean0; [|done]. by intros ->.
Qed.

Lemma jackknife_center_rows (d : gmap string (Val (T:=T))) (mse : bool) (est : list T)
    (jdata jc : list (list T)) (p : nat) :
  length est = p → Forall (λ r, length r = p) jdata →
  jackknife_center d mse est jdata = Ok jc →
  length jc = length jdata ∧ Forall (λ r, length r = p) jc.
Proof.
  intros Hest Hwf. unfold jackknife_center. destruct mse.
  - unfold isub_est. destruct jdata as [|r0 jd0] eqn:E.
    + case_bool_decide; [|done]. by intros [= <-].
    + rewrite <- E in *. intros [= <-]. rewrite length_fmap. split; [done|].
      apply Forall_fmap. eapply Forall_impl; [done|].
      intros r Hr. simpl. by apply length_vsub.
  - intros (rw & _ & Hc)%bind_Ok.
    assert (Ok (isub_mean jdata) = Ok jc →
            length jc = length jdata ∧ Forall (λ r, length r = p) jc) as Hglob.
    { intros [= <-]. unfold isub_mean. rewrite length_fmap. split; [done|].
      destruct (decide (jdata = [])) as [->|Hne]; [done|].
      apply Forall_fmap. eapply Forall_impl; [done|].
      intros r Hr. simpl. apply length_vsub; [done|]. by apply length_mean0. }
    destruct rw; try by apply Hglob.
    apply bind_Ok in Hc as (nstrat & _ & Hc).
    revert Hc.
    apply (for_each_inv
             (λ jd, length jd = length jdata ∧ Forall (λ r, length r = p) jd));
      [|done].
    intros s jd jd' _ Hbody [Hlen Hjd].
    apply bind_Ok in Hbody as (ii & _ & Hbody).
    apply bind_Ok in Hbody as (ii_s & _ & Hbody).
    apply (isub_mean_at_rows p) in Hbody as [Hlen' Hwf']; [|done].
    split; [lia|done].
Qed.

Lemma length_gram (p : nat) (jdata : list (list T)) :
  jdata ≠ [] → Forall (λ r, length r = p) jdata →
  length (gram jdata) = p ∧ Forall (λ r, length r = p) (gram jdata).
Proof.
  intros Hne Hwf. unfold gram.
  assert (length (default [] (head jdata)) = p) as ->.
  { destruct jdata; [done|]. exact (Forall_inv Hwf). }
  rewrite length_fmap, length_seq. split; [done|].
  apply Forall_fmap, Forall_forall. intros a _. simpl.
  by rewrite length_fmap, length_seq.
Qed.

Lemma length_diag (m : list (list T)) : length (diag m) = length m.
Proof. unfold diag. apply length_imap. Qed.

(** the shapes [_jackknife] returns, whenever it returns with at least one
    cluster *)
Lemma jackknife_shape (cls : StatClass) (self self' d : gmap string Val) (g g' : G)
    (p k m : nat) (rows : list (list T)) (e sd : list T) (vc : list (list T)) :
  attr_mat self "data" = Ok (p, rows) → Forall (λ r, length r = p) rows →
  attr_obj self "design" = Ok d → attr_nat d "nclust" = Ok k → 1 ≤ k →
  _jackknife cls self g = Ok (self', (VArr e, VMat m vc, VArr sd), g') →
  length e = p ∧ m = p ∧ length vc = p ∧ Forall (λ r, length r = p) vc ∧
  length sd = p.
Proof.
  intros Hdata Hwf Hd Hk Hk1. unfold _jackknife. rewrite Hd. simpl.
  intros (w & _ & Hj)%bind_Ok.
  apply bind_Ok in Hj as (est & Hest & Hj).
  rewrite Hk in Hj. simpl in Hj.
  apply bind_Ok in Hj as ([jdata g1] & Hrep & Hj).
  apply bind_Ok in Hj as (mse & _ & Hj).
  apply bind_Ok in Hj as (jc & Hjc & Hj).
  apply bind_Ok in Hj as (rw & _ & Hj).
  apply bind_Ok in Hj as (js & Hjs & [= _ <- <- <- <- _]).
  pose proof (call_stat_length _ _ _ _ _ _ Hdata Hwf Hest) as He.
  apply (replicate_stats_rows _ _ _ _ _ _ _ _ p rows Hdata Hwf) in Hrep
    as [Hjlen Hjwf].
  rewrite length_seq in Hjlen.
  apply (jackknife_center_rows _ _ _ _ _ p He Hjwf) in Hjc as [Hclen Hcwf].
  assert (length js = length jc ∧ Forall (λ r, length r = p) js) as [Hslen Hswf].
  { destruct rw; simpl in Hjs; try done.
    - apply bind_Ok in Hjs as (cps & _ & Hjs).
      apply bind_Ok in Hjs as (sfc & _ & Hjs).
      apply bind_Ok in Hjs as (nh & _ & Hjs).
      apply bind_Ok in Hjs as (dat & _ & Hjs).
      apply bind_Ok in Hjs as (tot & _ & Hjs).
      apply bind_Ok in Hjs as (ps & _ & Hjs).
      apply bind_Ok in Hjs as (fpc & _ & Hjs).
      unfold scale_rows in Hjs. case_bool_decide as Hl; [|done].
      injection Hjs as <-. rewrite !length_zip_with, !length_fmap in *.
      split; [lia|].
      apply Forall_forall. intros r [i Hi]%list_elem_of_lookup.
      apply lookup_zip_with_Some in Hi as (c & r' & -> & _ & Hr).
      unfold vscale. rewrite length_fmap.
      eapply Forall_forall in Hcwf; [done|]. by eapply list_elem_of_lookup_2.
    - case_bool_decide; [done|]. injection Hjs as <-.
      rewrite length_fmap. split; [done|].
      apply Forall_fmap. eapply Forall_impl; [done|].
      intros r Hr. simpl. by rewrite length_fmap. }
  destruct (length_gram p js) as [Hg Hgwf]; [|done|].
  { intros ->. simpl in Hslen. lia. }
  rewrite length_fmap, length_diag. by rewrite Hg.
Qed.

Lemma replicate_stats_data (cls : StatClass) mse (data : ndarray) p rows
    (w f0 f : list T) (strat sclust sfc : list nat) (cs : list nat) (g : G) :
  cls ≠ Quantile → data_attr data = VMat p rows → length rows = length w →
  length strat = length w → length sclust = length w →
  (∀ c, c ∈ cs → c < length sfc) →
  let d := strata_design "jack" w f0 f strat sclust sfc in
  ∃ jdata, replicate_stats cls (stat_self d mse data) d None cs g = Ok (jdata, g).
Proof.
  intros Hcls Hdata Hl Hstrat Hsclust Hcs d.
  induction cs as [|c cs IH]; simpl; [by eexists|].
  destruct (lookup_lt_is_Some_2 sfc c) as [s Hs]; [apply Hcs; by left|].
  destruct (bincount_lookup sfc s) as [Hnh _]; [by eapply list_elem_of_lookup_2|].
  unfold d at 1.
  rewrite (jackknife_weights_Ok w f0 f strat sclust sfc c s _ None g Hstrat Hsclust Hs Hnh).
  simpl.
  destruct (call_stat_data cls d mse data p rows
              (zip_with (λ y (b : bool), if b then of_Z 0 else y)
                 (zip_with (λ y (b : bool),
                    if b then fmul y (fdiv (of_Z (Z.of_nat (count_eq s sfc)))
                                        (of_Z (Z.of_nat (count_eq s sfc) - 1)))
                    else y) w (eq_mask strat s))
                 (eq_mask sclust c))) as [v Hv]; [done..| |].
  { rewrite !length_zip_with, !length_eq_mask. lia. }
  rewrite Hv. simpl.
  destruct IH as (jdata & ->); [intros; apply Hcs; by right|].
  simpl. by eexists.
Qed.

Lemma jackknife_run_data (cls : StatClass) mse (data : ndarray) p rows
    (w f0 f : list T) (strat sclust sfc : list nat) (g : G) :
  cls ≠ Quantile → data_attr data = VMat p rows →
  Forall (λ r, length r = p) rows → length rows = length w →
  length strat = length w → length sclust = length w →
  sfc ≠ [] → (∀ s, s ∈ sfc → s < max_list strat + 1) → length f = length sfc →
  let d := strata_design "jack" w f0 f strat sclust sfc in
  ∃ self' est vcov stderr,
    _jackknife cls (stat_self d mse data) g =
      Ok (self', (VArr est, VMat (length vcov) vcov, VArr stderr), g) ∧
    length est = p ∧ length vcov = p ∧ Forall (λ r, length r = p) vcov ∧
    length stderr = p.
Proof.
  intros Hcls Hdata Hwf Hl Hstrat Hsclust Hsfc Hlt Hf d.
  set (self := stat_self d mse data).
  destruct (stat_self_attrs d mse data p rows Hdata) as (Hd & Hmse & Hmat).
  fold self in Hd, Hmse, Hmat.
  assert (attr_nat d "nclust" = Ok (length sfc)) as Hk.
  { unfold attr_nat, attr, d, strata_design. simplify_map_eq. simpl.
    by rewrite Nat2Z.id, sum_list_bincount. }
  assert (∃ self' est vcov stderr,
            _jackknife cls self g =
              Ok (self', (VArr est, VMat (length vcov) vcov, VArr stderr), g))
    as (self' & est & vcov & stderr & Hrun).
  { unfold _jackknife. rewrite Hd. simpl.
    assert (attr_arr d "weights" = Ok w) as ->.
    { unfold attr_arr, attr, d, strata_design. by simplify_map_eq. }
    simpl.
    destruct (call_stat_data cls d mse data p rows w Hcls Hdata) as [est Hest]; [done|].
    fold self in Hest. rewrite Hest. simpl. rewrite Hk. simpl.
    destruct (replicate_stats_data cls mse data p rows w f0 f strat sclust sfc
                (seq 0 (length sfc)) g) as (jdata & Hjdata); [done..| |].
    { intros c Hc%elem_of_seq. lia. }
    fold d self in Hjdata. rewrite Hjdata. simpl.
    destruct (replicate_stats_rows _ _ _ _ _ _ _ _ p rows Hmat Hwf Hjdata)
      as [Hjlen _].
    rewrite length_seq in Hjlen.
    rewrite Hmse. simpl.
    assert (jdata ≠ []) as Hjne.
    { intros ->. by destruct sfc. }
    assert (∃ jc, jackknife_center d mse est jdata = Ok jc ∧ length jc = length sfc)
      as (jc & -> & Hjc).
    { destruct mse.
      - eexists. split; [unfold jackknife_center, isub_est; by destruct jdata|].
        by rewrite length_fmap.
      - destruct (center_strata_design "jack" w f0 f strat sclust sfc est jdata)
          as (jc & Hc & Hlen & _); [done..|].
        exists jc. split; [done | lia]. }
    simpl.
    unfold d at 1. rewrite strata_design_rep_weights. simpl.
    assert (attr_idx d "clust_per_strat" = Ok (np_bincount sfc 0)) as ->.
    { unfold attr_idx, attr, d, strata_design. by simplify_map_eq. }
    simpl.
    assert (attr_idx d "strat_for_clust" = Ok sfc) as ->.
    { unfold attr_idx, attr, d, strata_design. by simplify_map_eq. }
    simpl.
    destruct (take_idx_total (np_bincount sfc 0) sfc) as [nh Hnh].
    { intros s Hs. rewrite length_bincount by done.
      apply max_list_elem_of_le in Hs. lia. }
    rewrite Hnh. simpl.
    assert (length nh = length sfc) as Hnhlen.
    { apply take_idx_Ok, Forall2_length in Hnh. lia. }
    rewrite Hmat. simpl.
    destruct (np_dot_Ok w p rows) as [tot ->]; [done|].
    simpl.
    unfold pseudo_values. rewrite bool_decide_eq_true_2 by (rewrite length_fmap; lia).
    simpl.
    assert (attr_arr d "fpc" = Ok f) as ->.
    { unfold attr_arr, attr, d, strata_design. by simplify_map_eq. }
    simpl.
    unfold scale_rows. rewrite bool_decide_eq_true_2 by (rewrite !length_fmap; lia).
    simpl. by eexists _, _, _, _. }
  exists self', est, vcov, stderr. split; [done|].
  destruct (jackknife_shape cls self self' d g g p (length sfc) (length vcov)
              rows est stderr vcov Hmat Hwf Hd Hk) as (? & _ & ? & ? & ?);
    [by destruct sfc; [|simpl; lia]|done|done].
Qed.

Lemma estimate_jack_shapes (cls : StatClass) strata cluster
    (weights fpc : option (list T)) nest d (w : list T) (p : nat)
    (rows : list (list T)) (mse : bool) (replicates bsn : option Z) (g : G) :
  cls ≠ Quantile →
  SurveyDesign_init strata cluster weights None fpc "jack" nest = Ok d →
  attr_arr d "weights" = Ok w →
  Forall (λ r, length r = p) rows → length rows = length w →
  ∃ obj est vcov stderr,
    estimate cls (stat_self d mse (Arr2 p rows)) replicates bsn g = Ok (obj, g) ∧
    obj !! "est" = Some (VArr est) ∧ length est = p ∧
    obj !! "vcov" = Some (VMat p vcov) ∧ length vcov = p ∧
    Forall (λ r, length r = p) vcov ∧
    obj !! "stderr" = Some (VArr stderr) ∧ length stderr = p.
Proof.
  intros Hq.
  intros (s0 & c0 & w' & f0 & f & sfc & Hargs & Hcm & Hs & Hsfc & Hf & ->)%init_strata_inv.
  intros Hw Hwf Hl.
  assert (w' = w) as ->.
  { unfold attr_arr, attr, strata_design in Hw. by simplify_map_eq. }
  clear Hw.
  destruct (design_cluster_facts _ _ _ _ _ _ _ _ nest _ Hargs Hsfc)
    as (Hstrat & Hsclust & _ & _ & Hin).
  pose proof (design_has_cluster _ _ _ _ _ _ _ _ nest _ Hargs Hs Hsfc) as Hne.
  assert (length f = length sfc) as Hflen.
  { apply take_idx_Ok, Forall2_length in Hsfc, Hf. lia. }
  destruct (jackknife_run_data cls mse (Arr2 p rows) p rows w f0 f _ _ sfc g
              Hq eq_refl Hwf Hl Hstrat Hsclust Hne)
    as (self' & est & vcov & stderr & Hrun & He & Hv & Hvwf & Hsd); [|done|].
  { intros x Hx%Hin%max_list_elem_of_le. lia. }
  set (d := strata_design "jack" w f0 f (unique_inverse s0)
              (relabel nest (unique_inverse c0) (unique_inverse s0)) sfc) in *.
  eexists _, est, vcov, stderr. split.
  - unfold estimate.
    assert (attr_obj (stat_self d mse (Arr2 p rows)) "design" = Ok d) as ->.
    { unfold attr_obj, attr, stat_self, SurveyStat_init. by simplify_map_eq. }
    simpl. unfold d at 1. rewrite strata_design_cov_method. simpl.
    fold d. by rewrite Hrun.
  - rewrite Hv. by simplify_map_eq.
Qed.

(** X14. On a jackknife design built from strata and clusters, [SurveyMean]
    and [SurveyTotal] accept any n-by-p data array with one row per
    observation: [est] and [stderr] have p entries and [vcov] is a p-by-p
    array.  The random source is not consulted. *)
Theorem jackknife_shapes strata cluster (weights fpc : option (list T)) nest d
    (w : list T) (p : nat) (rows : list (list T)) (mse : bool)
    (replicates bsn : option Z) (g : G) :
  SurveyDesign_init strata cluster weights None fpc "jack" nest = Ok d →
  attr_arr d "weights" = Ok w →
  Forall (λ r, length r = p) rows → length rows = length w →
  (∃ obj est vcov stderr,
     SurveyMean_init d (Arr2 p rows) mse replicates bsn g = Ok (obj, g) ∧
     obj !! "est" = Some (VArr est) ∧ length est = p ∧
     obj !! "vcov" = Some (VMat p vcov) ∧ length vcov = p ∧
     Forall (λ r, length r = p) vcov ∧
     obj !! "stderr" = Some (VArr stderr) ∧ length stderr = p) ∧
  (∃ obj est vcov stderr,
     SurveyTotal_init d (Arr2 p rows) replicates mse bsn g = Ok (obj, g) ∧
     obj !! "est" = Some (VArr est) ∧ length est = p ∧
     obj !! "vcov" = Some (VMat p vcov) ∧ length vcov = p ∧
     Forall (λ r, length r = p) vcov ∧
     obj !! "stderr" = Some (VArr stderr) ∧ length stderr = p).
Proof.
  intros Hd Hw Hwf Hl. split.
  - by eapply (estimate_jack_shapes Mean).
  - by eapply (estimate_jack_shapes Total).
Qed.

(** X15. A data array whose number of rows differs from the number of design
    weights is rejected with ValueError by [SurveyMean] and [SurveyTotal],
    under every method, before any replicate is formed. *)
Theorem row_count_mismatch (d : gmap string Val) (w : list T) cm
    (data : ndarray) p rows (mse : bool) (replicates bsn : option Z) (g : G) :
  attr_arr d "weights" = Ok w → attr_str d "cov_method" = Ok cm →
  data_attr data = VMat p rows → length rows ≠ length w →
  SurveyMean_init d data mse replicates bsn g = Err ValueError ∧
  SurveyTotal_init d data replicates mse bsn g = Err ValueError.
Proof.
  intros Hw Hcm Hdata Hlen.
  destruct (stat_self_attrs d mse data p rows Hdata) as (Hd & _ & Hmat).
  assert (∀ cls, cls ≠ Quantile →
            call_stat cls (stat_self d mse data) w = Err ValueError) as Hcall.
  { intros cls Hcls. destruct cls; [| |done]; simpl;
      unfold SurveyMean_stat, SurveyTotal_stat; rewrite Hmat; simpl;
      unfold np_dot; by rewrite bool_decide_eq_false_2 by lia. }
  assert (∀ cls, cls ≠ Quantile →
            estimate cls (stat_self d mse data) replicates bsn g = Err ValueError)
    as Hest.
  { intros cls Hcls. unfold estimate. rewrite Hd. simpl. rewrite Hcm. simpl.
    case_bool_decide; unfold _jackknife, _bootstrap; rewrite Hd; simpl;
      rewrite Hw; simpl; by rewrite Hcall. }
  split; by apply Hest.
Qed.

(** ** Bootstrap replicate weights *)

Lemma bind_intro {A B} (m : Result A) (k : A → Result B) (a : A) (r : Result B) :
  m = Ok a → k a = r → bind m k = r.
Proof. by intros -> <-. Qed.

Lemma length_bincount_min (l : list nat) (m : nat) :
  (∀ x, x ∈ l → x < m) → length (np_bincount l m) = m.
Proof.
  intros Hl. unfold np_bincount. rewrite length_fmap, length_seq.
  destruct l as [|a l]; [done|].
  assert (max_list (a :: l) < m) by (by apply Hl, max_list_elem_of).
  lia.
Qed.

(** the loop over the strata of [_bootstrap_weights], for any list of
    distinct strata that own a cluster *)
Lemma bootstrap_loop cm (w f0 f : list T) (strat sclust sfc : list nat) (S : list nat) :
  draws_from_population G →
  length strat = length w → sclust ≠ [] → max_list sclust + 1 = length sfc →
  (∀ s, s ∈ S → s ∈ sfc) → (∀ s, s ∈ S → s < max_list strat + 1) → NoDup S →
  let d := strata_design cm w f0 f strat sclust sfc in
  ∀ (w0 cc : list T) (g : G), length w0 = length w → length cc = length sfc →
  ∃ w1 cc1 g1,
    for_each S (λ s '(w, clust_count, g),
      let* strat := attr_idx d "strat" in
      let* clust_per_strat := attr_idx d "clust_per_strat" in
      let* nh := item clust_per_strat s in
      let* w := mask_mul w (eq_mask strat s)
            (fdiv (of_Z (Z.of_nat nh - 1)) (of_Z (Z.of_nat nh))) in
      if bool_decide (nh = 1) then Ok (w, clust_count, g)
      else
        let* ii := attr_idxs d "ii" in
        let* ii_s := item ii s in
        let* '(ii_resample, g) := np_random_choice g ii_s (Z.of_nat nh - 1) in
        let* sclust := attr_idx d "sclust" in
        let* mx := py_max sclust in
        let* clust_count := iadd_counts clust_count (np_bincount ii_resample (mx + 1)) in
        Ok (w, clust_count, g))
      (w0, cc, g) = Ok (w1, cc1, g1) ∧
    length w1 = length w ∧ length cc1 = length sfc ∧
    ∀ i x s, w0 !! i = Some x → strat !! i = Some s →
      w1 !! i = Some (if decide (s ∈ S)
                      then fmul x (fdiv (of_Z (Z.of_nat (count_eq s sfc) - 1))
                                        (of_Z (Z.of_nat (count_eq s sfc))))
                      else x).
Proof.
  intros Hlaw Hstrat Hne Hmax Hin Hlt HS d.
  assert (attr_idx d "strat" = Ok strat) as Estrat.
  { unfold attr_idx, attr, d, strata_design. by simplify_map_eq. }
  assert (attr_idx d "clust_per_strat" = Ok (np_bincount sfc 0)) as Ecps.
  { unfold attr_idx, attr, d, strata_design. by simplify_map_eq. }
  assert (attr_idx d "sclust" = Ok sclust) as Esclust.
  { unfold attr_idx, attr, d, strata_design. by simplify_map_eq. }
  assert (attr_idxs d "ii" =
          Ok ((λ s, np_flatnonzero (eq_mask sfc s)) <$> seq 0 (max_list strat + 1)))
    as Eii.
  { unfold attr_idxs, attr, d, strata_design. by simplify_map_eq. }
  clearbody d.
  induction HS as [|s S Hs HS IH]; intros w0 cc g Hw0 Hcc.
  - exists w0, cc, g. split_and!; [done..|]. intros i x s Hx _.
    by rewrite decide_False by apply not_elem_of_nil.
  - set (nh := count_eq s sfc).
    set (r := fdiv (of_Z (Z.of_nat nh - 1)) (of_Z (Z.of_nat nh))).
    set (w0' := zip_with (λ x (b : bool), if b then fmul x r else x) w0
                  (eq_mask strat s)).
    destruct (bincount_lookup sfc s) as [Hnh Hnh1]; [apply Hin; by left|].
    fold nh in Hnh, Hnh1.
    assert (length w0' = length w) as Hw0'.
    { unfold w0'. rewrite length_zip_with, length_eq_mask. lia. }
    assert (∃ cc' g',
              (let* strat := attr_idx d "strat" in
               let* clust_per_strat := attr_idx d "clust_per_strat" in
               let* nh := item clust_per_strat s in
               let* w := mask_mul w0 (eq_mask strat s)
                     (fdiv (of_Z (Z.of_nat nh - 1)) (of_Z (Z.of_nat nh))) in
               if bool_decide (nh = 1) then Ok (w, cc, g)
               else
                 let* ii := attr_idxs d "ii" in
                 let* ii_s := item ii s in
                 let* '(ii_resample, g) := np_random_choice g ii_s (Z.of_nat nh - 1) in
                 let* sclust := attr_idx d "sclust" in
                 let* mx := py_max sclust in
                 let* clust_count :=
                   iadd_counts cc (np_bincount ii_resample (mx + 1)) in
                 Ok (w, clust_count, g)) = Ok (w0', cc', g') ∧
              length cc' = length sfc) as (cc' & g' & Hstep & Hcc').
    { rewrite Estrat. simpl. rewrite Ecps. simpl. unfold item at 1. rewrite Hnh. simpl.
      rewrite mask_mul_Ok by (rewrite length_eq_mask; lia). simpl.
      case_bool_decide as Hone; [by eexists _, _|].
      rewrite Eii. simpl. unfold item.
      rewrite list_lookup_fmap, lookup_seq_lt by (apply Hlt; by left). simpl.
      pose proof (bincount_block sfc s nh Hnh) as Hblk.
      unfold np_random_choice.
      assert ((Z.of_nat nh - 1 <? 0)%Z = false) as -> by lia.
      rewrite bool_decide_eq_false_2.
      2:{ intros [Hnil _]. rewrite Hnil in Hblk. simpl in Hblk. lia. }
      simpl.
      destruct (choice g (np_flatnonzero (eq_mask sfc s)) (Z.to_nat (Z.of_nat nh - 1)))
        as [draws g'] eqn:Edraw.
      rewrite Esclust. simpl.
      assert (py_max sclust = Ok (max_list sclust)) as -> by (by apply py_max_Ok).
      simpl. unfold iadd_counts.
      assert (length (np_bincount draws (max_list sclust + 1)) = length sfc) as Hbc.
      { rewrite length_bincount_min; [done|]. intros x Hx. rewrite Hmax.
        assert (x ∈ np_flatnonzero (eq_mask sfc s)) as Hxin.
        { apply (Hlaw g _ (Z.to_nat (Z.of_nat nh - 1)) x).
          - intros Hnil. rewrite Hnil in Hblk. simpl in Hblk. lia.
          - by rewrite Edraw. }
        apply elem_of_flatnonzero in Hxin. by eapply lookup_lt_Some. }
      rewrite bool_decide_eq_true_2 by lia. simpl.
      eexists _, _. split; [done|]. rewrite length_zip_with. lia. }
    destruct (IH) with (w0 := w0') (cc := cc') (g := g')
      as (w1 & cc1 & g1 & Hloop & Hw1 & Hcc1 & Hpt); [| |done..|].
    { intros s' Hs'. apply Hin. by right. }
    { intros s' Hs'. apply Hlt. by right. }
    exists w1, cc1, g1. split_and!; [|done..|].
    + cbn [for_each]. eapply bind_intro; [exact Hstep|exact Hloop].
    + intros i x si Hx Hsi.
      assert (w0' !! i = Some (if bool_decide (si = s) then fmul x r else x)) as Hx'.
      { unfold w0'. apply lookup_zip_with_Some. eexists _, _.
        split_and!; [done|done|]. by apply eq_mask_lookup. }
      rewrite (Hpt i _ si Hx' Hsi).
      destruct (decide (si = s)) as [->|Hne'].
      * rewrite bool_decide_eq_true_2 by done.
        rewrite decide_False by done. by rewrite decide_True by by left.
      * rewrite bool_decide_eq_false_2 by done.
        destruct (decide (si ∈ S)) as [Hi|Hi].
        -- by rewrite decide_True by by right.
        -- rewrite decide_False; [done|]. rewrite elem_of_cons. tauto.
Qed.

Lemma bootstrap_weights_Ok cm (w f0 f : list T) (strat sclust sfc : list nat) (g : G) :
  draws_from_population G →
  length strat = length w → length sclust = length w → sclust ≠ [] →
  max_list sclust + 1 = length sfc →
  (∀ s, s < max_list strat + 1 → s ∈ sfc) →
  ∃ w' cc g',
    _bootstrap_weights (strata_design cm w f0 f strat sclust sfc) g = Ok (w', g') ∧
    length w' = length w ∧ length cc = length sfc ∧
    ∀ i x s c, w !! i = Some x → strat !! i = Some s → sclust !! i = Some c →
      ∃ m, cc !! c = Some m ∧
        w' !! i = Some (fmul (fmul x (fdiv (of_Z (Z.of_nat (count_eq s sfc) - 1))
                                           (of_Z (Z.of_nat (count_eq s sfc))))) m).
Proof.
  intros Hlaw Hstrat Hsclust Hne Hmax Hcov.
  set (d := strata_design cm w f0 f strat sclust sfc).
  destruct (bootstrap_loop cm w f0 f strat sclust sfc (seq 0 (max_list strat + 1))
              Hlaw Hstrat Hne Hmax) with (w0 := w) (cc := np_zeros (length sfc)) (g := g)
    as (w1 & cc1 & g1 & Hloop & Hw1 & Hcc1 & Hpt).
  { intros s Hs%elem_of_seq. apply Hcov. lia. }
  { intros s Hs%elem_of_seq. lia. }
  { apply NoDup_seq. }
  { done. }
  { apply length_replicate. }
  fold d in Hloop.
  destruct (take_idx_total cc1 sclust) as [fct Hfct].
  { intros c Hc. apply max_list_elem_of_le in Hc. lia. }
  pose proof Hfct as Hfct2. apply take_idx_Ok in Hfct2.
  exists (zip_with fmul w1 fct), cc1, g1. split_and!.
  - unfold _bootstrap_weights.
    assert (attr_arr d "weights" = Ok w) as ->.
    { unfold attr_arr, attr, d, strata_design. by simplify_map_eq. }
    simpl.
    assert (attr_nat d "nclust" = Ok (length sfc)) as ->.
    { unfold attr_nat, attr, d, strata_design. simplify_map_eq. simpl.
      by rewrite Nat2Z.id, sum_list_bincount. }
    simpl.
    assert (attr_nat d "nstrat" = Ok (max_list strat + 1)) as ->.
    { unfold attr_nat, attr, d, strata_design. simplify_map_eq. simpl.
      by rewrite Nat2Z.id. }
    simpl.
    eapply bind_intro; [exact Hloop|]. simpl.
    assert (attr_idx d "sclust" = Ok sclust) as ->.
    { unfold attr_idx, attr, d, strata_design. by simplify_map_eq. }
    simpl. rewrite Hfct. simpl. unfold imul.
    apply Forall2_length in Hfct2.
    by rewrite bool_decide_eq_true_2 by lia.
  - apply Forall2_length in Hfct2. rewrite length_zip_with. lia.
  - done.
  - intros i x s c Hx Hs Hc.
    destruct (Forall2_lookup_l _ _ _ _ _ Hfct2 Hc) as (m & Hm & Hcc).
    exists m. split; [done|].
    apply lookup_zip_with_Some. eexists _, _. split_and!; [done| |done].
    rewrite (Hpt i x s Hx Hs). rewrite decide_True; [done|].
    apply elem_of_seq. apply list_elem_of_lookup_2, max_list_elem_of_le in Hs. lia.
Qed.

(** X16. With a random source that draws from the population it is given,
    a bootstrap design built from strata and clusters under [nest] always
    yields replicate weights, one per observation: the design weight, times
    (nh - 1) / nh for the cluster count nh of the stratum, times the number
    of times the cluster of the observation was drawn, a number shared by
    all observations of that cluster. *)
Theorem bootstrap_weights_nested strata cluster (weights fpc : option (list T)) d
    (c : nat) (bsn : option Z) (g : G) :
  draws_from_population G →
  SurveyDesign_init strata cluster weights None fpc "boot" true = Ok d →
  ∃ v, view d = Ok v ∧
    ∃ w' count g',
      get_rep_weights d c bsn g = Ok (w', g') ∧
      length w' = length (v_weights v) ∧ length count = v_nclust v ∧
      ∀ i x s cl nh,
        v_weights v !! i = Some x → v_strat v !! i = Some s →
        v_sclust v !! i = Some cl → v_clust_per_strat v !! s = Some nh →
        ∃ m, count !! cl = Some m ∧
          w' !! i = Some (fmul (fmul x (fdiv (of_Z (Z.of_nat nh - 1))
                                             (of_Z (Z.of_nat nh)))) m).
Proof.
  intros Hlaw.
  intros (s0 & c0 & w & f0 & f & sfc & Hargs & Hcm & Hs & Hsfc & Hf & ->)%init_strata_inv.
  destruct (design_cluster_facts _ _ _ _ _ _ _ _ true _ Hargs Hsfc)
    as (Hstrat & Hsclust & Hck & Hrow & Hin).
  pose proof (check_args_lengths _ _ _ _ _ _ _ _ Hargs) as (Hlenc & Hlenw & _).
  assert (∀ s, s < max_list (unique_inverse s0) + 1 → s ∈ sfc) as Hcov.
  { intros s. by apply (nested_strata_covered s0 c0). }
  set (sclust := relabel true (unique_inverse c0) (unique_inverse s0)) in *.
  clearbody sclust.
  assert (sclust ≠ []) as Hne.
  { intros ->. simpl in Hsclust. rewrite <- Hsclust in Hlenw. by destruct s0. }
  assert (max_list sclust + 1 = length sfc) as Hmax.
  { apply max_list_lt_ge; [|  |done].
    - intros x [i Hi]%list_elem_of_lookup. by eapply Hck.
    - intros j Hj. destruct (lookup_lt_is_Some_2 sfc j Hj) as [s Hsj].
      destruct (Hrow j s Hsj) as (i & Hi & _). by eapply list_elem_of_lookup_2. }
  eexists. split; [apply view_strata_design|]. simpl.
  destruct (bootstrap_weights_Ok "boot" w f0 f (unique_inverse s0) sclust sfc g
              Hlaw Hstrat Hsclust Hne Hmax Hcov)
    as (w' & cc & g' & Hrun & Hlen & Hcc & Hpt).
  exists w', cc, g'. split_and!.
  - unfold get_rep_weights. rewrite strata_design_rep_weights. simpl.
    by rewrite strata_design_cov_method.
  - done.
  - by rewrite sum_list_bincount.
  - intros i x s cl nh Hx Hsi Hcl Hnh.
    destruct (bincount_lookup sfc s) as [Hnh' _].
    { apply Hcov. apply list_elem_of_lookup_2, max_list_elem_of_le in Hsi. lia. }
    rewrite Hnh in Hnh'. injection Hnh' as ->.
    by apply Hpt.
Qed.

(** ** The jackknife protocol over supplied replicate weights *)

Lemma rep_design_replicates (cls : StatClass) (d : gmap string (Val (T:=T))) mse
    (data : ndarray) q rows p (rw : list (list T)) (cs : list nat) (g : G) :
  cls ≠ Quantile → d !! "rep_weights" = Some (VMat p rw) →
  data_attr data = VMat q rows → length rw = length rows →
  (∀ c, c ∈ cs → c < p) →
  ∃ jdata,
    replicate_stats cls (stat_self d mse data) d None cs g = Ok (jdata, g) ∧
    Forall2 (λ c r, ∃ col, get_rep_weights d c None g = Ok (col, g) ∧
                           call_stat cls (stat_self d mse data) col = Ok r)
      cs jdata.
Proof.
  intros Hcls Hrw Hdata Hlen Hcs.
  induction cs as [|c cs IH]; simpl; [by eexists|].
  assert (get_rep_weights d c None g =
          Ok ((λ r : list T, default (of_Z 0) (r !! c)) <$> rw, g)) as Hcol.
  { unfold get_rep_weights, attr. rewrite Hrw. simpl.
    by rewrite bool_decide_eq_true_2 by (apply Hcs; by left). }
  rewrite Hcol. simpl.
  destruct (call_stat_data cls d mse data q rows
              ((λ r : list T, default (of_Z 0) (r !! c)) <$> rw) Hcls Hdata)
    as [v Hv]; [by rewrite length_fmap|].
  rewrite Hv. simpl.
  destruct IH as (jdata & -> & Hall); [intros; apply Hcs; by right|].
  simpl. eexists. split; [done|]. constructor; [|done]. by eexists.
Qed.

Lemma estimate_rep_jackknife (cls : StatClass) strata cluster
    (weights fpc : option (list T)) p rw nest d (w : list T) (data : ndarray)
    q rows (mse : bool) (replicates bsn : option Z) (g : G) :
  cls ≠ Quantile →
  SurveyDesign_init strata cluster weights (Some (p, rw)) fpc "jack" nest = Ok d →
  attr_arr d "weights" = Ok w →
  data_attr data = VMat q rows → length rows = length w → length rw = length rows →
  let self := stat_self d mse data in
  (p = 0 → mse = false →
     estimate cls self replicates bsn g = Err ZeroDivisionError) ∧
  (1 ≤ p →
     ∃ obj est jdata,
       estimate cls self replicates bsn g = Ok (obj, g) ∧
       call_stat cls self w = Ok est ∧
       Forall2 (λ c r, ∃ col, get_rep_weights d c None g = Ok (col, g) ∧
                              call_stat cls self col = Ok r) (seq 0 p) jdata ∧
       let centered := if mse then (λ r, vsub r est) <$> jdata else isub_mean jdata in
       let mh := fsqrt (fdiv (of_Z (Z.of_nat p - 1)) (of_Z (Z.of_nat p))) in
       let vcov := gram ((λ r : list T, (λ x, fmul x mh) <$> r) <$> centered) in
       obj !! "est" = Some (VArr est) ∧
       obj !! "vcov" = Some (VMat (length vcov) vcov)).
Proof.
  intros Hcls Hinit Hw Hdata Hlen Hrwlen self.
  pose proof (init_rep_inv _ _ _ _ _ _ _ _ _ Hinit) as Hd.
  assert (d !! "rep_weights" = Some (VMat p rw)) as Hrw by (subst d; by simplify_map_eq).
  assert (attr_str d "cov_method" = Ok "jack") as Hcm.
  { subst d. unfold attr_str, attr. by simplify_map_eq. }
  assert (attr_nat d "nclust" = Err AttributeError) as Hnc.
  { subst d. unfold attr_nat, attr. by simplify_map_eq. }
  assert (attr_mat d "rep_weights" = Ok (p, rw)) as Hrwm.
  { unfold attr_mat, attr. by rewrite Hrw. }
  assert (attr d "rep_weights" = Ok (VMat p rw)) as Hrwa.
  { unfold attr. by rewrite Hrw. }
  destruct (stat_self_attrs d mse data q rows Hdata) as (Hsd & Hmse & Hmat).
  fold self in Hsd, Hmse, Hmat.
  destruct (call_stat_data cls d mse data q rows w Hcls Hdata) as [est Hest]; [done|].
  fold self in Hest.
  destruct (rep_design_replicates cls d mse data q rows p rw (seq 0 p) g
              Hcls Hrw Hdata Hrwlen) as (jdata & Hjdata & Hall).
  { intros c Hc%elem_of_seq. lia. }
  fold self in Hjdata, Hall.
  assert (length jdata = p) as Hjlen.
  { apply Forall2_length in Hall. by rewrite length_seq in Hall. }
  split.
  - intros -> ->. destruct jdata; [|done].
    unfold estimate. rewrite Hsd. simpl. rewrite Hcm. simpl.
    unfold _jackknife. rewrite Hsd. simpl. rewrite Hw. simpl. rewrite Hest. simpl.
    rewrite Hnc, Hrwm. simpl. simpl in Hjdata. rewrite Hmse. simpl.
    unfold jackknife_center. by rewrite Hrwa.
  - intros Hp. eexists _, est, jdata. split_and!; [|done| |].
    + unfold estimate. rewrite Hsd. simpl. rewrite Hcm. simpl.
      unfold _jackknife. rewrite Hsd. simpl. rewrite Hw. simpl. rewrite Hest. simpl.
      rewrite Hnc, Hrwm. simpl. rewrite Hjdata. simpl. rewrite Hmse. simpl.
      assert (jackknife_center d mse est jdata =
              Ok (if mse then (λ r, vsub r est) <$> jdata else isub_mean jdata)) as ->.
      { unfold jackknife_center. destruct mse.
        - unfold isub_est. destruct jdata; [simpl in Hjlen; lia|done].
        - by rewrite Hrwa. }
      simpl. rewrite Hrwa. simpl.
      rewrite bool_decide_eq_false_2 by lia. simpl. done.
    + exact Hall.
    + simpl. by simplify_map_eq.
Qed.

(** X17. On a jackknife design built from replicate weights the design has no
    [nclust], and the protocol of [SurveyMean] and [SurveyTotal] falls back to
    one replicate per supplied column: replicate [c] is the statistic under
    column [c], the replicates are centred on the estimate under mse and on
    their overall mean otherwise, and all are scaled by sqrt((p - 1) / p) for
    the column count p before the cross product is taken.  With no column at
    all and mse off the scaling raises ZeroDivisionError. *)
Theorem replicate_weights_jackknife strata cluster (weights fpc : option (list T))
    p rw nest d (w : list T) (data : ndarray) q rows (mse : bool)
    (replicates bsn : option Z) (g : G) :
  SurveyDesign_init strata cluster weights (Some (p, rw)) fpc "jack" nest = Ok d →
  attr_arr d "weights" = Ok w →
  data_attr data = VMat q rows → length rows = length w → length rw = length rows →
  let self := stat_self d mse data in
  (p = 0 → mse = false →
     SurveyMean_init d data mse replicates bsn g = Err ZeroDivisionError ∧
     SurveyTotal_init d data replicates mse bsn g = Err ZeroDivisionError) ∧
  (1 ≤ p →
     ∀ cls, cls = Mean ∨ cls = Total →
     ∃ obj est jdata,
       match cls with
       | Mean => SurveyMean_init d data mse replicates bsn g
       | _ => SurveyTotal_init d data replicates mse bsn g
       end = Ok (obj, g) ∧
       call_stat cls self w = Ok est ∧
       Forall2 (λ c r, ∃ col, get_rep_weights d c None g = Ok (col, g) ∧
                              call_stat cls self col = Ok r) (seq 0 p) jdata ∧
       let centered := if mse then (λ r, vsub r est) <$> jdata else isub_mean jdata in
       let mh := fsqrt (fdiv (of_Z (Z.of_nat p - 1)) (of_Z (Z.of_nat p))) in
       let vcov := gram ((λ r : list T, (λ x, fmul x mh) <$> r) <$> centered) in
       obj !! "est" = Some (VArr est) ∧
       obj !! "vcov" = Some (VMat (length vcov) vcov)).
Proof.
  intros Hinit Hw Hdata Hlen Hrwlen self. split.
  - intros Hp Hmse. split.
    + by apply (estimate_rep_jackknife Mean strata cluster weights fpc p rw nest
                  d w data q rows mse replicates bsn g).
    + by apply (estimate_rep_jackknife Total strata cluster weights fpc p rw nest
                  d w data q rows mse replicates bsn g).
  - intros Hp cls Hcls.
    assert (cls ≠ Quantile) as Hq by (by destruct Hcls as [-> | ->]).
    destruct (estimate_rep_jackknife cls strata cluster weights fpc p rw nest
                d w data q rows mse replicates bsn g Hq Hinit Hw Hdata Hlen Hrwlen)
      as [_ Hok].
    destruct (Hok Hp) as (obj & est & jdata & Hrun & Hrest).
    exists obj, est, jdata. split; [|exact Hrest].
    by destruct Hcls as [-> | ->].
Qed.



End Facts.

(** * Worked examples *)

Example two_by_two_init :
  SurveyDesign_init (Some [0; 0; 1; 1]%Z) (Some [0; 1; 2; 3]%Z)
    (Some [1; 1; 1; 1]%Q) None None "jack" true = Ok two_by_two.
Proof. reflexivity. Qed.

Example two_by_two_view_eq : view two_by_two = Ok two_by_two_view.
Proof. reflexivity. Qed.

Example straddling_view_eq : view straddling = Ok straddling_view.
Proof. reflexivity. Qed.

Example straddling_weights :
  get_rep_weights straddling 0 None (0 : nat) = Ok ([0; 2; 0; 1]%Q, 0).
Proof. reflexivity. Qed.

Example strata_only_init :
  SurveyDesign_init (T:=Q) (Some [0; 0; 1; 1]%Z) None None None None "boot" true
  = Ok strata_only.
Proof. reflexivity. Qed.

Example three_clusters_init :
  SurveyDesign_init (T:=Q) (Some [5; 5; 5; 5; 5; 5]%Z) (Some [0; 0; 1; 1; 2; 2]%Z)
    None None None "mean_boot" true = Ok three_clusters.
Proof. reflexivity. Qed.

Example mean_two_by_two_init :
  SurveyMean_init two_by_two (Arr1 [10; 20; 30; 40]%Q) false None None (0 : nat)
  = Ok (mean_two_by_two, 0).
Proof. reflexivity. Qed.

Example mean_two_by_two_est : mean_two_by_two !! "est" = Some (VArr [25]%Q).
Proof. reflexivity. Qed.

(** C1 on the scenario of the specification: deleting cluster 0 of
    [two_by_two] gives the weights 0, 2, 1, 1 *)
Lemma jackknife_rep_weights_witness :
  ∃ w', get_rep_weights two_by_two 0 None (0 : nat) = Ok (w', 0) ∧
        w' !! 0 = Some 0%Q ∧ w' !! 1 = Some 2%Q ∧
        w' !! 2 = Some 1%Q ∧ w' !! 3 = Some 1%Q.
Proof.
  destruct (jackknife_rep_weights_spec (T:=Q) (G:=nat) _ _ _ _ _ _ two_by_two_init)
    as (v & Hv & _ & _ & Hspec).
  rewrite two_by_two_view_eq in Hv. injection Hv as <-.
  destruct (Hspec 0 0 2 None 0 eq_refl eq_refl (le_n 2)) as (w' & Hw & _ & Hpt & _).
  exists w'. split; [exact Hw|]. split_and!.
  - exact (Hpt 0 1%Q 0 0 eq_refl eq_refl eq_refl).
  - exact (Hpt 1 1%Q 0 1 eq_refl eq_refl eq_refl).
  - exact (Hpt 2 1%Q 1 2 eq_refl eq_refl eq_refl).
  - exact (Hpt 3 1%Q 1 3 eq_refl eq_refl eq_refl).
Defined.

(** C1 as stated fails without nesting: cluster 0 of [straddling] has an
    observation in stratum 1, outside the stratum of the cluster, and its
    weight is set to 0 instead of being left unchanged *)
Lemma jackknife_straddling_cluster :
  ∃ v w', view straddling = Ok v ∧
    get_rep_weights straddling 0 None (0 : nat) = Ok (w', 0) ∧
    ¬ jackknife_weights_as_stated v 0 w'.
Proof.
  exists straddling_view, [0; 2; 0; 1]%Q.
  split; [exact straddling_view_eq|]. split; [exact straddling_weights|].
  intros Hclaim. destruct (Hclaim 0 2) as [_ Hpt]; [done | done | lia |].
  destruct (Hpt 2 1%Q 1 0) as (_ & _ & Hout); [done..|].
  by specialize (Hout ltac:(done)).
Qed.

(** C2 on [two_by_two]: four clusters, and the index sets list them all *)
Lemma design_bookkeeping_witness :
  ∃ v, view two_by_two = Ok v ∧ v_nclust v = 4 ∧
       concat (v_ii v) ≡ₚ [0; 1; 2; 3].
Proof.
  destruct (design_bookkeeping (T:=Q) _ _ _ _ _ _ _ two_by_two_init)
    as (v & Hv & _ & _ & _ & _ & _ & Hperm & _).
  exists v. split; [exact Hv|].
  rewrite two_by_two_view_eq in Hv. injection Hv as <-.
  split; [reflexivity | exact Hperm].
Defined.

(** C3 as stated fails on an empty strata array: it meets none of the listed
    conditions, and the constructor raises on it *)
Lemma construction_empty_arrays :
  ¬ construction_as_stated (T:=Q) (Some []) None None None None "jack" true.
Proof.
  intros [Hraise _].
  destruct Hraise as [Hcm|[[[? [=]] _]|[(_ & [=] & _)|Hlen]]].
  - by eexists.
  - apply Hcm. unfold cov_methods. set_solver.
  - apply Hlen. unfold supplied_lengths. simpl.
    intros x y ->%list_elem_of_singleton ->%list_elem_of_singleton. done.
Qed.

(** an [fpc] shorter than the other arrays makes the constructor raise an
    IndexError *)
Example construction_short_fpc :
  SurveyDesign_init (T:=Q) (Some [0; 1]%Z) None None None (Some []) "jack" true
  = Err IndexError.
Proof. reflexivity. Qed.

(** C3 on strata labels alone: the weights default to ones *)
Lemma construction_errors_witness :
  attr_arr strata_only "weights" = Ok [1; 1; 1; 1]%Q.
Proof.
  destruct (construction_errors (T:=Q)
              (Some [0; 0; 1; 1]%Z) None None None None "boot" true)
    as (_ & _ & Hok).
  - intros _ n ->%list_elem_of_singleton. simpl. lia.
  - by intros _ f n [=].
  - destruct (Hok strata_only strata_only_init) as (n & Hn & Hw & _).
    rewrite Hw. rewrite <- (Hn 4) by (by left). reflexivity.
Defined.

(** C6 on [three_clusters] *)
Lemma mean_bootstrap_raises_witness :
  get_rep_weights three_clusters 0 (Some 2%Z) (0 : nat) = Err AttributeError.
Proof.
  exact (mean_bootstrap_raises (T:=Q) (G:=nat) _ _ _ _ _ three_clusters 0
           (Some 2%Z) 0 three_clusters_init).
Defined.

(** the sibling generator on the same arrays returns a weight vector *)
Example bootstrap_three_clusters :
  get_rep_weights
    (design_of (SurveyDesign_init (T:=Q) (Some [5; 5; 5; 5; 5; 5]%Z)
                  (Some [0; 0; 1; 1; 2; 2]%Z) None None None "boot" true))
    0 None (0 : nat)
  = Ok ([2 # 3; 2 # 3; 2 # 3; 2 # 3; 0; 0]%Q, 2).
Proof. reflexivity. Qed.

(** levels inside [0, 1] do not pass the check, and a level above 1 is not
    reported as a ValueError *)
Example check_quantile_half : check_quantile [1 # 2]%Q = Err TypeError.
Proof. reflexivity. Qed.

Example check_quantile_above_one : check_quantile [1 # 2; 3 # 2]%Q = Err TypeError.
Proof. reflexivity. Qed.

Example check_quantile_negative : check_quantile [(-1) # 2; 1 # 2]%Q = Err ValueError.
Proof. reflexivity. Qed.

Example quantile_two_by_two :
  SurveyQuantile_init two_by_two (Arr1 [1; 2; 3; 4]%Q) [1 # 2]%Q VNone false None
    (0 : nat) = Err TypeError.
Proof. reflexivity. Qed.


(** C5 on the mean of 10, 20, 30, 40 over [two_by_two] *)
Lemma pseudo_values_not_retained_witness :
  dom mean_two_by_two = {["design"; "mse"; "data"; "est"; "vcov"; "stderr"]} ∧
  mean_two_by_two !! "pseudo" = None.
Proof.
  exact (pseudo_values_not_retained (T:=Q) (G:=nat) two_by_two
           (Arr1 [10; 20; 30; 40]%Q) false None None 0 0 mean_two_by_two
           (or_introl mean_two_by_two_init)).
Defined.

(** with a negative weight the cumulative weights 3, 1, 2, 4 are not
    ascending: the bisection finds the target 2 at position 2, a tie, and
    the value is (3 + 4) / 2 *)
Example quantile_negative_weight :
  SurveyQuantile_stat quantile_half [3; -2; 1; 2]%Q 0 = Ok [7 # 2]%Q.
Proof. reflexivity. Qed.

Example negative_weight_position :
  np_searchsorted [3; 1; 2; 4]%Q [2]%Q = [2] ∧
  first_not_below [3; 1; 2; 4]%Q 2%Q = 0.
Proof. split; reflexivity. Qed.

(** the comparison of the rationals is a strict weak order *)
Lemma QOps_flt_order : flt_order (T:=Q).
Proof.
  split; intros x y z; cbn; rewrite ?negb_true_iff, ?negb_false_iff.
  - intros Hxy%not_true_iff_false Hyz%not_true_iff_false.
    apply not_true_iff_false. rewrite Qle_bool_iff in *.
    apply Qnot_le_lt in Hxy, Hyz. apply Qlt_not_le. by eapply Qlt_trans.
  - rewrite !Qle_bool_iff. intros Hyx Hzy. by eapply Qle_trans.
Qed.

Example cumsum_ones_ascending : ascending (np_cumsum [1; 1; 1; 1]%Q).
Proof. repeat constructor. Qed.

(** C9 on weights [1, 1, 1, 1] and sorted data [1, 2, 3, 4]: the level 1/2 has
    target 2 = cw[1], a tie, and yields (2 + 3) / 2; the level 3/10 has
    target 6/5, no tie, and yields 2; both are found at position 1, the
    first cumulative weight not below the target *)
Lemma quantile_tie_rule_witness :
  ∃ res, SurveyQuantile_stat quantile_example [1; 1; 1; 1]%Q 0 = Ok res ∧
         res !! 0 = Some (5 # 2)%Q ∧ res !! 1 = Some 2%Q ∧
         np_searchsorted [1; 2; 3; 4]%Q [2; 6 # 5]%Q =
           first_not_below [1; 2; 3; 4]%Q <$> [2; 6 # 5]%Q.
Proof.
  destruct (quantile_tie_rule (T:=Q) quantile_example [1; 1; 1; 1]%Q 0 1
              [[3]; [1]; [4]; [2]]%Q [1 # 2; 3 # 10]%Q)
    as (cw_last & res & Hlast & Hres & _ & _ & Hasc & Hpt);
    [reflexivity | lia | reflexivity | reflexivity | reflexivity | done |].
  change (Some 4%Q = Some cw_last) in Hlast. injection Hlast as <-.
  exists res. split; [exact Hres|].
  destruct (Hpt 0 (1 # 2)%Q 1 eq_refl eq_refl)
    as (a0 & b0 & c0 & Ha0 & Hb0 & Hc0 & H0).
  destruct (Hpt 1 (3 # 10)%Q 1 eq_refl eq_refl)
    as (a1 & b1 & c1 & Ha1 & Hb1 & Hc1 & H1).
  change (Some 2%Q = Some a0) in Ha0. injection Ha0 as <-.
  change (Some 3%Q = Some b0) in Hb0. injection Hb0 as <-.
  change (Some 2%Q = Some c0) in Hc0. injection Hc0 as <-.
  change (Some 2%Q = Some a1) in Ha1. injection Ha1 as <-.
  change (Some 2%Q = Some c1) in Hc1. injection Hc1 as <-.
  split_and!; [exact H0 | exact H1 |].
  exact (Hasc QOps_flt_order cumsum_ones_ascending).
Defined.

(** C10 on [two_by_two]: the column matrix gives the object the
    one-dimensional array gives *)
Lemma one_dimensional_data_witness :
  SurveyMean_init two_by_two (Arr2 1 [[10]; [20]; [30]; [40]]%Q) false
    None None (0 : nat) = Ok (mean_two_by_two, 0) ∧
  mean_two_by_two !! "data" = Some (VMat 1 [[10]; [20]; [30]; [40]]%Q).
Proof.
  destruct (one_dimensional_data (T:=Q) (G:=nat)) as [Heq Hrun].
  destruct (Hrun _ _ _ _ _ _ [1; 1; 1; 1]%Q [10; 20; 30; 40]%Q false None None 0
              two_by_two_init eq_refl eq_refl)
    as [(obj & est & vcov & stderr & Hobj & Hdata & _) _].
  pose proof (f_equal stat_of Hobj) as Eobj.
  change (mean_two_by_two = obj) in Eobj. subst obj.
  split; [|exact Hdata].
  destruct (Heq two_by_two [10; 20; 30; 40]%Q false None None 0) as [He _].
  exact (eq_trans (eq_sym He) Hobj).
Defined.

(** ** The further properties on small designs *)

Example labelled_init :
  SurveyDesign_init (T:=Q) (Some [7; 3; 7; 3; 3]%Z) (Some [1; 1; 2; 1; 2]%Z)
    None None (Some [1 # 10; 2 # 10; 3 # 10; 4 # 10; 5 # 10]%Q) "jack" true
  = Ok labelled.
Proof. reflexivity. Qed.

Example labelled_view_eq : view labelled = Ok labelled_view.
Proof. reflexivity. Qed.

Example lonely_init :
  SurveyDesign_init (Some [0; 0; 1]%Z) (Some [0; 1; 2]%Z)
    (Some [1; 1; 1]%Q) None None "jack" true = Ok lonely.
Proof. reflexivity. Qed.

Example lonely_view_eq : view lonely = Ok lonely_view.
Proof. reflexivity. Qed.

Example replicated_init :
  SurveyDesign_init (T:=Q) None None None
    (Some (2, [[1; 2]; [3; 4]; [5; 6]]%Q)) None "jack" true = Ok replicated.
Proof. reflexivity. Qed.

Example replicated_weights : attr_arr replicated "weights" = Ok [1; 1; 1]%Q.
Proof. reflexivity. Qed.

Example three_clusters_boot_init :
  SurveyDesign_init (T:=Q) (Some [5; 5; 5; 5; 5; 5]%Z) (Some [0; 0; 1; 1; 2; 2]%Z)
    None None None "boot" true = Ok three_clusters_boot.
Proof. reflexivity. Qed.

Example strata_only_weights : attr_arr strata_only "weights" = Ok [1; 1; 1; 1]%Q.
Proof. reflexivity. Qed.

Example strata_only_method : attr_str strata_only "cov_method" = Ok "boot".
Proof. reflexivity. Qed.

Example three_clusters_weights :
  attr_arr three_clusters "weights" = Ok [1; 1; 1; 1; 1; 1]%Q.
Proof. reflexivity. Qed.

Example two_by_two_weights : attr_arr two_by_two "weights" = Ok [1; 1; 1; 1]%Q.
Proof. reflexivity. Qed.

Example two_by_two_method : attr_str two_by_two "cov_method" = Ok "jack".
Proof. reflexivity. Qed.

Example quantile_example_stat :
  SurveyQuantile_stat quantile_example [1; 1; 1; 1]%Q 0 = Ok [5 # 2; 2]%Q.
Proof. reflexivity. Qed.

(** the counter source draws from the population *)
Lemma counter_draws : draws_from_population nat.
Proof.
  intros g a k x Ha. simpl. intros (j & -> & _)%list_elem_of_fmap.
  destruct (lookup_lt_is_Some_2 a ((g + j) mod length a)) as [y Hy].
  { apply Nat.mod_upper_bound. by destruct a. }
  rewrite Hy. simpl. by eapply list_elem_of_lookup_2.
Qed.

(** X1 on [labelled]: the labels 7 and 3 become the codes 1 and 0 *)
Lemma strata_relabelling_witness :
  ∃ v, view labelled = Ok v ∧ length (v_strat v) = 5 ∧ v_nstrat v = 2 ∧
       (∀ a, a < v_nstrat v ↔ a ∈ v_strat v).
Proof.
  destruct (strata_relabelling (T:=Q) _ _ _ _ _ _ _ labelled_init)
    as (v & Hv & Hlen & Hn & Hcodes & _).
  exists v. split_and!; [exact Hv | exact Hlen | exact Hn | exact Hcodes].
Defined.

(** X2 on [labelled]: the cluster label 1 is used in both strata and gets
    two codes *)
Lemma cluster_relabelling_witness :
  ∃ v, view labelled = Ok v ∧ length (v_sclust v) = 5 ∧
       (∀ a, a < v_nclust v ↔ a ∈ v_sclust v) ∧
       ∀ a b, v_sclust v !! 0 = Some a → v_sclust v !! 1 = Some b → a ≠ b.
Proof.
  destruct (cluster_relabelling (T:=Q) _ _ _ _ _ _ _ labelled_init)
    as (v & Hv & Hlen & Hcodes & Hpt).
  exists v. split_and!; [exact Hv | exact Hlen | exact Hcodes |].
  intros a b Ha Hb Hab.
  destruct (Hpt 0 1 a b 1%Z 1%Z 7%Z 3%Z eq_refl eq_refl eq_refl eq_refl Ha Hb)
    as [Hfwd _].
  destruct (Hfwd Hab) as [_ Hs]. by specialize (Hs eq_refl).
Defined.

(** X3 on [labelled] *)
Lemma cluster_first_observation_witness :
  ∃ v, view labelled = Ok v ∧ length (v_fpc v) = v_nclust v ∧
       ∃ i, v_sclust v !! i = Some 2 ∧
            v_strat_for_clust v !! 2 = v_strat v !! i ∧
            v_fpc v !! 2 = [1 # 10; 2 # 10; 3 # 10; 4 # 10; 5 # 10]%Q !! i.
Proof.
  destruct (cluster_first_observation (T:=Q) _ _ _ _ _ _ _ labelled_init)
    as (v & Hv & Hlen & _ & Hpt).
  exists v. split_and!; [exact Hv | exact Hlen |].
  pose proof Hv as Hv'. rewrite labelled_view_eq in Hv'. injection Hv' as <-.
  destruct (Hpt 2) as (i & Hi & _ & Hs & Hf); [simpl; lia|].
  exists i. split_and!; [exact Hi | exact Hs | exact (Hf _ eq_refl)].
Defined.

(** X4 on [labelled]: two strata, four clusters *)
Lemma nested_strata_have_clusters_witness :
  ∃ v, view labelled = Ok v ∧
       length (v_clust_per_strat v) = v_nstrat v ∧ v_nstrat v ≤ v_nclust v.
Proof.
  destruct (nested_strata_have_clusters (T:=Q) _ _ _ _ _ _ labelled_init)
    as (v & Hv & Hlen & _ & _ & Hle).
  exists v. split_and!; [exact Hv | exact Hlen | exact Hle].
Defined.

(** X5 on [two_by_two], which has the clusters 0 .. 3 *)
Lemma jackknife_cluster_out_of_range_witness :
  get_rep_weights two_by_two 4 None (0 : nat) = Err IndexError.
Proof.
  exact (jackknife_cluster_out_of_range (T:=Q) (G:=nat) _ _ _ _ _ _
           two_by_two_view 4 None 0 two_by_two_init two_by_two_view_eq (le_n 4)).
Defined.

(** X6 on [lonely]: deleting cluster 2, alone in stratum 1 *)
Lemma jackknife_singleton_stratum_witness :
  ∃ w', get_rep_weights lonely 2 None (0 : nat) = Ok (w', 0) ∧
        w' !! 0 = Some 1%Q ∧ w' !! 2 = Some 0%Q.
Proof.
  destruct (jackknife_singleton_stratum (T:=Q) (G:=nat) _ _ _ _ _ lonely_init)
    as (v & Hv & Hspec).
  rewrite lonely_view_eq in Hv. injection Hv as <-.
  destruct (Hspec 2 1 None 0 eq_refl eq_refl) as (w' & Hw & _ & Hpt).
  exists w'. split; [exact Hw|]. split.
  - exact (Hpt 0 1%Q 0 eq_refl eq_refl).
  - exact (Hpt 2 1%Q 1 eq_refl eq_refl).
Defined.

(** X7 on [replicated]: column 1 starts with 2, and there is no column 2 *)
Lemma rep_weights_columns_witness :
  (∃ col, get_rep_weights replicated 1 None (0 : nat) = Ok (col, 0) ∧
          col !! 0 = Some 2%Q) ∧
  get_rep_weights replicated 2 None (0 : nat) = Err IndexError.
Proof.
  split.
  - destruct (rep_weights_columns (T:=Q) (G:=nat) _ _ _ _ _ _ _ _ _ 1 None 0
                replicated_init) as [Hin _].
    destruct (Hin (le_n 2)) as (col & Hcol & _ & Hpt).
    exists col. split; [exact Hcol|].
    exact (Hpt 0 [1; 2]%Q 2%Q eq_refl eq_refl).
  - destruct (rep_weights_columns (T:=Q) (G:=nat) _ _ _ _ _ _ _ _ _ 2 None 0
                replicated_init) as [_ Hout].
    exact (Hout (le_n 2)).
Defined.

(** X8 on [strata_only], a bootstrap design *)
Lemma bootstrap_needs_replicates_witness :
  SurveyMean_init strata_only (Arr1 [1; 2; 3; 4]%Q) false None None (0 : nat)
  = Err TypeError.
Proof.
  destruct (bootstrap_needs_replicates (T:=Q) (G:=nat) strata_only [1; 1; 1; 1]%Q
              "boot" (Arr1 [1; 2; 3; 4]%Q) 1 [[1]; [2]; [3]; [4]]%Q false None 0
              strata_only_weights strata_only_method) as [Hm _];
    [done | reflexivity | reflexivity | exact Hm].
Defined.

(** X9 on [three_clusters] with two replicates *)
Lemma mean_bootstrap_never_estimates_witness :
  SurveyTotal_init three_clusters (Arr1 [1; 2; 3; 4; 5; 6]%Q) (Some 2%Z) false
    (Some 2%Z) (0 : nat) = Err AttributeError.
Proof.
  destruct (mean_bootstrap_never_estimates (T:=Q) (G:=nat) _ _ _ _ _ _
              [1; 1; 1; 1; 1; 1]%Q (Arr1 [1; 2; 3; 4; 5; 6]%Q) 1
              [[1]; [2]; [3]; [4]; [5]; [6]]%Q false 2%Z (Some 2%Z) 0
              three_clusters_init three_clusters_weights) as [_ Ht];
    [reflexivity | reflexivity | lia | exact Ht].
Defined.

(** X10 on [strata_only] with zero replicates *)
Lemma no_replicates_scalar_variance_witness :
  ∃ obj, SurveyMean_init strata_only (Arr1 [1; 2; 3; 4]%Q) false (Some 0%Z) None
           (0 : nat) = Ok (obj, 0) ∧
         obj !! "vcov" = Some (VFloat (fdiv (of_Z 0) (of_Z 0))).
Proof.
  destruct (no_replicates_scalar_variance (T:=Q) (G:=nat) strata_only [1; 1; 1; 1]%Q
              "boot" (Arr1 [1; 2; 3; 4]%Q) 1 [[1]; [2]; [3]; [4]]%Q 0%Z None 0
              strata_only_weights strata_only_method)
    as [(e & obj & _ & Hobj & _ & Hv & _) _];
    [done | reflexivity | reflexivity | lia |].
  exists obj. split; [exact Hobj | exact Hv].
Defined.

(** X11 on the mean of 10, 20, 30, 40 over [two_by_two] *)
Lemma result_fields_witness :
  ∃ w e, attr_arr two_by_two "weights" = Ok w ∧
         call_stat Mean (stat_self two_by_two false (Arr1 [10; 20; 30; 40]%Q)) w
           = Ok e ∧
         mean_two_by_two !! "est" = Some (VArr e).
Proof.
  destruct (result_fields (T:=Q) (G:=nat) two_by_two (Arr1 [10; 20; 30; 40]%Q)
              false None None 0 0 mean_two_by_two Mean
              (or_introl (conj eq_refl mean_two_by_two_init)))
    as (w & e & Hw & He & Hest & _).
  exists w, e. split_and!; [exact Hw | exact He | exact Hest].
Defined.

(** X12 on [quantile_example]: the value 5/2 is the midpoint of the
    observed values 2 and 3 *)
Lemma quantile_values_observed_witness :
  (∃ r, r ∈ [[3]; [1]; [4]; [2]]%Q ∧ r !! 0 = Some (5 # 2)%Q) ∨
  (∃ a b, (∃ r, r ∈ [[3]; [1]; [4]; [2]]%Q ∧ r !! 0 = Some a) ∧
          (∃ r, r ∈ [[3]; [1]; [4]; [2]]%Q ∧ r !! 0 = Some b) ∧
          (5 # 2)%Q = fdiv (fadd a b) (of_Z 2)).
Proof.
  apply (quantile_values_observed (T:=Q) quantile_example [1; 1; 1; 1]%Q 0 1
           [[3]; [1]; [4]; [2]]%Q [5 # 2; 2]%Q).
  - reflexivity.
  - repeat constructor.
  - exact quantile_example_stat.
  - left.
Defined.

(** X13 on [quantile_ends]: level 1 gives the largest value, level 0 the
    smallest *)
Lemma quantile_extremes_witness :
  ∃ res, SurveyQuantile_stat quantile_ends [1; 1; 1; 1]%Q 0 = Ok res ∧
         res !! 0 = Some 4%Q ∧ res !! 1 = Some 1%Q.
Proof.
  destruct (quantile_extremes (T:=Q) quantile_ends [1; 1; 1; 1]%Q 0 1
              [[3]; [1]; [4]; [2]]%Q [1; 0]%Q)
    as (cw_last & res & Hlast & Hres & Hpt);
    [reflexivity | lia | reflexivity | reflexivity | reflexivity | done
    | exact QOps_flt_order | exact cumsum_ones_ascending |].
  change (Some 4%Q = Some cw_last) in Hlast. injection Hlast as <-.
  exists res. split; [exact Hres|]. split.
  - destruct (Hpt 0 1%Q eq_refl) as [Htop _].
    refine (eq_trans (Htop _) eq_refl).
    intros k x Hk.
    destruct k as [|[|[|k]]]; [intros [= <-]; reflexivity..|simpl in Hk; lia].
  - destruct (Hpt 1 0%Q eq_refl) as [_ Hbot].
    exact (Hbot 1%Q ltac:(simpl; lia) eq_refl eq_refl eq_refl).
Defined.

(** X14 on [two_by_two] with two data columns *)
Lemma jackknife_shapes_witness :
  ∃ obj est vcov,
    SurveyMean_init two_by_two (Arr2 2 [[1; 2]; [3; 4]; [5; 6]; [7; 8]]%Q) false
      None None (0 : nat) = Ok (obj, 0) ∧
    obj !! "est" = Some (VArr est) ∧ length est = 2 ∧
    obj !! "vcov" = Some (VMat 2 vcov) ∧ length vcov = 2.
Proof.
  destruct (jackknife_shapes (T:=Q) (G:=nat) _ _ _ _ _ _ [1; 1; 1; 1]%Q 2
              [[1; 2]; [3; 4]; [5; 6]; [7; 8]]%Q false None None 0
              two_by_two_init two_by_two_weights)
    as [(obj & est & vcov & sd & Hobj & He & Hle & Hv & Hlv & _) _];
    [repeat constructor | reflexivity |].
  exists obj, est, vcov.
  split_and!; [exact Hobj | exact He | exact Hle | exact Hv | exact Hlv].
Defined.

(** X15 on [two_by_two], four observations, with three data values *)
Lemma row_count_mismatch_witness :
  SurveyMean_init two_by_two (Arr1 [1; 2; 3]%Q) false None None (0 : nat)
  = Err ValueError.
Proof.
  destruct (row_count_mismatch (T:=Q) (G:=nat) two_by_two [1; 1; 1; 1]%Q "jack"
              (Arr1 [1; 2; 3]%Q) 1 [[1]; [2]; [3]]%Q false None None 0
              two_by_two_weights two_by_two_method) as [Hm _];
    [reflexivity | simpl; lia | exact Hm].
Defined.

(** X16 on [three_clusters_boot] with the counter source *)
Lemma bootstrap_weights_nested_witness :
  ∃ v w' g', view three_clusters_boot = Ok v ∧
    get_rep_weights three_clusters_boot 0 None (0 : nat) = Ok (w', g') ∧
    length w' = length (v_weights v).
Proof.
  destruct (bootstrap_weights_nested (T:=Q) (G:=nat) _ _ _ _ _ 0 None 0
              counter_draws three_clusters_boot_init)
    as (v & Hv & w' & cc & g' & Hrun & Hlen & _).
  exists v, w', g'. split_and!; [exact Hv | exact Hrun | exact Hlen].
Defined.

(** X17 on [replicated]: two columns, two replicates *)
Lemma replicate_weights_jackknife_witness :
  ∃ obj est jdata,
    SurveyMean_init replicated (Arr1 [1; 2; 3]%Q) false None None (0 : nat)
      = Ok (obj, 0) ∧
    obj !! "est" = Some (VArr est) ∧ length jdata = 2 ∧
    Forall2 (λ c r, ∃ col, get_rep_weights replicated c None (0 : nat) = Ok (col, 0) ∧
                           call_stat Mean
                             (stat_self replicated false (Arr1 [1; 2; 3]%Q)) col
                           = Ok r) [0; 1] jdata.
Proof.
  destruct (replicate_weights_jackknife (T:=Q) (G:=nat) _ _ _ _ _ _ _ _
              [1; 1; 1]%Q (Arr1 [1; 2; 3]%Q) 1 [[1]; [2]; [3]]%Q false None None 0
              replicated_init replicated_weights) as [_ Hok]; [reflexivity..|].
  destruct (Hok (le_S _ _ (le_n 1)) Mean (or_introl eq_refl))
    as (obj & est & jdata & Hobj & _ & Hall & Hest & _).
  exists obj, est, jdata. split_and!; [exact Hobj | exact Hest | | exact Hall].
  exact (eq_sym (Forall2_length _ _ _ Hall)).
Defined.
